(** * Business-permit verification pipeline (farmtoclick backend)

    A shallow embedding of [backend/image_verification.py] and of the
    vectoriser of [backend/permit_feature_extractor.py], followed by the
    properties of the pipeline that the specification states.

    The embedding also covers the audit trail
    ([save_verification_record]) and the callers of the pipeline: the
    upload test of [backend/helpers.py], the dataset extraction of
    [backend/train_permit_model.py], and the route [farmer_verify] of
    [backend/routes/farmers.py] with the attributes of
    [backend/user_model.py] that it reads or assigns.  Further properties,
    read off the code, follow those of the specification.

    Modelling conventions.
    - Python [float] is IEEE binary64: Rocq's primitive [float], with the
      primitive comparisons ([a < b] is [ltb a b], [a >= b] is [leb b a]).
    - Python [int] is [Z].
    - Python [str] is [string].  Literals are written as in the source.  The
      character classes used by [str.lower], [str.upper], [str.strip] and by
      the regular expressions [\s], [\w], [\b] follow Python on ASCII text;
      every other character is neither white space nor a word character
      and has no case.
    - [None] is [None]; a value tested with [if x] is tested with [truthy].
    - A dictionary with a fixed set of keys is a record; a key that a branch
      may leave out is an [option] field.  The feature dictionary, whose keys
      vary, is a [gmap].
    - Library calls (OpenCV, PIL, pyzbar, Tesseract, requests, joblib models,
      fuzzywuzzy, difflib, [re] with the larger patterns, [urlparse],
      [round], float formatting) are not part of the repository.  Pure ones
      are fields of [PyLib]; those that read the image file, the network or
      the installation are fields of [World].
    - A call that can raise returns an [outcome].
    - [verify_permit_image] runs in a small monad that logs each stage it
      invokes, so that "never invokes" is a statement about the log.
    - The route returns its answer together with what it did besides
      answering (the file stored, the permit verified, the record written,
      the user saved), as a list of [Effect]; the database, the file system
      and the clock are fields of [Db], [Storage] and [App].
    - [print] is not modelled. *)

From Stdlib Require Import ZArith Floats Ascii String List Bool Lia.
From Stdlib Require Import DecimalString.
From stdpp Require Import gmap strings list.

Set Warnings "-inexact-float".
#[local] Open Scope string_scope.
#[local] Open Scope Z_scope.

(** ** Results of calls that may raise *)

Inductive outcome (A : Type) : Type :=
| Returned (a : A)
| Raised (e : string).
Arguments Returned {A} a.
Arguments Raised {A} e.

(** ** Python text operations *)

Definition code (c : ascii) : N := N_of_ascii c.

Definition in_range (lo hi : N) (c : ascii) : bool :=
  ((lo <=? code c) && (code c <=? hi))%N.

(** [str.isspace] and the class [\s]: TAB LF VT FF CR, FS GS RS US, space. *)
Definition isspace (c : ascii) : bool :=
  in_range 9 13 c || in_range 28 32 c.

(** The class [\w]: letters, digits and the underscore. *)
Definition isword (c : ascii) : bool :=
  in_range 48 57 c || in_range 65 90 c || in_range 97 122 c
  || (code c =? 95)%N.

(** The class [[a-z0-9]]. *)
Definition is_az09 (c : ascii) : bool :=
  in_range 97 122 c || in_range 48 57 c.

Definition lower_char (c : ascii) : ascii :=
  if in_range 65 90 c then ascii_of_N (code c + 32) else c.

Definition upper_char (c : ascii) : ascii :=
  if in_range 97 122 c then ascii_of_N (code c - 32) else c.

Fixpoint str_map (f : ascii -> ascii) (s : string) : string :=
  match s with
  | EmptyString => EmptyString
  | String c s' => String (f c) (str_map f s')
  end.

Definition lower (s : string) : string := str_map lower_char s.
Definition upper (s : string) : string := str_map upper_char s.

Definition is_empty (s : string) : bool :=
  match s with EmptyString => true | String _ _ => false end.

(** [s.lstrip(chars)], [s.rstrip(chars)], [s.strip(chars)], with the set of
    characters given as a predicate. *)
Fixpoint lstrip_if (p : ascii -> bool) (s : string) : string :=
  match s with
  | EmptyString => EmptyString
  | String c s' => if p c then lstrip_if p s' else s
  end.

Fixpoint rstrip_if (p : ascii -> bool) (s : string) : string :=
  match s with
  | EmptyString => EmptyString
  | String c s' =>
      let r := rstrip_if p s' in
      if is_empty r && p c then EmptyString else String c r
  end.

Definition strip_if (p : ascii -> bool) (s : string) : string :=
  rstrip_if p (lstrip_if p s).

(** [s.strip()] *)
Definition strip (s : string) : string := strip_if isspace s.

(** [s.startswith(p)] *)
Fixpoint startswith (p s : string) : bool :=
  match p, s with
  | EmptyString, _ => true
  | String a p', String b s' => Ascii.eqb a b && startswith p' s'
  | String _ _, EmptyString => false
  end.

(** [sub in s] *)
Fixpoint contains (sub s : string) : bool :=
  match s with
  | EmptyString => is_empty sub
  | String _ s' => startswith sub s || contains sub s'
  end.

Fixpoint drop_chars (n : nat) (s : string) : string :=
  match n, s with
  | O, _ => s
  | S n', String _ s' => drop_chars n' s'
  | S _, EmptyString => EmptyString
  end.

(** [s.split(sep)] for a one-character separator: never the empty list. *)
Fixpoint split_char (sep : ascii) (s : string) : list string :=
  match s with
  | EmptyString => [EmptyString]
  | String c s' =>
      if Ascii.eqb c sep then EmptyString :: split_char sep s'
      else match split_char sep s' with
           | [] => [String c EmptyString]
           | w :: ws => String c w :: ws
           end
  end.

(** [s.split(sep, 1)[1]]: what follows the first separator; [None] stands
    for the IndexError of a string without separator. *)
Fixpoint after_first (sep : ascii) (s : string) : option string :=
  match s with
  | EmptyString => None
  | String c s' => if Ascii.eqb c sep then Some s' else after_first sep s'
  end.

(** [s.split(sep, 1)[0]] *)
Fixpoint before_first (sep : ascii) (s : string) : string :=
  match s with
  | EmptyString => EmptyString
  | String c s' =>
      if Ascii.eqb c sep then EmptyString else String c (before_first sep s')
  end.

(** [str(n)] for an int *)
Definition str_of_int (n : Z) : string :=
  NilZero.string_of_int (Z.to_int n).

(** Truth value of an optional text: [None] and [''] are false. *)
Definition truthy (o : option string) : bool :=
  match o with
  | Some (String _ _) => true
  | _ => false
  end.

(** [a or b] on optional texts *)
Definition py_or (a b : option string) : option string :=
  if truthy a then a else b.

(** [str(x)] inside an f-string, for an optional text *)
Definition str_of_opt (o : option string) : string :=
  match o with Some s => s | None => "None" end.

(** *** The three substitutions of [_normalize_name] *)

(** Does the literal word [w] match at the head of [s], with a word
    boundary after it?  ([w] is made of word characters, so the boundary
    holds at the end of the text or before a non-word character.) *)
Definition word_here (w s : string) : bool :=
  startswith w s &&
  match drop_chars (String.length w) s with
  | EmptyString => true
  | String d _ => negb (isword d)
  end.

(** [re.sub(r'\b' + w + r'\b', '', s)] for a literal word [w] of word
    characters.  The scan goes left to right over the original text;
    [prev] tells whether the preceding character of the original text is a
    word character ([false] at the start), and [skip] counts the characters
    of a match still to be dropped. *)
Fixpoint sub_word_from (w : string) (skip : nat) (prev : bool) (s : string)
  : string :=
  match s with
  | EmptyString => EmptyString
  | String c s' =>
      match skip with
      | S k => sub_word_from w k (isword c) s'
      | O =>
          if negb prev && word_here w s
          then sub_word_from w (String.length w - 1) (isword c) s'
          else String c (sub_word_from w O (isword c) s')
      end
  end.

Definition re_sub_word (w s : string) : string := sub_word_from w O false s.

(** [re.sub(r'[^a-z0-9\s]', '', s)] *)
Fixpoint re_sub_not_alnum_space (s : string) : string :=
  match s with
  | EmptyString => EmptyString
  | String c s' =>
      if is_az09 c || isspace c then String c (re_sub_not_alnum_space s')
      else re_sub_not_alnum_space s'
  end.

(** [re.sub(r'\s+', ' ', s)]: every maximal run of white space becomes one
    space.  [in_run] tells whether the preceding character was white
    space. *)
Fixpoint collapse_from (in_run : bool) (s : string) : string :=
  match s with
  | EmptyString => EmptyString
  | String c s' =>
      if isspace c
      then if in_run then collapse_from true s'
           else String " " (collapse_from true s')
      else String c (collapse_from false s')
  end.

Definition re_sub_spaces (s : string) : string := collapse_from false s.

(** ** Numbers *)

(** [float(n)] for an int: the nearest binary64 value, ties to even.  The
    value is infinite exactly when Python raises OverflowError. *)
Definition float_of_Z (z : Z) : float :=
  SF2Prim (binary_normalize prec emax z 0 false).

(** [a / b] on two small ints (counters): both convert exactly, so the true
    division is the float division of the conversions. *)
Definition int_truediv (a b : Z) : float :=
  (float_of_Z a / float_of_Z b)%float.

(** [min(a, b)] and [max] over a sequence, with Python's comparisons: the
    first argument stays unless the later one is strictly better. *)
Definition py_min (a b : float) : float := if (b <? a)%float then b else a.

Fixpoint py_max_from (best : float) (xs : list float) : float :=
  match xs with
  | [] => best
  | x :: xs' => py_max_from (if (best <? x)%float then x else best) xs'
  end.

Definition py_max (xs : list float) : outcome float :=
  match xs with
  | [] => Raised "ValueError"
  | x :: xs' => Returned (py_max_from x xs')
  end.

(** A number stored in a feature dictionary. *)
Inductive pynum : Type :=
| PyInt (z : Z)
| PyFloat (f : float).

(** [float(v)] *)
Definition py_float (v : pynum) : outcome float :=
  match v with
  | PyFloat f => Returned f
  | PyInt z =>
      let f := float_of_Z z in
      if is_infinity f then Raised "OverflowError" else Returned f
  end.

(** ** Library functions the code calls *)

(** The three parts of [urlparse(url)] that the code reads. *)
Record ParseResult : Type := {
  netloc : string;
  path : string;
  query : string;
}.

Record PyLib : Type := {
  (** [round(x, ndigits)] *)
  py_round : float -> Z -> float;
  (** [f"{x:.0%}"] and [f"{x:.0f}"] *)
  format_pct0 : float -> string;
  format_f0 : float -> string;
  (** [difflib.SequenceMatcher(None, a, b).ratio()] *)
  SequenceMatcher_ratio : string -> string -> float;
  (** [fuzz.token_set_ratio(a, b)], an int between 0 and 100 *)
  token_set_ratio : string -> string -> Z;
  (** [re.search(pattern, text, re.IGNORECASE)], giving [m.group(1)] *)
  re_search_group1 : string -> string -> option string;
  (** [re.match(pattern, text, re.IGNORECASE)] as a truth value *)
  re_match : string -> string -> bool;
  (** [urllib.parse.urlparse] *)
  urlparse : string -> outcome ParseResult;
  (** [str.title] *)
  str_title : string -> string;
}.

(** * permit_feature_extractor.py *)

(** Feature names in a fixed, deterministic order. *)
Definition FEATURE_NAMES : list string := [
  (* Quality (7) *)
  "blur_score"; "brightness"; "contrast"; "image_area";
  "width"; "height"; "aspect_ratio";
  (* Document structure (4) *)
  "num_contours"; "max_contour_area"; "avg_contour_area"; "edge_density";
  (* Text-like layout (3) *)
  "text_pixel_ratio"; "horizontal_line_ratio"; "text_region_count";
  (* Color (4) *)
  "color_variance"; "hue_entropy"; "saturation_entropy"; "value_entropy";
  (* Edge (3) *)
  "edge_density_sobel"; "corner_count"; "edge_magnitude_mean";
  (* QR code presence (2) *)
  "has_qr_code"; "qr_area_ratio";
  (* Texture (4) *)
  "lbp_mean"; "lbp_std"; "glcm_contrast"; "glcm_homogeneity"
].

(** A list comprehension whose element expression may raise: the first
    exception ends it. *)
Fixpoint comprehension {A B : Type} (f : A -> outcome B) (xs : list A)
  : outcome (list B) :=
  match xs with
  | [] => Returned []
  | x :: xs' =>
      match f x with
      | Raised e => Raised e
      | Returned y =>
          match comprehension f xs' with
          | Raised e => Raised e
          | Returned ys => Returned (y :: ys)
          end
      end
  end.

(** [feature_dict.get(k, 0)] *)
Definition feature_get (feature_dict : gmap string pynum) (k : string)
  : pynum :=
  match feature_dict !! k with
  | Some v => v
  | None => PyInt 0
  end.

(** [np.array([float(feature_dict.get(k, 0)) for k in FEATURE_NAMES])] *)
Definition features_to_vector (feature_dict : gmap string pynum)
  : outcome (list float) :=
  comprehension (fun k => py_float (feature_get feature_dict k))
                FEATURE_NAMES.

(** * image_verification.py *)

(** ** Text fields of a permit *)

(** The dictionary built by [_parse_qr_text] and by
    [_extract_permit_text_details]; only the former has the key
    [raw_text]. *)
Record ParsedFields : Type := {
  pf_business_name : option string;
  pf_business_owner : option string;
  pf_validity_date : option string;
  pf_business_number : option string;
  pf_scope : option string;
  pf_raw_text : option string;
}.

(** [d[key]] for a key whose value has just been tested to be a text. *)
Definition the_str (o : option string) : string :=
  match o with Some s => s | None => "" end.

(** [line.split(':', 1)[1].strip()].  Each use is guarded by a test that
    finds a colon in the line, so the index 1 exists. *)
Definition value_after_colon (line : string) : string :=
  strip (the_str (after_first ":" line)).

Definition parse_qr_line (fields : ParsedFields) (line0 : string)
  : ParsedFields :=
  let line := strip line0 in
  if is_empty line then fields
  else if startswith "BUSINESS NAME:" (upper line)
          && negb (contains "NO." (upper line)) then
    {| pf_business_name := Some (value_after_colon line);
       pf_business_owner := pf_business_owner fields;
       pf_validity_date := pf_validity_date fields;
       pf_business_number := pf_business_number fields;
       pf_scope := pf_scope fields;
       pf_raw_text := pf_raw_text fields |}
  else if startswith "BUSINESS OWNER:" (upper line) then
    {| pf_business_name := pf_business_name fields;
       pf_business_owner := Some (value_after_colon line);
       pf_validity_date := pf_validity_date fields;
       pf_business_number := pf_business_number fields;
       pf_scope := pf_scope fields;
       pf_raw_text := pf_raw_text fields |}
  else if startswith "VALIDITY DATE:" (upper line) then
    {| pf_business_name := pf_business_name fields;
       pf_business_owner := pf_business_owner fields;
       pf_validity_date := Some (value_after_colon line);
       pf_business_number := pf_business_number fields;
       pf_scope := pf_scope fields;
       pf_raw_text := pf_raw_text fields |}
  else if startswith "BUSINESS NAME NO.:" (upper line)
          || startswith "BUSINESS NO.:" (upper line) then
    {| pf_business_name := pf_business_name fields;
       pf_business_owner := pf_business_owner fields;
       pf_validity_date := pf_validity_date fields;
       pf_business_number := Some (value_after_colon line);
       pf_scope := pf_scope fields;
       pf_raw_text := pf_raw_text fields |}
  else if startswith "SCOPE:" (upper line) then
    {| pf_business_name := pf_business_name fields;
       pf_business_owner := pf_business_owner fields;
       pf_validity_date := pf_validity_date fields;
       pf_business_number := pf_business_number fields;
       pf_scope := Some (value_after_colon line);
       pf_raw_text := pf_raw_text fields |}
  else fields.

Definition newline : ascii := ascii_of_N 10.

Definition _parse_qr_text (qr_text : string) : ParsedFields :=
  let fields :=
    {| pf_business_name := None; pf_business_owner := None;
       pf_validity_date := None; pf_business_number := None;
       pf_scope := None; pf_raw_text := Some qr_text |} in
  fold_left parse_qr_line (split_char newline qr_text) fields.

(** [extracted and len(extracted) > n], after [':' in line] *)
Definition extracted_longer_than (n : nat) (line : string) : option string :=
  if contains ":" line then
    let extracted := value_after_colon line in
    if negb (is_empty extracted) && (n <? String.length extracted)%nat
    then Some extracted else None
  else None.

Definition extract_permit_line (fields : ParsedFields) (line0 : string)
  : ParsedFields :=
  let line := strip line0 in
  if is_empty line then fields
  else
    let line_upper := upper line in
    if contains "BUSINESS NAME" line_upper
       && negb (contains "NO." line_upper) then
      match extracted_longer_than 2 line with
      | Some extracted =>
          {| pf_business_name := Some extracted;
             pf_business_owner := pf_business_owner fields;
             pf_validity_date := pf_validity_date fields;
             pf_business_number := pf_business_number fields;
             pf_scope := pf_scope fields;
             pf_raw_text := pf_raw_text fields |}
      | None => fields
      end
    else if contains "OWNER" line_upper
            || contains "PROPRIETOR" line_upper then
      match extracted_longer_than 2 line with
      | Some extracted =>
          {| pf_business_name := pf_business_name fields;
             pf_business_owner := Some extracted;
             pf_validity_date := pf_validity_date fields;
             pf_business_number := pf_business_number fields;
             pf_scope := pf_scope fields;
             pf_raw_text := pf_raw_text fields |}
      | None => fields
      end
    else if contains "VALIDITY" line_upper || contains "VALID" line_upper
            || contains "EXPIRES" line_upper then
      match extracted_longer_than 4 line with
      | Some extracted =>
          {| pf_business_name := pf_business_name fields;
             pf_business_owner := pf_business_owner fields;
             pf_validity_date := Some extracted;
             pf_business_number := pf_business_number fields;
             pf_scope := pf_scope fields;
             pf_raw_text := pf_raw_text fields |}
      | None => fields
      end
    else if contains "BUSINESS" line_upper
            && (contains "NO" line_upper || contains "NUMBER" line_upper
                || contains "REGISTRATION" line_upper) then
      match extracted_longer_than 2 line with
      | Some extracted =>
          {| pf_business_name := pf_business_name fields;
             pf_business_owner := pf_business_owner fields;
             pf_validity_date := pf_validity_date fields;
             pf_business_number := Some extracted;
             pf_scope := pf_scope fields;
             pf_raw_text := pf_raw_text fields |}
      | None => fields
      end
    else if contains "SCOPE" line_upper then
      match extracted_longer_than 2 line with
      | Some extracted =>
          {| pf_business_name := pf_business_name fields;
             pf_business_owner := pf_business_owner fields;
             pf_validity_date := pf_validity_date fields;
             pf_business_number := pf_business_number fields;
             pf_scope := Some extracted;
             pf_raw_text := pf_raw_text fields |}
      | None => fields
      end
    else fields.

Definition _extract_permit_text_details (ocr_text : string) : ParsedFields :=
  let fields :=
    {| pf_business_name := None; pf_business_owner := None;
       pf_validity_date := None; pf_business_number := None;
       pf_scope := None; pf_raw_text := None |} in
  fold_left extract_permit_line (split_char newline ocr_text) fields.

(** ** Comparison of QR fields with OCR fields *)

(** The dictionary returned by [_compare_permit_fields]. *)
Record FieldComparison : Type := {
  fc_business_name_match : bool;
  fc_business_owner_match : bool;
  fc_validity_date_match : bool;
  fc_business_number_match : bool;
  fc_scope_match : bool;
  fc_details : string;
  fc_mismatches : list string;
  fc_confidence : float;
}.

(** The local variables of a comparison: the dictionary under construction
    and the two counters. *)
Record CompareState : Type := {
  comparison : FieldComparison;
  matches : Z;
  checked : Z;
}.

Definition comparison_init : FieldComparison :=
  {| fc_business_name_match := false;
     fc_business_owner_match := false;
     fc_validity_date_match := false;
     fc_business_number_match := false;
     fc_scope_match := false;
     fc_details := "";
     fc_mismatches := [];
     fc_confidence := 0.0 |}.

Definition compare_init : CompareState :=
  {| comparison := comparison_init; matches := 0; checked := 0 |}.

(** The four flags that a comparison may set. *)
Inductive match_key : Type :=
| business_name_match
| business_owner_match
| business_number_match
| validity_date_match.

(** [comparison[key] = value] *)
Definition set_match (key : match_key) (value : bool) (c : FieldComparison)
  : FieldComparison :=
  {| fc_business_name_match :=
       match key with
       | business_name_match => value
       | _ => fc_business_name_match c
       end;
     fc_business_owner_match :=
       match key with
       | business_owner_match => value
       | _ => fc_business_owner_match c
       end;
     fc_validity_date_match :=
       match key with
       | validity_date_match => value
       | _ => fc_validity_date_match c
       end;
     fc_business_number_match :=
       match key with
       | business_number_match => value
       | _ => fc_business_number_match c
       end;
     fc_scope_match := fc_scope_match c;
     fc_details := fc_details c;
     fc_mismatches := fc_mismatches c;
     fc_confidence := fc_confidence c |}.

(** [comparison['details'] += text] *)
Definition add_details (text : string) (c : FieldComparison)
  : FieldComparison :=
  {| fc_business_name_match := fc_business_name_match c;
     fc_business_owner_match := fc_business_owner_match c;
     fc_validity_date_match := fc_validity_date_match c;
     fc_business_number_match := fc_business_number_match c;
     fc_scope_match := fc_scope_match c;
     fc_details := fc_details c ++ text;
     fc_mismatches := fc_mismatches c;
     fc_confidence := fc_confidence c |}.

(** [comparison['mismatches'].append(text)] *)
Definition append_mismatch (text : string) (c : FieldComparison)
  : FieldComparison :=
  {| fc_business_name_match := fc_business_name_match c;
     fc_business_owner_match := fc_business_owner_match c;
     fc_validity_date_match := fc_validity_date_match c;
     fc_business_number_match := fc_business_number_match c;
     fc_scope_match := fc_scope_match c;
     fc_details := fc_details c;
     fc_mismatches := fc_mismatches c ++ [text];
     fc_confidence := fc_confidence c |}.

(** [comparison['confidence'] = value] *)
Definition set_confidence (value : float) (c : FieldComparison)
  : FieldComparison :=
  {| fc_business_name_match := fc_business_name_match c;
     fc_business_owner_match := fc_business_owner_match c;
     fc_validity_date_match := fc_validity_date_match c;
     fc_business_number_match := fc_business_number_match c;
     fc_scope_match := fc_scope_match c;
     fc_details := fc_details c;
     fc_mismatches := fc_mismatches c;
     fc_confidence := value |}.

(** One [if ...: checked += 1 ...] block once its flag is known: the flag
    is stored, and either the counter and the details or the mismatches
    grow. *)
Definition record_check (key : match_key) (is_match : bool)
    (detail mismatch : string) (st : CompareState) : CompareState :=
  let c := set_match key is_match (comparison st) in
  if is_match
  then {| comparison := add_details detail c;
          matches := matches st + 1;
          checked := checked st + 1 |}
  else {| comparison := append_mismatch mismatch c;
          matches := matches st;
          checked := checked st + 1 |}.

Section Comparison.
Context (L : PyLib).

(** [fuzz.token_set_ratio(a, b) / 100.0] *)
Definition fuzzy_similarity (a b : string) : float :=
  (float_of_Z (token_set_ratio L a b) / 100.0)%float.

Definition compare_business_name (qr_fields permit_fields : ParsedFields)
    (threshold : float) (st : CompareState) : CompareState :=
  if truthy (pf_business_name qr_fields)
     && truthy (pf_business_name permit_fields) then
    let qr_name := strip (lower (the_str (pf_business_name qr_fields))) in
    let permit_name :=
      strip (lower (the_str (pf_business_name permit_fields))) in
    let similarity := fuzzy_similarity qr_name permit_name in
    record_check business_name_match (threshold <=? similarity)%float
      ("✓ Business name matches (" ++ format_pct0 L similarity ++ "). ")
      ("Business name mismatch (" ++ format_pct0 L similarity
       ++ "): QR='" ++ the_str (pf_business_name qr_fields)
       ++ "' vs Permit='" ++ the_str (pf_business_name permit_fields)
       ++ "'")
      st
  else st.

Definition compare_business_owner (qr_fields permit_fields : ParsedFields)
    (threshold : float) (st : CompareState) : CompareState :=
  if truthy (pf_business_owner qr_fields)
     && truthy (pf_business_owner permit_fields) then
    let qr_owner := strip (lower (the_str (pf_business_owner qr_fields))) in
    let permit_owner :=
      strip (lower (the_str (pf_business_owner permit_fields))) in
    let similarity := fuzzy_similarity qr_owner permit_owner in
    record_check business_owner_match (threshold <=? similarity)%float
      ("✓ Owner name matches (" ++ format_pct0 L similarity ++ "). ")
      ("Owner mismatch (" ++ format_pct0 L similarity
       ++ "): QR='" ++ the_str (pf_business_owner qr_fields)
       ++ "' vs Permit='" ++ the_str (pf_business_owner permit_fields)
       ++ "'")
      st
  else st.

Definition compare_business_number (qr_fields permit_fields : ParsedFields)
    (st : CompareState) : CompareState :=
  if truthy (pf_business_number qr_fields)
     && truthy (pf_business_number permit_fields) then
    let qr_num := strip (the_str (pf_business_number qr_fields)) in
    let permit_num := strip (the_str (pf_business_number permit_fields)) in
    let exact_match := String.eqb qr_num permit_num in
    record_check business_number_match exact_match
      ("✓ Business number matches (" ++ qr_num ++ "). ")
      ("Business number mismatch: QR='" ++ qr_num
       ++ "' vs Permit='" ++ permit_num ++ "'")
      st
  else st.

Definition compare_validity_date (qr_fields permit_fields : ParsedFields)
    (st : CompareState) : CompareState :=
  if truthy (pf_validity_date qr_fields)
     && truthy (pf_validity_date permit_fields) then
    let qr_date := strip (lower (the_str (pf_validity_date qr_fields))) in
    let permit_date :=
      strip (lower (the_str (pf_validity_date permit_fields))) in
    let similarity := fuzzy_similarity qr_date permit_date in
    record_check validity_date_match (0.80 <=? similarity)%float
      ("✓ Validity date matches (" ++ format_pct0 L similarity ++ "). ")
      ("Validity date mismatch (" ++ format_pct0 L similarity
       ++ "): QR='" ++ qr_date ++ "' vs Permit='" ++ permit_date ++ "'")
      st
  else st.

(** The state of [_compare_permit_fields] when it reaches
    "Calculate overall confidence". *)
Definition compare_blocks (qr_fields permit_fields : ParsedFields)
    (threshold : float) : CompareState :=
  compare_validity_date qr_fields permit_fields
    (compare_business_number qr_fields permit_fields
      (compare_business_owner qr_fields permit_fields threshold
        (compare_business_name qr_fields permit_fields threshold
          compare_init))).

Definition overall_confidence (st : CompareState) : FieldComparison :=
  if 0 <? checked st
  then set_confidence (int_truediv (matches st) (checked st))
                      (comparison st)
  else set_confidence 0.0 (comparison st).

(** Simple fallback comparison without fuzzywuzzy. *)
Definition _compare_fields_simple (qr_fields permit_fields : ParsedFields)
  : FieldComparison :=
  let st := compare_init in
  let st :=
    if truthy (pf_business_name qr_fields)
       && truthy (pf_business_name permit_fields) then
      let qr := lower (the_str (pf_business_name qr_fields)) in
      let permit := lower (the_str (pf_business_name permit_fields)) in
      let is_match := contains qr permit || contains permit qr in
      {| comparison := set_match business_name_match is_match
                         (comparison st);
         matches := if is_match then matches st + 1 else matches st;
         checked := checked st + 1 |}
    else st in
  let st :=
    if truthy (pf_business_number qr_fields)
       && truthy (pf_business_number permit_fields) then
      let is_match :=
        String.eqb (the_str (pf_business_number qr_fields))
                   (the_str (pf_business_number permit_fields)) in
      {| comparison := set_match business_number_match is_match
                         (comparison st);
         matches := if is_match then matches st + 1 else matches st;
         checked := checked st + 1 |}
    else st in
  if 0 <? checked st
  then set_confidence (int_truediv (matches st) (checked st))
                      (comparison st)
  else comparison st.

(** [FUZZYWUZZY_AVAILABLE] is the flag set when the module is imported. *)
Definition _compare_permit_fields (FUZZYWUZZY_AVAILABLE : bool)
    (qr_fields permit_fields : ParsedFields) (threshold : float)
  : FieldComparison :=
  if negb FUZZYWUZZY_AVAILABLE
  then _compare_fields_simple qr_fields permit_fields
  else overall_confidence (compare_blocks qr_fields permit_fields threshold).

End Comparison.

(** ** Name cross-verification *)

(** Minimum similarity ratio for fuzzy name matching. *)
Definition NAME_MATCH_THRESHOLD : float := 0.65.

(** The business suffixes removed by [_normalize_name], in the order of the
    loop. *)
Definition SUFFIXES : list string :=
  ["trading"; "enterprises"; "enterprise"; "farm"; "farms";
   "agri"; "agricultural"; "products"; "store"; "shop"].

Definition remove_suffixes (name : string) : string :=
  fold_left (fun name suffix => re_sub_word suffix name) SUFFIXES name.

Definition _normalize_name (name : option string) : string :=
  if negb (truthy name) then ""
  else
    let name := strip (lower (the_str name)) in
    let name := remove_suffixes name in
    let name := re_sub_not_alnum_space name in
    strip (re_sub_spaces name).

(** The dictionary returned by [cross_check_names]. *)
Record NameCheck : Type := {
  nc_business_name_match : option bool;
  nc_owner_name_match : option bool;
  nc_business_name_similarity : float;
  nc_owner_name_similarity : float;
  nc_overall_match : bool;
  nc_score : float;
  nc_details : string;
}.

(** The local variables of [cross_check_names]. *)
Record CrossCheckState : Type := {
  result : NameCheck;
  checks_done : Z;
  total_score : float;
}.

Definition cross_check_init : CrossCheckState :=
  {| result :=
       {| nc_business_name_match := None;
          nc_owner_name_match := None;
          nc_business_name_similarity := 0.0;
          nc_owner_name_similarity := 0.0;
          nc_overall_match := false;
          nc_score := 0.0;
          nc_details := "" |};
     checks_done := 0;
     total_score := 0.0 |}.

(** [result['details'] += text] *)
Definition nc_add_details (text : string) (r : NameCheck) : NameCheck :=
  {| nc_business_name_match := nc_business_name_match r;
     nc_owner_name_match := nc_owner_name_match r;
     nc_business_name_similarity := nc_business_name_similarity r;
     nc_owner_name_similarity := nc_owner_name_similarity r;
     nc_overall_match := nc_overall_match r;
     nc_score := nc_score r;
     nc_details := nc_details r ++ text |}.

Section NameCrossCheck.
Context (L : PyLib).

Definition _name_similarity (name_a name_b : option string) : float :=
  if negb (truthy name_a) || negb (truthy name_b) then 0.0
  else
    let a := _normalize_name name_a in
    let b := _normalize_name name_b in
    if is_empty a || is_empty b then 0.0
    else if String.eqb a b then 1.0
    else if contains a b || contains b a then 0.9
    else SequenceMatcher_ratio L a b.

Definition check_business_name (user_business_name dti_business_name
    : option string) (st : CrossCheckState) : CrossCheckState :=
  if truthy user_business_name && truthy dti_business_name then
    let sim := _name_similarity user_business_name dti_business_name in
    let is_match := (NAME_MATCH_THRESHOLD <=? sim)%float in
    let r := result st in
    {| result :=
         {| nc_business_name_match := Some is_match;
            nc_owner_name_match := nc_owner_name_match r;
            nc_business_name_similarity := py_round L sim 3;
            nc_owner_name_similarity := nc_owner_name_similarity r;
            nc_overall_match := nc_overall_match r;
            nc_score := nc_score r;
            nc_details :=
              nc_details r ++
              (if is_match
               then "Business name matches (" ++ format_pct0 L sim
                    ++ "): '" ++ the_str user_business_name ++ "' ~ '"
                    ++ the_str dti_business_name ++ "'. "
               else "Business name MISMATCH (" ++ format_pct0 L sim
                    ++ "): you entered '" ++ the_str user_business_name
                    ++ "' but DTI shows '" ++ the_str dti_business_name
                    ++ "'. ") |};
       checks_done := checks_done st + 1;
       total_score := (total_score st + sim)%float |}
  else if truthy user_business_name && negb (truthy dti_business_name) then
    {| result :=
         nc_add_details
           "Could not extract business name from DTI for comparison. "
           (result st);
       checks_done := checks_done st;
       total_score := total_score st |}
  else st.

Definition check_owner_name (user_owner_name dti_owner_name
    : option string) (st : CrossCheckState) : CrossCheckState :=
  if truthy user_owner_name && truthy dti_owner_name then
    let sim := _name_similarity user_owner_name dti_owner_name in
    let is_match := (NAME_MATCH_THRESHOLD <=? sim)%float in
    let r := result st in
    {| result :=
         {| nc_business_name_match := nc_business_name_match r;
            nc_owner_name_match := Some is_match;
            nc_business_name_similarity := nc_business_name_similarity r;
            nc_owner_name_similarity := py_round L sim 3;
            nc_overall_match := nc_overall_match r;
            nc_score := nc_score r;
            nc_details :=
              nc_details r ++
              (if is_match
               then "Owner name matches (" ++ format_pct0 L sim
                    ++ "): '" ++ the_str user_owner_name ++ "' ~ '"
                    ++ the_str dti_owner_name ++ "'. "
               else "Owner name MISMATCH (" ++ format_pct0 L sim
                    ++ "): you entered '" ++ the_str user_owner_name
                    ++ "' but DTI shows '" ++ the_str dti_owner_name
                    ++ "'. ") |};
       checks_done := checks_done st + 1;
       total_score := (total_score st + sim)%float |}
  else if truthy user_owner_name && negb (truthy dti_owner_name) then
    {| result :=
         nc_add_details
           "Could not extract owner name from DTI for comparison. "
           (result st);
       checks_done := checks_done st;
       total_score := total_score st |}
  else st.

Definition overall_score (st : CrossCheckState) : NameCheck :=
  let r := result st in
  if 0 <? checks_done st then
    let score :=
      py_round L (total_score st / float_of_Z (checks_done st))%float 3 in
    {| nc_business_name_match := nc_business_name_match r;
       nc_owner_name_match := nc_owner_name_match r;
       nc_business_name_similarity := nc_business_name_similarity r;
       nc_owner_name_similarity := nc_owner_name_similarity r;
       nc_overall_match := (NAME_MATCH_THRESHOLD <=? score)%float;
       nc_score := score;
       nc_details := nc_details r |}
  else
    (* No DTI-side names to compare against - give benefit of the doubt *)
    {| nc_business_name_match := nc_business_name_match r;
       nc_owner_name_match := nc_owner_name_match r;
       nc_business_name_similarity := nc_business_name_similarity r;
       nc_owner_name_similarity := nc_owner_name_similarity r;
       nc_overall_match := true;
       nc_score := 0.5;
       nc_details :=
         nc_details r ++ "No DTI name data available for cross-check. " |}.

Definition cross_check_names (user_business_name user_owner_name
    dti_business_name dti_owner_name : option string) : NameCheck :=
  overall_score
    (check_owner_name user_owner_name dti_owner_name
      (check_business_name user_business_name dti_business_name
        cross_check_init)).

End NameCrossCheck.

(** ** The image file, the installation and the network *)

(** What OpenCV, numpy and Tesseract compute on a decoded image: the shape,
    the variance of the Laplacian of the grey image, the mean of the grey
    image, and the text read after the CLAHE and Otsu steps. *)
Record CvImage : Type := {
  shape_h : Z;
  shape_w : Z;
  laplacian_var : outcome float;
  gray_mean : outcome float;
  image_to_string : outcome string;
}.

(** The loaded classifier: [predict(vec)[0]], and [predict_proba(vec)[0]]
    when the model has that attribute. *)
Record Classifier : Type := {
  predict : list float -> outcome Z;
  predict_proba : option (list float -> outcome (list float));
}.

(** One preprocessed variant of the image with what pyzbar decodes on it:
    the texts [obj.data.decode('utf-8', errors='replace')] of the symbols
    found with QR codes only, and with any symbology. *)
Record Variant : Type := {
  method_name : string;
  decode_qrcode : list string;
  decode_any : list string;
}.

(** The generator [_preprocess_variants]: it yields variants in order and
    either ends or raises (PIL or OpenCV failing on the file). *)
Inductive VariantStream : Type :=
| StopIteration
| GeneratorRaises (e : string)
| Yield (v : Variant) (rest : VariantStream).

(** What [requests.get] does. *)
Inductive HttpResult : Type :=
| Timeout
| ConnectionError
| OtherError (e : string)
| Response (status_code : Z) (text : string).

Record World : Type := {
  (** the flags set when the module is imported *)
  PYZBAR_AVAILABLE : bool;
  TESSERACT_AVAILABLE : bool;
  FUZZYWUZZY_AVAILABLE : bool;
  (** [self.ml_model] and [self.ml_extractor.extract_all_features] *)
  ml_model : option Classifier;
  ml_extractor : option (string -> option (gmap string pynum));
  (** [cv2.imread(path)]: [None] for a file that does not decode *)
  cv2_imread : string -> outcome (option CvImage);
  preprocess_variants : string -> VariantStream;
  (** [requests.get(url, headers=..., timeout=15, allow_redirects=True)] *)
  requests_get : string -> HttpResult;
  (** [datetime.now().isoformat()] *)
  now_isoformat : string;
}.

(** ** The log of stages *)

Inductive Stage : Type :=
| QualityStage      (* check_image_quality *)
| ClassifierStage   (* predict_permit_ml *)
| QrScanStage       (* scan_qr_code *)
| OcrStage          (* _extract_text_with_ocr *)
| RegistryStage (url : string).  (* validate_with_dti: the HTTP GET *)

Definition M (A : Type) : Type := list Stage -> outcome A * list Stage.

Definition ret {A : Type} (a : A) : M A := fun log => (Returned a, log).

Definition bind {A B : Type} (m : M A) (k : A -> M B) : M B :=
  fun log =>
    match m log with
    | (Returned a, log') => k a log'
    | (Raised e, log') => (Raised e, log')
    end.

(** Entering a stage appends it to the log. *)
Definition enter {A : Type} (stage : Stage) (m : M A) : M A :=
  fun log => m (log ++ [stage])%list.

(** A stage that touches nothing else: its result is returned. *)
Definition call {A : Type} (stage : Stage) (a : A) : M A :=
  enter stage (ret a).

Definition raise {A : Type} (e : string) : M A :=
  fun log => (Raised e, log).

Definition run {A : Type} (m : M A) : outcome A * list Stage := m [].

Notation "'let*' x ':=' m 'in' k" := (bind m (fun x => k))
  (at level 10, x name, m at level 100, k at level 200, only parsing).

(** ** ML prediction *)

Record MlResult : Type := {
  ml_available : bool;
  ml_is_permit : bool;
  ml_confidence : float;
  ml_label : string;
}.

Definition ml_unavailable : MlResult :=
  {| ml_available := false; ml_is_permit := false;
     ml_confidence := 0.0; ml_label := "unknown" |}.

Section Stages.
Context (L : PyLib) (W : World).

Definition predict_permit_ml (image_path : string) : MlResult :=
  let result := ml_unavailable in
  match ml_model W, ml_extractor W with
  | Some model, Some extract_all_features =>
      match extract_all_features image_path with
      | None => result
      | Some features =>
          match features_to_vector features with
          | Raised _ => result
          | Returned vec =>
              match predict model vec with
              | Raised _ => result
              | Returned prediction =>
                  let confidence :=
                    match predict_proba model with
                    | Some proba_of =>
                        match proba_of vec with
                        | Raised e => Raised e
                        | Returned proba => py_max proba
                        end
                    | None =>
                        Returned (if prediction =? 1 then 0.85%float
                                  else 0.15%float)
                    end in
                  match confidence with
                  | Raised _ => result
                  | Returned confidence =>
                      {| ml_available := true;
                         ml_is_permit := prediction =? 1;
                         ml_confidence := py_round L confidence 4;
                         ml_label := if prediction =? 1 then "authentic"
                                     else "non_permit" |}
                  end
              end
          end
      end
  | _, _ => result
  end.

(** ** 1. Image quality *)

Definition quality_error (e : string) : bool * string :=
  (false, "Quality check error: " ++ e).

Definition check_image_quality (image_path : string) : bool * string :=
  match cv2_imread W image_path with
  | Raised e => quality_error e
  | Returned None => (false, "Invalid image file")
  | Returned (Some img) =>
      let h := shape_h img in
      let w := shape_w img in
      if (h <? 200) || (w <? 200) then
        (false, "Image too small (" ++ str_of_int w ++ "×" ++ str_of_int h
                ++ "). Please upload at least 400×300.")
      else
        match laplacian_var img with
        | Raised e => quality_error e
        | Returned lap_var =>
            if (lap_var <? 30)%float then
              (false, "Image is too blurry (clarity "
                      ++ format_f0 L lap_var ++ "/30+). "
                      ++ "Please take a clearer photo of the QR code on your permit.")
            else
              match gray_mean img with
              | Raised e => quality_error e
              | Returned brightness =>
                  if (brightness <? 30)%float || (230 <? brightness)%float
                  then
                    (false, "Image brightness is poor ("
                            ++ format_f0 L brightness ++ "). "
                            ++ "Ensure good lighting when photographing the permit.")
                  else (true, "Image quality OK")
              end
        end
  end.

(** ** 2. QR code scanning *)

(** [_decode_qr_from_array]: QR only first, then any barcode. *)
Definition _decode_qr_from_array (img_variant : Variant) : list string :=
  if negb (PYZBAR_AVAILABLE W) then []
  else
    match decode_qrcode img_variant with
    | [] => decode_any img_variant
    | results => results
    end.

(** The inner loop [for obj in decoded]: the first text that is not empty
    once stripped. *)
Fixpoint first_data (decoded : list string) : option string :=
  match decoded with
  | [] => None
  | obj :: rest =>
      let data := strip obj in
      if negb (is_empty data) then Some data else first_data rest
  end.

(** The outer loop over the variants. *)
Fixpoint scan_variants (variants : VariantStream)
  : outcome (option (string * string)) :=
  match variants with
  | StopIteration => Returned None
  | GeneratorRaises e => Raised e
  | Yield img_variant rest =>
      match first_data (_decode_qr_from_array img_variant) with
      | Some data => Returned (Some (data, method_name img_variant))
      | None => scan_variants rest
      end
  end.

(** ** 2b. OCR-based text extraction *)

Definition _extract_text_with_ocr (image_path : string) : bool * string :=
  if negb (TESSERACT_AVAILABLE W) then (false, "")
  else
    match cv2_imread W image_path with
    | Returned (Some img) =>
        match image_to_string img with
        | Returned text =>
            if negb (is_empty (strip text)) then (true, text)
            else (false, "")
        | Raised _ => (false, "")
        end
    | Returned None => (false, "")
    | Raised _ => (false, "")
    end.

Definition NO_QR_MESSAGE : string :=
  "No QR code detected. Please ensure the QR code on your "
  ++ "DTI Business Permit is clearly visible and not obstructed.".

Definition scan_qr_code (image_path : string)
  : M (bool * string * string) :=
  if negb (PYZBAR_AVAILABLE W)
  then ret (false, "pyzbar library not installed", "")
  else
    match scan_variants (preprocess_variants W image_path) with
    | Raised e => raise e
    | Returned (Some (data, method)) => ret (true, data, method)
    | Returned None =>
        (* QR detection failed - try OCR fallback *)
        let* ocr := call OcrStage (_extract_text_with_ocr image_path) in
        let '(ocr_success, ocr_data) := ocr in
        if ocr_success && negb (is_empty ocr_data)
        then ret (true, ocr_data, "ocr-fallback")
        else ret (false, NO_QR_MESSAGE, "")
    end.

End Stages.

(** ** 3. DTI URL validation *)

(** Known DTI / BNRS domains that appear in QR codes. *)
Definition DTI_DOMAINS : list string :=
  ["bnrs.dti.gov.ph"; "www.bnrs.dti.gov.ph"; "dti.gov.ph"; "www.dti.gov.ph"].

(** Patterns that match DTI business-name registration URLs. *)
Definition DTI_URL_PATTERNS : list string :=
  ["https?://bnrs\.dti\.gov\.ph";
   "https?://www\.bnrs\.dti\.gov\.ph";
   "https?://(?:www\.)?dti\.gov\.ph"].

(** [x in xs] for a list of texts *)
Definition str_in (x : string) (xs : list string) : bool :=
  existsb (String.eqb x) xs.

(** The dictionary [info] of [extract_business_info_from_url]; the QR
    branch of the pipeline may add [owner_name] later. *)
Record BusinessInfo : Type := {
  bi_url : string;
  bi_registration_id : option string;
  bi_business_name : option string;
  bi_registration_number : option string;
  bi_path_segments : option (list string);
  bi_owner_name : option string;
}.

(** The dictionary [details] of [validate_with_dti]. *)
Record DtiDetails : Type := {
  dd_url_checked : string;
  dd_reachable : bool;
  dd_dti_confirmed : bool;
  dd_business_name : option string;
  dd_owner_name : option string;
  dd_registration_number : option string;
  dd_status : option string;
  dd_message : string;
  dd_http_status : option Z;
}.

Definition dti_markers : list string :=
  ["department of trade and industry";
   "dti"; "bnrs"; "business name";
   "certificate"; "registration";
   "registered"; "business name registration"].

Definition bn_patterns : list string :=
  ["(?:business\s*name|bn)\s*[:\-]?\s*([A-Z][A-Za-z0-9\s\',.\-&]+)";
   "<(?:td|span|div|h\d)[^>]*>\s*([A-Z][A-Za-z0-9\s\',.\-&]{5,60})\s*</"].

Definition owner_patterns : list string :=
  ["(?:owner|proprietor|registrant|applicant)\s*(?:name)?\s*[:\-]?\s*([A-Z][A-Za-z\s\',.\-]{3,60})";
   "(?:name\s*of\s*(?:owner|proprietor))\s*[:\-]?\s*([A-Z][A-Za-z\s\',.\-]{3,60})"].

Definition reg_patterns : list string :=
  ["(?:registration|reg(?:istration)?\s*(?:no|number|#))\s*[:\-]?\s*(\d[\d\-]+\d)";
   "(\d{4,}[\-]\d+)"].

Definition status_patterns : list string :=
  ["(?:status)\s*[:\-]?\s*(active|registered|approved|valid)";
   "(registered|active|approved|valid)\s+(?:business|name)"].

Section Registry.
Context (L : PyLib) (W : World).

(** Check whether the decoded QR data is a valid DTI/BNRS URL. *)
Definition is_dti_url (url_string : string) : bool :=
  match urlparse L url_string with
  | Raised _ => false
  | Returned parsed =>
      let domain :=
        rstrip_if (Ascii.eqb ".") (lower (netloc parsed)) in
      if str_in domain DTI_DOMAINS then true
      else existsb (fun pattern => re_match L pattern url_string)
                   DTI_URL_PATTERNS
  end.

(** [dict(p.split('=', 1) for p in query.split('&') if '=' in p)]: a later
    pair replaces an earlier one with the same key. *)
Definition query_params (query : string) : gmap string string :=
  fold_left
    (fun (params : gmap string string) p =>
       if contains "=" p
       then <[before_first "=" p := the_str (after_first "=" p)]> params
       else params)
    (split_char "&" query) ∅.

Definition extract_business_info_from_url (url_string : string)
  : BusinessInfo :=
  match urlparse L url_string with
  | Raised _ =>
      {| bi_url := url_string; bi_registration_id := None;
         bi_business_name := None; bi_registration_number := None;
         bi_path_segments := None; bi_owner_name := None |}
  | Returned parsed =>
      let params := query_params (query parsed) in
      let path_parts :=
        List.filter (fun p => negb (is_empty p))
          (split_char "/" (strip_if (Ascii.eqb "/") (path parsed))) in
      {| bi_url := url_string;
         bi_registration_id := params !! "id";
         bi_business_name := params !! "bn";
         bi_registration_number := params !! "reg";
         bi_path_segments :=
           match path_parts with [] => None | _ => Some path_parts end;
         bi_owner_name := None |}
  end.

(** ** 4. Online DTI BNRS validation *)

(** [for pat in patterns: m = re.search(pat, page, re.IGNORECASE);
    if m: ... m.group(1) ...; break] *)
Fixpoint first_search (patterns : list string) (page : string)
  : option string :=
  match patterns with
  | [] => None
  | pat :: rest =>
      match re_search_group1 L pat page with
      | Some g => Some g
      | None => first_search rest page
      end
  end.

Definition count_markers (page_lower : string) : Z :=
  Z.of_nat
    (List.length (List.filter (fun m => contains m page_lower) dti_markers)).

Definition validate_with_dti (qr_url : string) : bool * DtiDetails :=
  let failed (reachable : bool) (http_status : option Z)
             (message : string) :=
    (false,
     {| dd_url_checked := qr_url; dd_reachable := reachable;
        dd_dti_confirmed := false; dd_business_name := None;
        dd_owner_name := None; dd_registration_number := None;
        dd_status := None; dd_message := message;
        dd_http_status := http_status |}) in
  match requests_get W qr_url with
  | Timeout =>
      failed false None
        ("DTI website timed out. The QR URL looks valid but the DTI "
         ++ "server is slow. Your application is saved for manual review.")
  | ConnectionError =>
      failed false None
        ("Could not connect to DTI website. Please check your internet "
         ++ "connection or try again later.")
  | OtherError e =>
      failed false None ("DTI validation error: " ++ e)
  | Response status_code page =>
      if negb (status_code =? 200) then
        failed true (Some status_code)
          ("DTI website returned status " ++ str_of_int status_code ++ ". "
           ++ "The registration may have expired or the URL is invalid.")
      else
        let page_lower := lower page in
        let marker_hits := count_markers page_lower in
        if negb (2 <=? marker_hits) then
          failed true (Some status_code)
            ("Page did not contain expected DTI registration markers. "
             ++ "It may not be a valid DTI certificate page.")
        else
          (true,
           {| dd_url_checked := qr_url;
              dd_reachable := true;
              dd_dti_confirmed := true;
              dd_business_name :=
                option_map strip (first_search bn_patterns page);
              dd_owner_name :=
                option_map strip (first_search owner_patterns page);
              dd_registration_number :=
                option_map strip (first_search reg_patterns page);
              dd_status :=
                option_map (fun g => str_title L (strip g))
                           (first_search status_patterns page);
              dd_message := "DTI registration confirmed via BNRS.";
              dd_http_status := Some status_code |})
  end.

End Registry.

(** ** 6. Full verification pipeline *)

(** [results['quality_check']] *)
Record QualityCheck : Type := {
  qc_passed : bool;
  qc_message : string;
}.

(** [results['qr_scan']] *)
Record QrScan : Type := {
  qs_passed : bool;
  qs_message : string;
  qs_method : string;
}.

(** [results['text_verification']]: the comparison, or the short dictionary
    stored when OCR gave no text. *)
Inductive TextVerification : Type :=
| Compared (text_comparison : FieldComparison)
| NotCompared (confidence : float) (details : string)
              (mismatches : list string).

(** [results['permit_validation']]: [passed] and [message] are always
    there, the other keys only on some branches. *)
Record PermitValidation : Type := {
  pv_passed : bool;
  pv_message : string;
  pv_name_mismatch : option bool;
  pv_pending_manual_review : option bool;
  pv_name_check_details : option string;
  pv_mismatches : option (list string);
}.

(** [{'passed': passed, 'message': message}] *)
Definition validation (passed : bool) (message : string) : PermitValidation :=
  {| pv_passed := passed; pv_message := message;
     pv_name_mismatch := None; pv_pending_manual_review := None;
     pv_name_check_details := None; pv_mismatches := None |}.

(** The dictionary [results]. *)
Record VerificationResult : Type := {
  valid : bool;
  confidence : float;
  quality_check : option QualityCheck;
  ml_prediction : option MlResult;
  qr_scan : option QrScan;
  qr_data : option string;
  dti_url_valid : bool;
  dti_validation : option DtiDetails;
  business_info : option BusinessInfo;
  name_verification : option NameCheck;
  text_verification : option TextVerification;
  extracted_text : string;
  timestamp : string;
  file_path : string;
  permit_validation : PermitValidation;
}.

(** An assignment [results[key] = value]. *)
Inductive assignment : Type :=
| valid_is (v : bool)
| confidence_is (v : float)
| quality_check_is (v : QualityCheck)
| ml_prediction_is (v : MlResult)
| qr_scan_is (v : QrScan)
| qr_data_is (v : string)
| dti_url_valid_is (v : bool)
| dti_validation_is (v : DtiDetails)
| business_info_is (v : BusinessInfo)
| name_verification_is (v : NameCheck)
| text_verification_is (v : TextVerification)
| extracted_text_is (v : string)
| permit_validation_is (v : PermitValidation).

Definition assign (results : VerificationResult) (a : assignment)
  : VerificationResult :=
  {| valid := match a with valid_is v => v | _ => valid results end;
     confidence :=
       match a with confidence_is v => v | _ => confidence results end;
     quality_check :=
       match a with
       | quality_check_is v => Some v
       | _ => quality_check results
       end;
     ml_prediction :=
       match a with
       | ml_prediction_is v => Some v
       | _ => ml_prediction results
       end;
     qr_scan :=
       match a with qr_scan_is v => Some v | _ => qr_scan results end;
     qr_data :=
       match a with qr_data_is v => Some v | _ => qr_data results end;
     dti_url_valid :=
       match a with dti_url_valid_is v => v | _ => dti_url_valid results end;
     dti_validation :=
       match a with
       | dti_validation_is v => Some v
       | _ => dti_validation results
       end;
     business_info :=
       match a with
       | business_info_is v => Some v
       | _ => business_info results
       end;
     name_verification :=
       match a with
       | name_verification_is v => Some v
       | _ => name_verification results
       end;
     text_verification :=
       match a with
       | text_verification_is v => Some v
       | _ => text_verification results
       end;
     extracted_text :=
       match a with extracted_text_is v => v | _ => extracted_text results end;
     timestamp := timestamp results;
     file_path := file_path results;
     permit_validation :=
       match a with
       | permit_validation_is v => v
       | _ => permit_validation results
       end |}.

Notation "r <| a |>" := (assign r a) (at level 1, left associativity).

(** [results['permit_validation']['message'] = message] *)
Definition set_message (message : string) (pv : PermitValidation)
  : PermitValidation :=
  {| pv_passed := pv_passed pv; pv_message := message;
     pv_name_mismatch := pv_name_mismatch pv;
     pv_pending_manual_review := pv_pending_manual_review pv;
     pv_name_check_details := pv_name_check_details pv;
     pv_mismatches := pv_mismatches pv |}.

(** [results['permit_validation']['name_check_details'] = details] *)
Definition set_name_check_details (details : string) (pv : PermitValidation)
  : PermitValidation :=
  {| pv_passed := pv_passed pv; pv_message := pv_message pv;
     pv_name_mismatch := pv_name_mismatch pv;
     pv_pending_manual_review := pv_pending_manual_review pv;
     pv_name_check_details := Some details;
     pv_mismatches := pv_mismatches pv |}.

(** [if dti_details.get(key): results['business_info'][key] = ...] for the
    three keys copied from the registry page. *)
Definition copy_registry_fields (dti_details : DtiDetails)
    (info : BusinessInfo) : BusinessInfo :=
  {| bi_url := bi_url info;
     bi_registration_id := bi_registration_id info;
     bi_business_name :=
       if truthy (dd_business_name dti_details)
       then dd_business_name dti_details else bi_business_name info;
     bi_registration_number :=
       if truthy (dd_registration_number dti_details)
       then dd_registration_number dti_details
       else bi_registration_number info;
     bi_path_segments := bi_path_segments info;
     bi_owner_name :=
       if truthy (dd_owner_name dti_details)
       then dd_owner_name dti_details else bi_owner_name info |}.

Definition results_init (W : World) (image_path : string)
  : VerificationResult :=
  {| valid := false;
     confidence := 0.0;
     quality_check := None;
     ml_prediction := None;
     qr_scan := None;
     qr_data := None;
     dti_url_valid := false;
     dti_validation := None;
     business_info := None;
     name_verification := None;
     text_verification := None;
     extracted_text := "";
     timestamp := now_isoformat W;
     file_path := image_path;
     permit_validation := validation false "" |}.

Section Pipeline.
Context (L : PyLib) (W : World).

(** Step 3b: verify QR text against actual permit text. *)
Definition verify_qr_text (image_path qr_data : string)
  : M TextVerification :=
  let qr_fields := _parse_qr_text qr_data in
  let* ocr := call OcrStage (_extract_text_with_ocr W image_path) in
  let '(ocr_success, ocr_text) := ocr in
  if ocr_success && negb (is_empty ocr_text) then
    let permit_fields := _extract_permit_text_details ocr_text in
    ret (Compared (_compare_permit_fields L (FUZZYWUZZY_AVAILABLE W)
                     qr_fields permit_fields 0.70))
  else
    ret (NotCompared 0.0
           "Could not extract text from permit image for verification" []).

(** The end of the branch [if dti_valid:], from "Boost if ML also
    agrees" to its [return results]. *)
Definition registry_accept (results : VerificationResult)
    (ml_result : MlResult) (dti_details : DtiDetails)
    (name_check : NameCheck) (base_confidence : float)
  : VerificationResult :=
  let base_confidence :=
    if ml_available ml_result && ml_is_permit ml_result
    then py_min 0.99 (base_confidence + ml_confidence ml_result * 0.04)
    else base_confidence in
  let results := results <| valid_is true |> in
  let results := results <| confidence_is base_confidence |> in
  let results :=
    results <| permit_validation_is
      (validation true
         ("QR code verified against DTI BNRS. "
          ++ "Business: " ++ str_of_opt (dd_business_name dti_details)
          ++ ". "
          ++ "Owner: " ++ str_of_opt (dd_owner_name dti_details) ++ ". "
          ++ "Reg #: " ++ str_of_opt (dd_registration_number dti_details)
          ++ ".")) |> in
  let results :=
    if negb (is_empty (nc_details name_check))
    then results <| permit_validation_is
           (set_name_check_details (nc_details name_check)
              (permit_validation results)) |>
    else results in
  match business_info results with
  | Some info =>
      results <| business_info_is (copy_registry_fields dti_details info) |>
  | None => results
  end.

(** The branch [if is_dti:] (steps 6 and 7). *)
Definition registry_branch (results : VerificationResult)
    (ml_result : MlResult) (qr_data : string)
    (user_business_name user_owner_name : option string)
  : M VerificationResult :=
  let results :=
    results <| business_info_is (extract_business_info_from_url L qr_data) |>
  in
  let* dti := call (RegistryStage qr_data) (validate_with_dti L W qr_data) in
  let '(dti_valid, dti_details) := dti in
  let results := results <| dti_validation_is dti_details |> in
  let dti_biz_name := dd_business_name dti_details in
  let dti_own_name := dd_owner_name dti_details in
  let name_check :=
    cross_check_names L user_business_name user_owner_name
      dti_biz_name dti_own_name in
  let results := results <| name_verification_is name_check |> in
  if dti_valid then
    (* Base confidence from QR + DTI page validation *)
    let base_confidence := 0.90%float in
    if nc_overall_match name_check then
      ret (registry_accept results ml_result dti_details name_check
             (base_confidence + 0.05))
    else if (nc_score name_check <? 0.4)%float
            && truthy (py_or dti_biz_name dti_own_name) then
      (* Names clearly don't match - suspicious *)
      let base_confidence := (base_confidence - 0.20)%float in
      let results :=
        results <| permit_validation_is
          {| pv_passed := false;
             pv_message :=
               "DTI QR code is valid, but the names you provided "
               ++ "do not match DTI records. " ++ nc_details name_check
               ++ "Please ensure you entered the exact names from your permit.";
             pv_name_mismatch := Some true;
             pv_pending_manual_review := None;
             pv_name_check_details := None;
             pv_mismatches := None |} |> in
      ret (results <| confidence_is base_confidence |>)
    else
      ret (registry_accept results ml_result dti_details name_check
             base_confidence)
  else
    (* DTI URL valid but online check was inconclusive *)
    if negb (dd_reachable dti_details) then
      (* DTI unreachable: use ML as tiebreaker *)
      if ml_available ml_result && ml_is_permit ml_result
         && (0.7 <? ml_confidence ml_result)%float then
        let results := results <| valid_is true |> in
        let results := results <| confidence_is 0.75 |> in
        ret (results <| permit_validation_is
               (validation true
                  ("DTI server unreachable, but QR URL is valid and "
                   ++ "ML classifier confirms permit (confidence: "
                   ++ format_pct0 L (ml_confidence ml_result) ++ ").")) |>)
      else
        let results := results <| confidence_is 0.5 |> in
        ret (results <| permit_validation_is
               {| pv_passed := false;
                  pv_message := dd_message dti_details;
                  pv_name_mismatch := None;
                  pv_pending_manual_review := Some true;
                  pv_name_check_details := None;
                  pv_mismatches := None |} |>)
    else
      let results := results <| confidence_is 0.4 |> in
      ret (results <| permit_validation_is
             (validation false (dd_message dti_details)) |>).

(** The branch [else:] of [if is_dti:]: a text-based QR code. *)
Definition text_qr_branch (results : VerificationResult)
    (ml_result : MlResult) (image_path qr_data : string)
    (user_business_name user_owner_name : option string)
  : M VerificationResult :=
  let qr_fields := _parse_qr_text qr_data in
  let* ocr := call OcrStage (_extract_text_with_ocr W image_path) in
  let '(ocr_success, ocr_text) := ocr in
  if ocr_success && negb (is_empty ocr_text) then
    let permit_fields := _extract_permit_text_details ocr_text in
    (* Compare QR text vs permit OCR text *)
    let text_comparison :=
      _compare_permit_fields L (FUZZYWUZZY_AVAILABLE W)
        qr_fields permit_fields 0.70 in
    let results :=
      results <| text_verification_is (Compared text_comparison) |> in
    let qr_extracted_business := pf_business_name qr_fields in
    let qr_extracted_owner := pf_business_owner qr_fields in
    let name_check :=
      cross_check_names L
        (py_or user_business_name qr_extracted_business)
        (py_or user_owner_name qr_extracted_owner)
        qr_extracted_business qr_extracted_owner in
    let results := results <| name_verification_is name_check |> in
    let text_conf := fc_confidence text_comparison in
    let name_conf := nc_score name_check in
    let ml_conf :=
      if ml_available ml_result then ml_confidence ml_result
      else 0.5%float in
    (* Weighted average: 40% text match, 40% name match, 20% ML *)
    let base_confidence :=
      ((text_conf * 0.4) + (name_conf * 0.4) + (ml_conf * 0.2))%float in
    if ml_available ml_result && ml_is_permit ml_result then
      if (0.65 <? base_confidence)%float then
        let results := results <| valid_is true |> in
        let results :=
          results <| confidence_is (py_min 0.95 base_confidence) |> in
        let results :=
          results <| permit_validation_is
            (validation true
               ("QR code verified. Business information matches permit. "
                ++ "QR Text: "
                ++ the_str (py_or qr_extracted_business (Some "N/A"))
                ++ ". "
                ++ "Owner: "
                ++ the_str (py_or qr_extracted_owner (Some "N/A")) ++ ". "
                ++ "Confidence: " ++ format_pct0 L base_confidence)) |> in
        ret (if negb (is_empty (nc_details name_check))
             then results <| permit_validation_is
                    (set_name_check_details (nc_details name_check)
                       (permit_validation results)) |>
             else results)
      else
        let results := results <| confidence_is base_confidence |> in
        ret (results <| permit_validation_is
               {| pv_passed := false;
                  pv_message :=
                    "QR code business information does not sufficiently match "
                    ++ "the permit and your provided information. "
                    ++ "Please verify the accuracy of the permit. "
                    ++ "Confidence: " ++ format_pct0 L base_confidence;
                  pv_name_mismatch := None;
                  pv_pending_manual_review := None;
                  pv_name_check_details := None;
                  pv_mismatches := Some (fc_mismatches text_comparison) |} |>)
    else
      (* No ML model - rely on text matching alone *)
      if (0.7 <? text_conf)%float then
        let results := results <| valid_is true |> in
        let results :=
          results <| confidence_is (py_min 0.85 text_conf) |> in
        ret (results <| permit_validation_is
               (validation true
                  ("QR code verified. Business information matches permit. "
                   ++ "Confidence: " ++ format_pct0 L text_conf)) |>)
      else
        let results := results <| confidence_is text_conf |> in
        ret (results <| permit_validation_is
               {| pv_passed := false;
                  pv_message :=
                    "QR code business information does not match the permit. "
                    ++ "Please verify the QR code is from a valid permit. "
                    ++ "Confidence: " ++ format_pct0 L text_conf;
                  pv_name_mismatch := None;
                  pv_pending_manual_review := None;
                  pv_name_check_details := None;
                  pv_mismatches := Some (fc_mismatches text_comparison) |} |>)
  else
    (* Could not extract text from permit for comparison *)
    let results := results <| confidence_is 0.4 |> in
    ret (results <| permit_validation_is
           (validation false
              ("Cannot extract text from permit image for QR comparison. "
               ++ "Please ensure the permit image is clear and readable.")) |>).

(** QR scan failed: fall back to ML-only.  [qr_data] is the error message
    from the scan. *)
Definition ml_only_fallback (results : VerificationResult)
    (ml_result : MlResult) (qr_data : string) : VerificationResult :=
  if ml_available ml_result && ml_is_permit ml_result
     && (0.8 <? ml_confidence ml_result)%float then
    (* ML is very confident this is a permit, but no QR found *)
    let results :=
      results <| confidence_is (ml_confidence ml_result * 0.7) |> in
    results <| permit_validation_is
      {| pv_passed := false;
         pv_message :=
           "No QR code detected, but ML classifier identifies this as a "
           ++ "business permit (confidence: "
           ++ format_pct0 L (ml_confidence ml_result) ++ "). "
           ++ "Submitted for manual review — please ensure the QR code is visible.";
         pv_name_mismatch := None;
         pv_pending_manual_review := Some true;
         pv_name_check_details := None;
         pv_mismatches := None |} |>
  else if ml_available ml_result && negb (ml_is_permit ml_result) then
    let results := results <| confidence_is 0.1 |> in
    results <| permit_validation_is
      (validation false
         ("No QR code detected and the image does not appear to be a "
          ++ "business permit. Please upload a clear photo of your DTI "
          ++ "Business Permit with the QR code visible.")) |>
  else
    (* No ML model available, no QR code *)
    results <| permit_validation_is
      (set_message qr_data (permit_validation results)) |>.

Definition verify_permit_image (image_path : string)
    (user_business_name user_owner_name : option string)
  : M VerificationResult :=
  let results := results_init W image_path in
  (* ---- Step 1: Image quality ---- *)
  let* quality :=
    call QualityStage (check_image_quality L W image_path) in
  let '(quality_ok, quality_msg) := quality in
  let results :=
    results <| quality_check_is
      {| qc_passed := quality_ok; qc_message := quality_msg |} |> in
  if negb quality_ok then
    ret (results <| permit_validation_is
           (set_message quality_msg (permit_validation results)) |>)
  else
    (* ---- Step 2: ML classification ---- *)
    let* ml_result :=
      call ClassifierStage (predict_permit_ml L W image_path) in
    let results := results <| ml_prediction_is ml_result |> in
    (* ---- Step 3: Scan QR code ---- *)
    let* scan := enter QrScanStage (scan_qr_code W image_path) in
    let '(qr_ok, qr_data, qr_method) := scan in
    let results :=
      results <| qr_scan_is
        {| qs_passed := qr_ok;
           qs_message := if negb qr_ok then qr_data
                         else "QR decoded (" ++ qr_method ++ ")";
           qs_method := qr_method |} |> in
    if qr_ok then
      let results := results <| qr_data_is qr_data |> in
      let results := results <| extracted_text_is qr_data |> in
      (* ---- Step 3b ---- *)
      let* text_verification := verify_qr_text image_path qr_data in
      let results :=
        results <| text_verification_is text_verification |> in
      (* ---- Step 4: Is it a DTI URL? ---- *)
      let is_dti := is_dti_url L qr_data in
      let results := results <| dti_url_valid_is is_dti |> in
      if is_dti
      then registry_branch results ml_result qr_data
             user_business_name user_owner_name
      else text_qr_branch results ml_result image_path qr_data
             user_business_name user_owner_name
    else
      ret (ml_only_fallback results ml_result qr_data).

End Pipeline.

(** * user_model.py

    The attributes of a [User] that the verification route and the audit
    trail read or assign.  An attribute holds [None] or a value; the id is
    read through [str(user.id)]. *)
Record User : Type := {
  u_id : string;
  u_email : option string;
  u_first_name : option string;
  u_last_name : option string;
  u_role : option string;
  u_farm_name : option string;
  u_farm_location : option string;
  u_farm_description : option string;
  u_farm_phone : option string;
  u_exact_address : option string;
  u_farmer_application_status : option string;
  u_farmer_application_submitted_at : option string;
  u_permit_business_name : option string;
  u_permit_owner_name : option string;
  u_business_verification_status : option string;
  u_business_verification_image : option string;
  u_business_verification_submitted_at : option string;
  u_business_verification_ml : option VerificationResult;
  u_permit_qr_data : option string;
  u_permit_extracted_text : option string;
  u_dti_business_info : option BusinessInfo;
  u_ml_prediction : option MlResult;
  u_name_verification : option NameCheck;
}.

(** An assignment [user.attribute = value]; the QR data assigned may be
    [None]. *)
Inductive user_assignment : Type :=
| user_role_is (v : string)
| user_farm_name_is (v : string)
| user_farm_location_is (v : string)
| user_farm_description_is (v : string)
| user_farm_phone_is (v : string)
| user_exact_address_is (v : string)
| user_farmer_application_status_is (v : string)
| user_farmer_application_submitted_at_is (v : string)
| user_permit_business_name_is (v : string)
| user_permit_owner_name_is (v : string)
| user_business_verification_status_is (v : string)
| user_business_verification_image_is (v : string)
| user_business_verification_submitted_at_is (v : string)
| user_business_verification_ml_is (v : VerificationResult)
| user_permit_qr_data_is (v : option string)
| user_permit_extracted_text_is (v : string)
| user_dti_business_info_is (v : BusinessInfo)
| user_ml_prediction_is (v : MlResult)
| user_name_verification_is (v : NameCheck).

Definition user_set (user : User) (a : user_assignment) : User :=
  {| u_id := u_id user;
     u_email := u_email user;
     u_first_name := u_first_name user;
     u_last_name := u_last_name user;
     u_role :=
       match a with
       | user_role_is v => Some v
       | _ => u_role user
       end;
     u_farm_name :=
       match a with
       | user_farm_name_is v => Some v
       | _ => u_farm_name user
       end;
     u_farm_location :=
       match a with
       | user_farm_location_is v => Some v
       | _ => u_farm_location user
       end;
     u_farm_description :=
       match a with
       | user_farm_description_is v => Some v
       | _ => u_farm_description user
       end;
     u_farm_phone :=
       match a with
       | user_farm_phone_is v => Some v
       | _ => u_farm_phone user
       end;
     u_exact_address :=
       match a with
       | user_exact_address_is v => Some v
       | _ => u_exact_address user
       end;
     u_farmer_application_status :=
       match a with
       | user_farmer_application_status_is v => Some v
       | _ => u_farmer_application_status user
       end;
     u_farmer_application_submitted_at :=
       match a with
       | user_farmer_application_submitted_at_is v => Some v
       | _ => u_farmer_application_submitted_at user
       end;
     u_permit_business_name :=
       match a with
       | user_permit_business_name_is v => Some v
       | _ => u_permit_business_name user
       end;
     u_permit_owner_name :=
       match a with
       | user_permit_owner_name_is v => Some v
       | _ => u_permit_owner_name user
       end;
     u_business_verification_status :=
       match a with
       | user_business_verification_status_is v => Some v
       | _ => u_business_verification_status user
       end;
     u_business_verification_image :=
       match a with
       | user_business_verification_image_is v => Some v
       | _ => u_business_verification_image user
       end;
     u_business_verification_submitted_at :=
       match a with
       | user_business_verification_submitted_at_is v => Some v
       | _ => u_business_verification_submitted_at user
       end;
     u_business_verification_ml :=
       match a with
       | user_business_verification_ml_is v => Some v
       | _ => u_business_verification_ml user
       end;
     u_permit_qr_data :=
       match a with
       | user_permit_qr_data_is v => v
       | _ => u_permit_qr_data user
       end;
     u_permit_extracted_text :=
       match a with
       | user_permit_extracted_text_is v => Some v
       | _ => u_permit_extracted_text user
       end;
     u_dti_business_info :=
       match a with
       | user_dti_business_info_is v => Some v
       | _ => u_dti_business_info user
       end;
     u_ml_prediction :=
       match a with
       | user_ml_prediction_is v => Some v
       | _ => u_ml_prediction user
       end;
     u_name_verification :=
       match a with
       | user_name_verification_is v => Some v
       | _ => u_name_verification user
       end |}.

Notation "u <! a !>" := (user_set u a) (at level 1, left associativity).

(** * helpers.py *)

Definition ALLOWED_EXTENSIONS : list string :=
  ["png"; "jpg"; "jpeg"; "gif"; "webp"].

(** 5 MB *)
Definition MAX_FILE_SIZE : Z := 5 * 1024 * 1024.

(** [s.rsplit(sep, 1)[1]]: what follows the last separator; [None] stands
    for the IndexError of a string without separator. *)
Fixpoint after_last (sep : ascii) (s : string) : option string :=
  match s with
  | EmptyString => None
  | String c s' =>
      match after_last sep s' with
      | Some rest => Some rest
      | None => if Ascii.eqb c sep then Some s' else None
      end
  end.

(** The index 1 exists whenever the first conjunct holds. *)
Definition allowed_file (filename : string) : bool :=
  contains "." filename
  && str_in (lower (the_str (after_last "." filename))) ALLOWED_EXTENSIONS.

(** * train_permit_model.py *)

(** The loop of [extract_dataset] over the remaining paths, with the three
    lists built so far.  [extract_all_features] is the extractor's method,
    which answers [None] on any error; an exception of
    [features_to_vector] ends the function. *)
Fixpoint extract_dataset_from
    (extract_all_features : string -> option (gmap string pynum))
    (image_paths : list string) (label : Z)
    (X : list (list float)) (y : list Z) (used_paths : list string)
  : outcome (list (list float) * list Z * list string) :=
  match image_paths with
  | [] => Returned (X, y, used_paths)
  | image_path :: rest =>
      match extract_all_features image_path with
      | None =>
          extract_dataset_from extract_all_features rest label
            X y used_paths
      | Some features =>
          match features_to_vector features with
          | Raised e => Raised e
          | Returned vec =>
              extract_dataset_from extract_all_features rest label
                (X ++ [vec]) (y ++ [label]) (used_paths ++ [image_path])
          end
      end
  end.

Definition extract_dataset
    (extract_all_features : string -> option (gmap string pynum))
    (image_paths : list string) (label : Z)
  : outcome (list (list float) * list Z * list string) :=
  extract_dataset_from extract_all_features image_paths label [] [] [].

(** * image_verification.py: the audit trail *)

(** The keyword arguments of [PermitVerification(...)]. *)
Record AuditRecord : Type := {
  ar_user_email : string;
  ar_user_name : option string;
  ar_user_farm_name : option string;
  ar_status : string;
  ar_verification_result : VerificationResult;
  ar_confidence : float;
  ar_valid : bool;
  ar_image_filename : option string;
  ar_image_path : option string;
  ar_permit_business_name : option string;
  ar_permit_owner_name : option string;
  ar_dti_business_name : option string;
  ar_dti_owner_name : option string;
  ar_dti_business_number : option string;
  ar_qr_data : option string;
  ar_qr_valid : bool;
  ar_ml_confidence : float;
  ar_ml_is_permit : bool;
}.

(** The file system, the clock and the document store that
    [save_verification_record] uses. *)
Record Storage : Type := {
  (** [os.makedirs(folder, exist_ok=True)], [open(path, 'w')] and
      [json.dump(result, f, indent=2, default=str)] *)
  write_json : string -> string -> VerificationResult -> outcome unit;
  (** [datetime.now().strftime('%Y%m%d_%H%M%S')] *)
  now_strftime : string;
  (** [os.path.join] *)
  path_join : string -> string -> string;
  (** [from models import PermitVerification] *)
  import_PermitVerification : outcome unit;
  (** [PermitVerification(...)] followed by [record.save()] *)
  record_save : AuditRecord -> outcome unit;
}.

(** The message of the AttributeError raised by [None.get(...)]. *)
Definition NONE_HAS_NO_GET : string :=
  "'NoneType' object has no attribute 'get'".

(** The evaluation of the keyword arguments of [PermitVerification(...)].
    The details of the registry have no key [business_number], so that
    [dti_val.get('business_number')] is [None]; the key [qr_scan] is always
    present, so that the default [{}] is never used and [None.get] raises
    when no scan was recorded. *)
Definition audit_record (verification_result : VerificationResult)
    (user_email : string) (user_name user_farm_name : option string)
    (permit_business_name permit_owner_name image_filename image_path
     : option string) : outcome AuditRecord :=
  let ml_pred := ml_prediction verification_result in
  let dti_val := dti_validation verification_result in
  match qr_scan verification_result with
  | None => Raised NONE_HAS_NO_GET
  | Some scan =>
      Returned
        {| ar_user_email := user_email;
           ar_user_name := user_name;
           ar_user_farm_name := py_or user_farm_name permit_business_name;
           ar_status :=
             if valid verification_result then "verified" else "rejected";
           ar_verification_result := verification_result;
           ar_confidence := confidence verification_result;
           ar_valid := valid verification_result;
           ar_image_filename := image_filename;
           ar_image_path :=
             py_or image_path (Some (file_path verification_result));
           ar_permit_business_name := permit_business_name;
           ar_permit_owner_name := permit_owner_name;
           ar_dti_business_name :=
             match dti_val with
             | Some details => dd_business_name details
             | None => None
             end;
           ar_dti_owner_name :=
             match dti_val with
             | Some details => dd_owner_name details
             | None => None
             end;
           ar_dti_business_number := None;
           ar_qr_data := qr_data verification_result;
           ar_qr_valid := qs_passed scan;
           ar_ml_confidence :=
             match ml_pred with
             | Some prediction => ml_confidence prediction
             | None => 0.0%float
             end;
           ar_ml_is_permit :=
             match ml_pred with
             | Some prediction => ml_is_permit prediction
             | None => false
             end |}
  end.

(** [save_verification_record]: the path of the JSON file, and the record
    saved in the document store, if any.  An exception of the file system
    ends the function; an exception of the [try] block is printed and
    swallowed.  [db] tells whether the argument [db] is not [None]. *)
Definition save_verification_record (S : Storage) (user_id : string)
    (verification_result : VerificationResult) (output_folder : string)
    (db : bool) (user_obj : option User)
    (permit_business_name permit_owner_name image_filename image_path
     : option string) : outcome (string * option AuditRecord) :=
  let ts := now_strftime S in
  let record_path :=
    path_join S output_folder (user_id ++ "_" ++ ts ++ ".json") in
  match write_json S output_folder record_path verification_result with
  | Raised e => Raised e
  | Returned _ =>
      if db then
        match import_PermitVerification S with
        | Raised _ => Returned (record_path, None)
        | Returned _ =>
            let user_email :=
              match user_obj with
              | Some user => u_email user
              | None => None
              end in
            let user_name :=
              match user_obj with
              | Some user =>
                  let first_name :=
                    the_str (py_or (u_first_name user) (Some "")) in
                  let last_name :=
                    the_str (py_or (u_last_name user) (Some "")) in
                  Some (strip (first_name ++ " " ++ last_name))
              | None => None
              end in
            let user_farm_name :=
              match user_obj with
              | Some user => u_farm_name user
              | None => None
              end in
            if truthy user_email then
              match audit_record verification_result (the_str user_email)
                      user_name user_farm_name permit_business_name
                      permit_owner_name image_filename image_path with
              | Raised _ => Returned (record_path, None)
              | Returned record =>
                  match record_save S record with
                  | Raised _ => Returned (record_path, None)
                  | Returned _ => Returned (record_path, Some record)
                  end
              end
            else Returned (record_path, None)
        end
      else Returned (record_path, None)
  end.

(** * routes/farmers.py: the verification route *)

(** [int(x)] for a float: truncation towards zero. *)
Definition py_int (x : float) : outcome Z :=
  match Prim2SF x with
  | S754_zero _ => Returned 0
  | S754_infinity _ => Raised "cannot convert float infinity to integer"
  | S754_nan => Raised "cannot convert float NaN to integer"
  | S754_finite s m e =>
      let magnitude :=
        if 0 <=? e then Z.pos m * 2 ^ e else Z.pos m / 2 ^ (- e) in
      Returned (if s then - magnitude else magnitude)
  end.

(** [items.append(item)] *)
Definition list_append (items : list string) (item : string) : list string :=
  (items ++ [item])%list.

(** [sep.join(items)] *)
Fixpoint str_join (sep : string) (items : list string) : string :=
  match items with
  | [] => EmptyString
  | [item] => item
  | item :: rest => item ++ sep ++ str_join sep rest
  end.

(** The uploaded file: its name, and the size found by seeking to its
    end. *)
Record FileStorage : Type := {
  fs_filename : option string;
  fs_size : Z;
}.

(** What the route reads of the request; [request_user_email] was set by
    [token_required]. *)
Record Request : Type := {
  files_business_permit_photo : option FileStorage;
  form : gmap string string;
  request_user_email : string;
}.

(** [request.form.get(key, '').strip()] *)
Definition form_get (request : Request) (key : string) : string :=
  strip (default "" (form request !! key)).

(** The database: [User.get_by_email(db, email)] and [user.save(db)]. *)
Record Db : Type := {
  get_by_email : string -> outcome (option User);
  user_save : User -> outcome unit;
}.

(** The application around the route. *)
Record App : Type := {
  (** [werkzeug.utils.secure_filename] *)
  secure_filename : string -> string;
  (** [uuid.uuid4().hex] *)
  uuid4_hex : string;
  VERIFICATION_UPLOAD_FOLDER : string;
  (** [permit_file.save(path)] *)
  file_save : string -> outcome unit;
  (** [get_mongodb_db], which answers [None] on any error *)
  get_mongodb_db : option Db;
  (** the successive values of [datetime.utcnow()] *)
  utcnow : nat -> string;
  (** [current_app.config.get('VERIFIER')] *)
  VERIFIER : option World;
  storage : Storage;
}.

(** The JSON bodies of the answers. *)
Inductive Body : Type :=
| error_body (error : string)
| verified_body (message : string) (confidence : float)
    (confidence_percentage : string) (user_id : string)
    (role email : option string)
| rejected_body (message : string) (confidence : float)
    (confidence_percentage : string)
| unavailable_body (message : string).

(** A body and its HTTP status. *)
Definition Answer : Type := Body * Z.

(** What the route did besides answering. *)
Inductive Effect : Type :=
| FileSaved (file_name : string)
| PermitVerified (image_path : string)
    (user_business_name user_owner_name : option string)
| RecordWritten (record_path : string) (saved : option AuditRecord)
| UserSaved (user : User).

Section Route.
Context (L : PyLib) (A : App).

(** [f"{int(ml_result.get('confidence', 0) * 100)}%"] *)
Definition confidence_percentage_of (ml_result : VerificationResult)
  : outcome string :=
  match py_int (confidence ml_result * 100)%float with
  | Raised e => Raised e
  | Returned n => Returned (str_of_int n ++ "%")
  end.

(** The branch [if ml_result.get('valid'):], after the two assignments to
    [user]. *)
Definition accept (db : Db) (user : User) (ml_result : VerificationResult)
  : outcome Answer * list Effect :=
  let accept_details := ["DTI verification passed"] in
  match dti_validation ml_result with
  | None => (Raised NONE_HAS_NO_GET, [])
  | Some dti_validation =>
      let accept_details :=
        if truthy (dd_business_name dti_validation)
        then list_append accept_details
               ("Business: " ++ the_str (dd_business_name dti_validation))
        else accept_details in
      let accept_details :=
        if truthy (dd_owner_name dti_validation)
        then list_append accept_details
               ("Owner: " ++ the_str (dd_owner_name dti_validation))
        else accept_details in
      match ml_prediction ml_result with
      | None => (Raised NONE_HAS_NO_GET, [])
      | Some ml_pred =>
          let accept_details :=
            if ml_available ml_pred && ml_is_permit ml_pred
            then list_append accept_details
                   ("ML confidence: "
                    ++ format_pct0 L (ml_confidence ml_pred))
            else accept_details in
          let accept_details :=
            match name_verification ml_result with
            | Some nv =>
                if nc_overall_match nv && (0.5 <? nc_score nv)%float
                then list_append accept_details
                       ("Name match: " ++ format_pct0 L (nc_score nv))
                else accept_details
            | None => accept_details
            end in
          match user_save db user with
          | Raised e => (Raised e, [])
          | Returned _ =>
              let details_str :=
                match accept_details with
                | [] => ""
                | _ => str_join " | " accept_details
                end in
              match confidence_percentage_of ml_result with
              | Raised e => (Raised e, [UserSaved user])
              | Returned percentage =>
                  (Returned
                     (verified_body
                        ("✅ Business permit accepted! " ++ details_str
                         ++ " You are now a verified farmer.")
                        (confidence ml_result) percentage
                        (u_id user) (u_role user) (u_email user),
                      200),
                   [UserSaved user])
              end
          end
      end
  end.

(** The branch [else:] of [if ml_result.get('valid'):]. *)
Definition reject (db : Db) (user : User) (ml_result : VerificationResult)
  : outcome Answer * list Effect :=
  let pv := permit_validation ml_result in
  let reason := pv_message pv in
  let user := user <! user_business_verification_status_is "rejected" !> in
  match user_save db user with
  | Raised e => (Raised e, [])
  | Returned _ =>
      match confidence_percentage_of ml_result with
      | Raised e => (Raised e, [UserSaved user])
      | Returned percentage =>
          (Returned
             (rejected_body
                ("❌ Permit verification failed: " ++ reason
                 ++ ". Please verify you uploaded a clear image of a valid "
                 ++ "business permit and try again.")
                (confidence ml_result) percentage,
              400),
           [UserSaved user])
      end
  end.

(** The branch [if verifier:]. *)
Definition verify_and_decide (W : World) (db : Db) (user : User)
    (permit_business_name permit_owner_name permit_unique permit_path
     : string) : outcome Answer * list Effect :=
  let user_business_name :=
    py_or (Some permit_business_name) (u_farm_name user) in
  let user_owner_name := Some permit_owner_name in
  let verified :=
    PermitVerified permit_path user_business_name user_owner_name in
  match fst (run (verify_permit_image L W permit_path
                    user_business_name user_owner_name)) with
  | Raised e => (Raised e, [verified])
  | Returned ml_result =>
      let user := user <! user_business_verification_ml_is ml_result !> in
      match save_verification_record (storage A) (u_id user) ml_result
              "verification_records" true (Some user)
              (Some permit_business_name) (Some permit_owner_name)
              (Some permit_unique) (Some permit_path) with
      | Raised e => (Raised e, [verified])
      | Returned (record_path, saved) =>
          let written := RecordWritten record_path saved in
          (* Store QR data and business info if available *)
          let user := user <! user_permit_qr_data_is (qr_data ml_result) !> in
          let user :=
            user <! user_permit_extracted_text_is
                      (extracted_text ml_result) !> in
          let user :=
            match business_info ml_result with
            | Some info => user <! user_dti_business_info_is info !>
            | None => user
            end in
          let user :=
            match ml_prediction ml_result with
            | Some prediction => user <! user_ml_prediction_is prediction !>
            | None => user
            end in
          let user :=
            match name_verification ml_result with
            | Some nv => user <! user_name_verification_is nv !>
            | None => user
            end in
          let '(answer, effects) :=
            if valid ml_result then
              (* ACCEPT: User becomes farmer *)
              let user :=
                user <! user_business_verification_status_is "verified" !>
              in
              let user := user <! user_role_is "farmer" !> in
              accept db user ml_result
            else reject db user ml_result in
          (answer, verified :: written :: effects)
      end
  end.

(** The body of the [try] block. *)
Definition verification_attempt (request : Request)
    (permit_unique permit_path : string) : outcome Answer * list Effect :=
  match get_mongodb_db A with
  | None =>
      (Returned
         (error_body "Database connection failed. Please try again.", 500),
       [])
  | Some db =>
      match get_by_email db (request_user_email request) with
      | Raised e => (Raised e, [])
      | Returned None => (Returned (error_body "User not found.", 404), [])
      | Returned (Some user) =>
          (* Collect name fields for cross-verification against DTI *)
          let permit_business_name :=
            form_get request "permit_business_name" in
          let permit_owner_name := form_get request "permit_owner_name" in
          let applies :=
            negb match u_role user with
                 | Some role => String.eqb role "farmer"
                 | None => false
                 end in
          let user :=
            if applies then
              user <! user_farm_name_is permit_business_name !>
                   <! user_farm_location_is
                        (form_get request "farm_location") !>
                   <! user_farm_description_is
                        (form_get request "farm_description") !>
                   <! user_farm_phone_is (form_get request "farm_phone") !>
                   <! user_exact_address_is
                        (form_get request "exact_address") !>
                   <! user_farmer_application_status_is "pending" !>
                   <! user_farmer_application_submitted_at_is
                        (utcnow A 0) !>
            else user in
          let user :=
            user <! user_permit_business_name_is permit_business_name !> in
          let user :=
            user <! user_permit_owner_name_is permit_owner_name !> in
          (* Fall back to user's full name if owner name field was left
             blank *)
          let permit_owner_name :=
            if is_empty permit_owner_name
            then strip (str_of_opt (u_first_name user) ++ " "
                        ++ str_of_opt (u_last_name user))
            else permit_owner_name in
          let user :=
            user <! user_business_verification_status_is "pending" !> in
          let user :=
            user <! user_business_verification_image_is permit_unique !> in
          let user :=
            user <! user_business_verification_submitted_at_is
                      (utcnow A (if applies then 1 else 0)%nat) !> in
          match VERIFIER A with
          | Some W =>
              verify_and_decide W db user permit_business_name
                permit_owner_name permit_unique permit_path
          | None =>
              (* No verifier available - REJECT since we can't verify *)
              let user :=
                user <! user_business_verification_status_is "rejected" !>
              in
              match user_save db user with
              | Raised e => (Raised e, [])
              | Returned _ =>
                  (Returned
                     (unavailable_body
                        ("❌ Unable to process permit verification at this "
                         ++ "time. Please try again later or contact "
                         ++ "support."),
                      503),
                   [UserSaved user])
              end
          end
      end
  end.

(** [farmer_verify], the route [POST /farmer/verify].  An exception of
    [permit_file.save] leaves the route; one raised in the [try] block is
    answered with status 500. *)
Definition farmer_verify (request : Request)
  : outcome Answer * list Effect :=
  let no_file :=
    (Returned
       (error_body "Please upload a business permit image for verification.",
        400), []) in
  match files_business_permit_photo request with
  | None => no_file
  | Some permit_file =>
      if negb (truthy (fs_filename permit_file)) then no_file
      else
        let filename := the_str (fs_filename permit_file) in
        if negb (allowed_file filename) then
          (Returned
             (error_body "Invalid file type. Please upload JPG or PNG image.",
              400), [])
        else if MAX_FILE_SIZE <? fs_size permit_file then
          (Returned
             (error_body "Verification image must be less than 5MB.", 400),
           [])
        else
          let permit_filename := secure_filename A filename in
          let permit_unique :=
            "permit_" ++ uuid4_hex A ++ "_" ++ permit_filename in
          let permit_path :=
            path_join (storage A) (VERIFICATION_UPLOAD_FOLDER A)
              permit_unique in
          match file_save A permit_path with
          | Raised e => (Raised e, [])
          | Returned _ =>
              let '(answer, effects) :=
                verification_attempt request permit_unique permit_path in
              (Returned
                 match answer with
                 | Returned answer => answer
                 | Raised e =>
                     (error_body ("Verification failed: " ++ e), 500)
                 end,
               FileSaved permit_path :: effects)
          end
  end.

End Route.
(** * A library instance for running the model

    [difflib.SequenceMatcher(None, a, b).ratio()] is transcribed from
    CPython's difflib: [__chain_b] (no junk function, automatic junk for a
    second sequence of 200 elements or more), [find_longest_match],
    [get_matching_blocks] and [ratio]. *)

Module Difflib.

(** The elements that [__chain_b] purges as popular. *)
Definition popular (b : list ascii) (elt : ascii) : bool :=
  let n := List.length b in
  ((200 <=? n) &&
   (n / 100 + 1 <? List.length (List.filter (Ascii.eqb elt) b)))%nat.

Record Match : Type := { m_a : nat; m_b : nat; m_size : nat }.

Section Matcher.
Context (is_popular : ascii -> bool).

(** The dictionary [newj2len] for one element [ai] of [a], as the list
    of its values along the slice of [b] (0 where it has no key);
    [prev] is [j2len] and [diag] its value at [j-1]. *)
Fixpoint row (ai : ascii) (bs : list ascii) (prev : list nat)
    (diag : nat) : list nat :=
  match bs, prev with
  | bj :: bs', p :: prev' =>
      (if Ascii.eqb ai bj && negb (is_popular bj) then S diag else O)
        :: row ai bs' prev' p
  | _, _ => []
  end.

(** [if k > bestsize: besti, bestj, bestsize = i-k+1, j-k+1, k] along
    one row, [j] ascending. *)
Fixpoint scan_row (i j : nat) (r : list nat) (best : Match) : Match :=
  match r with
  | [] => best
  | k :: r' =>
      scan_row i (S j) r'
        (if (m_size best <? k)%nat
         then {| m_a := i + 1 - k; m_b := j + 1 - k; m_size := k |}
         else best)
  end.

(** The loop [for i in range(alo, ahi)]. *)
Fixpoint table (a_rest bs : list ascii) (i : nat) (prev : list nat)
    (best : Match) : Match :=
  match a_rest with
  | [] => best
  | ai :: a_rest' =>
      let r := row ai bs prev O in
      table a_rest' bs (S i) r (scan_row i O r best)
  end.

(** The first [while]: extend the block to the left. *)
Fixpoint extend_left (fuel : nat) (a_ bs : list ascii) (m : Match)
  : Match :=
  match fuel with
  | O => m
  | S fuel' =>
      match m_a m, m_b m with
      | S i', S j' =>
          match a_ !! i', bs !! j' with
          | Some x, Some y =>
              if Ascii.eqb x y
              then extend_left fuel' a_ bs
                     {| m_a := i'; m_b := j'; m_size := S (m_size m) |}
              else m
          | _, _ => m
          end
      | _, _ => m
      end
  end.

(** The second [while]: extend the block to the right. *)
Fixpoint extend_right (fuel : nat) (a_ bs : list ascii) (m : Match)
  : Match :=
  match fuel with
  | O => m
  | S fuel' =>
      match a_ !! (m_a m + m_size m)%nat, bs !! (m_b m + m_size m)%nat with
      | Some x, Some y =>
          if Ascii.eqb x y
          then extend_right fuel' a_ bs
                 {| m_a := m_a m; m_b := m_b m; m_size := S (m_size m) |}
          else m
      | _, _ => m
      end
  end.

(** [find_longest_match] on the slices [a[alo:ahi]] and [b[blo:bhi]],
    with positions relative to the slices.  No element is junk, so the
    last two loops of the source do nothing. *)
Definition find_longest_match (a_ bs : list ascii) : Match :=
  let best :=
    table a_ bs O (repeat O (List.length bs))
          {| m_a := O; m_b := O; m_size := O |} in
  let best := extend_left (m_a best) a_ bs best in
  extend_right (List.length a_) a_ bs best.

(** The sum of the sizes of the blocks that [get_matching_blocks]
    collects from the slices; [fuel] bounds the depth of the queue
    processing. *)
Fixpoint matches (fuel : nat) (a_ bs : list ascii) : nat :=
  match fuel with
  | O => O
  | S fuel' =>
      let m := find_longest_match a_ bs in
      let i := m_a m in
      let j := m_b m in
      let k := m_size m in
      if (k =? 0)%nat then O
      else
        (k
         + (if (0 <? i) && (0 <? j)
            then matches fuel' (take i a_) (take j bs) else O)
         + (if (i + k <? List.length a_) && (j + k <? List.length bs)
            then matches fuel' (drop (i + k) a_) (drop (j + k) bs)
            else O))%nat
  end.

End Matcher.

(** [_calculate_ratio(matches, length)] *)
Definition _calculate_ratio (matches length : nat) : float :=
  if (0 <? length)%nat
  then (2.0 * float_of_Z (Z.of_nat matches)
        / float_of_Z (Z.of_nat length))%float
  else 1.0%float.

Definition ratio (a b : string) : float :=
  let a_ := list_ascii_of_string a in
  let bs := list_ascii_of_string b in
  _calculate_ratio
    (matches (popular bs) (S (List.length a_)) a_ bs)
    (List.length a_ + List.length bs).

End Difflib.

(** [round(x, ndigits)] and the formats [.0f] and [.0%] of CPython, which
    round the exact binary value half to even. *)
Module PyBuiltins.

(** The integer nearest to [num / den], ties to even ([num >= 0],
    [den > 0]). *)
Definition round_half_even (num den : Z) : Z :=
  let q := num / den in
  let r := num mod den in
  if 2 * r <? den then q
  else if den <? 2 * r then q + 1
  else if Z.even q then q else q + 1.

(** The sign of a finite [x] and [|x| * 10^ndigits] rounded to an
    integer. *)
Definition scaled (x : float) (ndigits : Z) : option (bool * Z) :=
  match Prim2SF x with
  | S754_zero s => Some (s, 0)
  | S754_finite s m e =>
      let num := Z.pos m * 10 ^ ndigits in
      Some (s, if 0 <=? e then num * 2 ^ e
               else round_half_even num (2 ^ (- e)))
  | _ => None
  end.

(** [round(x, ndigits)] for [0 <= ndigits].  The decimal value is
    converted back exactly when it has at most 53 bits; a larger [x] is
    returned as it is. *)
Definition round (x : float) (ndigits : Z) : float :=
  match scaled x ndigits with
  | Some (s, r) =>
      if r <? 2 ^ 53 then
        let y := (float_of_Z r / float_of_Z (10 ^ ndigits))%float in
        if s then (- y)%float else y
      else x
  | None => x
  end.

(** [f"{x:.0f}"] *)
Definition format_f0 (x : float) : string :=
  match scaled x 0 with
  | Some (s, r) => (if s then "-" else "") ++ str_of_int r
  | None =>
      if is_nan x then "nan"
      else if (x <? 0)%float then "-inf" else "inf"
  end.

(** [f"{x:.0%}"]: the value times 100, as a float, then [.0f]. *)
Definition format_pct0 (x : float) : string :=
  format_f0 (x * 100)%float ++ "%".

End PyBuiltins.

(** Concrete library functions and worlds on which the closed examples at
    the end run.  [round], the two formats, [str.title] and
    [SequenceMatcher.ratio] follow Python; the regular expressions,
    [urlparse] and fuzzywuzzy are replaced by small stand-ins that cover
    the inputs of the examples. *)
Module Sample.

Definition isalpha (c : ascii) : bool :=
  in_range 65 90 c || in_range 97 122 c.

(** [str.title] *)
Fixpoint title_from (prev_cased : bool) (s : string) : string :=
  match s with
  | EmptyString => EmptyString
  | String c s' =>
      String (if prev_cased then lower_char c else upper_char c)
             (title_from (isalpha c) s')
  end.

(** Stand-in for [fuzz.token_set_ratio]: the plain [fuzz.ratio] of the
    two texts, [int(round(100 * ratio))]. *)
Definition fuzz_ratio (a b : string) : Z :=
  match PyBuiltins.scaled (100 * Difflib.ratio a b)%float 0 with
  | Some (_, r) => r
  | None => 0
  end.

(** What follows the first occurrence of [label] in [page], letter case
    ignored. *)
Fixpoint after_label (label page : string) : option string :=
  match page with
  | EmptyString => None
  | String _ page' =>
      if startswith label (lower page)
      then Some (drop_chars (String.length label) page)
      else after_label label page'
  end.

Fixpoint take_while (p : ascii -> bool) (s : string) : string :=
  match s with
  | EmptyString => EmptyString
  | String c s' => if p c then String c (take_while p s') else EmptyString
  end.

Definition name_char (c : ascii) : bool :=
  isalpha c || in_range 48 57 c || isspace c
  || str_in (String c EmptyString) ["'"; ","; "."; "-"; "&"].

(** Stand-in for the scraping patterns: the run of name characters after
    the label and an optional colon or dash. *)
Definition scrape (label page : string) : option string :=
  match after_label label page with
  | None => None
  | Some rest =>
      let rest := lstrip_if isspace rest in
      let rest :=
        lstrip_if isspace
          (match rest with
           | String c rest' =>
               if Ascii.eqb c ":" || Ascii.eqb c "-" then rest' else rest
           | EmptyString => rest
           end) in
      match take_while name_char rest with
      | String c (String d g) =>
          if isalpha c then Some (String c (String d g)) else None
      | _ => None
      end
  end.

Definition search_label (pattern page : string) : option string :=
  if String.eqb pattern (nth 0 bn_patterns "")
  then scrape "business name" page
  else if String.eqb pattern (nth 0 owner_patterns "")
  then scrape "owner" page
  else None.

(** Stand-in for [re.match] with the three URL patterns. *)
Definition match_prefix (pattern url : string) : bool :=
  let u := lower url in
  let either host :=
    startswith ("http://" ++ host) u || startswith ("https://" ++ host) u in
  if String.eqb pattern (nth 0 DTI_URL_PATTERNS "")
  then either "bnrs.dti.gov.ph"
  else if String.eqb pattern (nth 1 DTI_URL_PATTERNS "")
  then either "www.bnrs.dti.gov.ph"
  else if String.eqb pattern (nth 2 DTI_URL_PATTERNS "")
  then either "dti.gov.ph" || either "www.dti.gov.ph"
  else false.

Definition not_in (chars : list string) (c : ascii) : bool :=
  negb (str_in (String c EmptyString) chars).

(** Stand-in for [urlparse]: [scheme://netloc/path?query#fragment]. *)
Definition split_url (url : string) : outcome ParseResult :=
  let after_scheme :=
    match after_label "://" url with
    | Some rest => rest
    | None => url
    end in
  let host :=
    match after_label "://" url with
    | Some rest => take_while (not_in ["/"; "?"; "#"]) rest
    | None => EmptyString
    end in
  let after_host := drop_chars (String.length host) after_scheme in
  let p := take_while (not_in ["?"; "#"]) after_host in
  let after_path := drop_chars (String.length p) after_host in
  Returned
    {| netloc := host;
       path := p;
       query :=
         match after_path with
         | String "?" q => take_while (not_in ["#"]) q
         | _ => EmptyString
         end |}.

Definition lib : PyLib :=
  {| py_round := PyBuiltins.round;
     format_pct0 := PyBuiltins.format_pct0;
     format_f0 := PyBuiltins.format_f0;
     SequenceMatcher_ratio := Difflib.ratio;
     token_set_ratio := fuzz_ratio;
     re_search_group1 := search_label;
     re_match := match_prefix;
     urlparse := split_url;
     str_title := title_from false |}.

Definition image (h w : Z) (lap_var mean : float) (ocr_text : string)
  : CvImage :=
  {| shape_h := h; shape_w := w;
     laplacian_var := Returned lap_var;
     gray_mean := Returned mean;
     image_to_string := Returned ocr_text |}.

(** A model that answers [prediction] with the probabilities [proba]. *)
Definition classifier (prediction : Z) (proba : list float) : Classifier :=
  {| predict := fun _ => Returned prediction;
     predict_proba := Some (fun _ => Returned proba) |}.

(** A world with every optional library installed, in which the file
    decodes to [img], the preprocessing yields [variants], the registry
    answers [http] and [model] is the loaded classifier. *)
Definition world (img : option CvImage) (variants : VariantStream)
    (http : HttpResult) (model : option Classifier) : World :=
  {| PYZBAR_AVAILABLE := true;
     TESSERACT_AVAILABLE := true;
     FUZZYWUZZY_AVAILABLE := true;
     ml_model := model;
     ml_extractor := Some (fun _ => Some ∅);
     cv2_imread := fun _ => Returned img;
     preprocess_variants := fun _ => variants;
     requests_get := fun _ => http;
     now_isoformat := "2024-05-01T09:30:00" |}.

(** A sharp, well-lit 800x600 photograph without readable text. *)
Definition good_image : CvImage := image 600 800 150.5 128.25 "".

(** A variant stream with one QR symbol carrying [payload]. *)
Definition qr_with (payload : string) : VariantStream :=
  Yield {| method_name := "original";
           decode_qrcode := [payload]; decode_any := [] |}
        StopIteration.

(** A variant stream on which nothing decodes. *)
Definition no_qr : VariantStream :=
  Yield {| method_name := "original";
           decode_qrcode := []; decode_any := [] |}
    (Yield {| method_name := "grayscale";
              decode_qrcode := []; decode_any := [] |}
       StopIteration).

Definition registry_url : string :=
  "https://bnrs.dti.gov.ph/verify?id=1234567".

(** A registry page that confirms a registration of "Pedro Store". *)
Definition registry_page : HttpResult :=
  Response 200
    ("<html><h1>DTI BNRS</h1> Business Name: Pedro Store. "
     ++ "Status: Registered</html>").

End Sample.

(** * Vocabulary of the specification *)

(** A stored number that [float()] converts: any float, and an int within
    the range of binary64. *)
Definition numeric (v : pynum) : Prop :=
  match v with
  | PyFloat _ => True
  | PyInt z => is_infinity (float_of_Z z) = false
  end.

(** The entry of the feature vector for the key [k]. *)
Definition feature_value (feature_dict : gmap string pynum) (k : string)
  : float :=
  match feature_dict !! k with
  | Some (PyFloat f) => f
  | Some (PyInt z) => float_of_Z z
  | None => 0.0%float
  end.

(** A name pair is comparable when both sides are present. *)
Definition comparable_pair (user_side other_side : option string) : bool :=
  truthy user_side && truthy other_side.

(** The outcome of [scan_qr_code] on its own. *)
Definition scan_outcome (W : World) (image_path : string)
  : outcome (bool * string * string) :=
  fst (run (scan_qr_code W image_path)).

(** A field of the two dictionaries is comparable when it is present and
    not empty on both sides. *)
Definition comparable (field : ParsedFields -> option string)
    (qr_fields permit_fields : ParsedFields) : bool :=
  truthy (field qr_fields) && truthy (field permit_fields).

Definition Z_of_bool (b : bool) : Z := if b then 1 else 0.

(** The text of a field as the comparison reads it: lower case,
    stripped. *)
Definition folded (field : ParsedFields -> option string)
    (fields : ParsedFields) : string :=
  strip (lower (the_str (field fields))).

(** The number of comparable fields among the four that carry an identity
    or a date. *)
Definition comparable_fields (qr_fields permit_fields : ParsedFields) : Z :=
  Z_of_bool (comparable pf_business_name qr_fields permit_fields)
  + Z_of_bool (comparable pf_business_owner qr_fields permit_fields)
  + Z_of_bool (comparable pf_business_number qr_fields permit_fields)
  + Z_of_bool (comparable pf_validity_date qr_fields permit_fields).

(** The number of comparable fields among all five parsed fields, as the
    specification counts them. *)
Definition comparable_fields_all (qr_fields permit_fields : ParsedFields)
  : Z :=
  comparable_fields qr_fields permit_fields
  + Z_of_bool (comparable pf_scope qr_fields permit_fields).

(** The number of flags raised in a comparison. *)
Definition raised_flags (c : FieldComparison) : Z :=
  Z_of_bool (fc_business_name_match c)
  + Z_of_bool (fc_business_owner_match c)
  + Z_of_bool (fc_business_number_match c)
  + Z_of_bool (fc_validity_date_match c).

(** The words of a normalized name. *)
Definition words (name : string) : list string := split_char " " name.

(** No word of the name is one of the business suffixes. *)
Definition suffix_free (name : string) : bool :=
  forallb (fun w => negb (str_in w SUFFIXES)) (words name).

(** The similarity of two names is settled before [SequenceMatcher] is
    consulted: a side is missing or normalizes to nothing, or the
    normalized names are equal, or one contains the other. *)
Definition settled_by_rules (name_a name_b : option string) : bool :=
  let a := _normalize_name name_a in
  let b := _normalize_name name_b in
  negb (truthy name_a) || negb (truthy name_b)
  || is_empty a || is_empty b
  || String.eqb a b || contains a b || contains b a.

(** The two flags of a result agree. *)
Definition consistent (r : VerificationResult) : Prop :=
  valid r = pv_passed (permit_validation r).

(** A dictionary of parsed fields with a scope only. *)
Definition scope_only (scope : string) : ParsedFields :=
  {| pf_business_name := None; pf_business_owner := None;
     pf_validity_date := None; pf_business_number := None;
     pf_scope := Some scope; pf_raw_text := None |}.

(** The flags and the counters of a state. *)
Definition has_summary (st : CompareState)
    (name owner number date : bool) (n_checked n_matches : Z) : Prop :=
  fc_business_name_match (comparison st) = name
  /\ fc_business_owner_match (comparison st) = owner
  /\ fc_business_number_match (comparison st) = number
  /\ fc_validity_date_match (comparison st) = date
  /\ checked st = n_checked
  /\ matches st = n_matches.

(** A tidy text: characters of [[a-z0-9]] and single spaces;
    [after_space] tells whether the preceding character is a space. *)
Fixpoint tidy (after_space : bool) (s : string) : bool :=
  match s with
  | EmptyString => true
  | String c s' =>
      if Ascii.eqb c " " then negb after_space && tidy true s'
      else is_az09 c && tidy false s'
  end.

(** A plain text: characters of [[a-z0-9]] and spaces. *)
Fixpoint plain (s : string) : bool :=
  match s with
  | EmptyString => true
  | String c s' => (Ascii.eqb c " " || is_az09 c) && plain s'
  end.

(** A text made of characters of [[a-z0-9]]. *)
Fixpoint all_az09 (w : string) : bool :=
  match w with
  | EmptyString => true
  | String c w' => is_az09 c && all_az09 w'
  end.

(** The words that the scan of [re.sub] can still meet: all the words when
    it stands at the start of a word, the later ones otherwise. *)
Definition words_ahead (prev : bool) (s : string) : list string :=
  if prev then tail (split_char " " s) else split_char " " s.

(** ** Vocabulary of the further properties *)

(** The fields of a result that are settled once the QR payload is
    classified: a later branch leaves them as they are. *)
Definition same_stage_fields (r r' : VerificationResult) : Prop :=
  quality_check r = quality_check r'
  /\ ml_prediction r = ml_prediction r'
  /\ qr_scan r = qr_scan r'
  /\ qr_data r = qr_data r'
  /\ extracted_text r = extracted_text r'
  /\ dti_url_valid r = dti_url_valid r'
  /\ file_path r = file_path r'
  /\ timestamp r = timestamp r'.

Definition is_registry_stage (stage : Stage) : bool :=
  match stage with RegistryStage _ => true | _ => false end.

Definition is_ocr_stage (stage : Stage) : bool :=
  match stage with OcrStage => true | _ => false end.

(** The classifier is available and predicts a permit. *)
Definition classifier_agrees (ml_result : MlResult) : bool :=
  ml_available ml_result && ml_is_permit ml_result.

(** The values that the confidence of a field comparison can take: the
    fractions [matches / checked] with at most four fields checked. *)
Definition confidence_levels : list float :=
  [0.0; int_truediv 1 4; int_truediv 1 3; int_truediv 1 2;
   int_truediv 2 3; int_truediv 3 4; 1.0]%float.

(** Each checked field either matched or left one description in
    [mismatches]. *)
Definition mismatches_accounted (st : CompareState) : Prop :=
  Z.of_nat (List.length (fc_mismatches (comparison st))) + matches st
  = checked st.


(** A parsed field, when present, is stripped of surrounding white
    space. *)
Definition stripped_field (field : option string) : Prop :=
  match field with
  | Some value => strip value = value
  | None => True
  end.

(** A parsed field, when present, is stripped and longer than [n]
    characters. *)
Definition long_field (n : nat) (field : option string) : Prop :=
  match field with
  | Some value => strip value = value /\ (n < String.length value)%nat
  | None => True
  end.

Definition qr_fields_parsed (qr_text : string) (fields : ParsedFields)
  : Prop :=
  stripped_field (pf_business_name fields)
  /\ stripped_field (pf_business_owner fields)
  /\ stripped_field (pf_validity_date fields)
  /\ stripped_field (pf_business_number fields)
  /\ stripped_field (pf_scope fields)
  /\ pf_raw_text fields = Some qr_text.

Definition permit_fields_extracted (fields : ParsedFields) : Prop :=
  long_field 2 (pf_business_name fields)
  /\ long_field 2 (pf_business_owner fields)
  /\ long_field 4 (pf_validity_date fields)
  /\ long_field 2 (pf_business_number fields)
  /\ long_field 2 (pf_scope fields)
  /\ pf_raw_text fields = None.

(** A text without line break. *)
Fixpoint one_line (s : string) : bool :=
  match s with
  | EmptyString => true
  | String c s' => negb (Ascii.eqb c newline) && one_line s'
  end.

(** ['\n'.join(lines)] *)
Fixpoint join_lines (lines : list string) : string :=
  match lines with
  | [] => EmptyString
  | [line] => line
  | line :: rest => line ++ String newline (join_lines rest)
  end.

(** A value as it is written after a label: one line, not empty, without
    surrounding white space. *)
Definition written_value (value : string) : Prop :=
  is_empty value = false /\ strip value = value /\ one_line value = true.

(** The text format of a QR code given in the documentation of
    [_parse_qr_text]. *)
Definition qr_text_of (name scope owner date number : string) : string :=
  join_lines
    ["BUSINESS NAME: " ++ name;
     "SCOPE: " ++ scope;
     "BUSINESS OWNER: " ++ owner;
     "VALIDITY DATE: " ++ date;
     "BUSINESS NAME NO.: " ++ number].

(** ** Vocabulary of the verification route *)

(** The upload passes the three checks of the route. *)
Definition upload_accepted (request : Request) (permit_file : FileStorage)
  : Prop :=
  files_business_permit_photo request = Some permit_file
  /\ truthy (fs_filename permit_file) = true
  /\ allowed_file (the_str (fs_filename permit_file)) = true
  /\ fs_size permit_file <= MAX_FILE_SIZE.

(** The name and the path under which the route stores the upload. *)
Definition permit_unique_of (A : App) (permit_file : FileStorage) : string :=
  "permit_" ++ uuid4_hex A ++ "_"
  ++ secure_filename A (the_str (fs_filename permit_file)).

Definition permit_path_of (A : App) (permit_file : FileStorage) : string :=
  path_join (storage A) (VERIFICATION_UPLOAD_FOLDER A)
    (permit_unique_of A permit_file).

Definition is_farmer (user : User) : bool :=
  match u_role user with
  | Some role => String.eqb role "farmer"
  | None => false
  end.

(** The names that the route hands to the pipeline: the business name
    typed in the form, or else the farm name on file for a farmer; the
    owner name typed in the form, or else the full name of the user. *)
Definition business_name_given (request : Request) (user : User)
  : option string :=
  py_or (Some (form_get request "permit_business_name"))
        (if is_farmer user then u_farm_name user
         else Some (form_get request "permit_business_name")).

Definition owner_name_given (request : Request) (user : User) : string :=
  let typed := form_get request "permit_owner_name" in
  if is_empty typed
  then strip (str_of_opt (u_first_name user) ++ " "
              ++ str_of_opt (u_last_name user))
  else typed.

Definition is_user_saved (effect : Effect) : bool :=
  match effect with UserSaved _ => true | _ => false end.

(** ** Sample cases *)

Module Cases.

(** The registry confirms the URL of the QR code and the classifier
    predicts a permit at 0.9. *)
Definition confirming : World :=
  Sample.world (Some Sample.good_image)
    (Sample.qr_with Sample.registry_url) Sample.registry_page
    (Some (Sample.classifier 1 [0.1; 0.9]%float)).

(** The same, with a registry that times out. *)
Definition unreachable : World :=
  Sample.world (Some Sample.good_image)
    (Sample.qr_with Sample.registry_url) Timeout
    (Some (Sample.classifier 1 [0.1; 0.9]%float)).

(** An installation without pyzbar. *)
Definition without_pyzbar : World :=
  {| PYZBAR_AVAILABLE := false;
     TESSERACT_AVAILABLE := true;
     FUZZYWUZZY_AVAILABLE := true;
     ml_model := Some (Sample.classifier 1 [0.1; 0.9]%float);
     ml_extractor := Some (fun _ => Some ∅);
     cv2_imread := fun _ => Returned (Some Sample.good_image);
     preprocess_variants :=
       fun _ => Sample.qr_with Sample.registry_url;
     requests_get := fun _ => Sample.registry_page;
     now_isoformat := "2024-05-01T09:30:00" |}.

(** The text of the permit of the documentation. *)
Definition permit_text : string :=
  qr_text_of "CHRISTIAN WATER REFILLING STATION" "CITY/MUNICIPALITY"
    "JEFFREY VILLAR BERNABE" "12 January 2022 to 12 January 2027"
    "3434737".

(** A sharp, well-lit photograph on which OCR reads the permit. *)
Definition readable_image : CvImage :=
  Sample.image 600 800 150.5 128.25 permit_text.

(** A QR code with the text of the permit, on a readable photograph; no
    classifier is loaded. *)
Definition text_code : World :=
  Sample.world (Some readable_image) (Sample.qr_with permit_text)
    Sample.registry_page None.

(** The same QR code on a photograph without readable text. *)
Definition text_code_unreadable : World :=
  Sample.world (Some Sample.good_image) (Sample.qr_with permit_text)
    Sample.registry_page None.

(** A readable photograph on which no code decodes. *)
Definition no_code : World :=
  Sample.world (Some readable_image) Sample.no_qr Sample.registry_page None.

Definition sample_storage : Storage :=
  {| write_json := fun _ _ _ => Returned tt;
     now_strftime := "20240501_093000";
     path_join := fun folder name => folder ++ "/" ++ name;
     import_PermitVerification := Returned tt;
     record_save := fun _ => Returned tt |}.

(** A user who is not a farmer yet. *)
Definition applicant : User :=
  {| u_id := "7f3c";
     u_email := Some "pedro@example.com";
     u_first_name := Some "Pedro";
     u_last_name := Some "Cruz";
     u_role := Some "user";
     u_farm_name := Some "";
     u_farm_location := Some "";
     u_farm_description := Some "";
     u_farm_phone := Some "";
     u_exact_address := Some "";
     u_farmer_application_status := None;
     u_farmer_application_submitted_at := None;
     u_permit_business_name := Some "";
     u_permit_owner_name := Some "";
     u_business_verification_status := None;
     u_business_verification_image := None;
     u_business_verification_submitted_at := None;
     u_business_verification_ml := None;
     u_permit_qr_data := Some "";
     u_permit_extracted_text := Some "";
     u_dti_business_info := None;
     u_ml_prediction := None;
     u_name_verification := None |}.

Definition sample_db : Db :=
  {| get_by_email := fun _ => Returned (Some applicant);
     user_save := fun _ => Returned tt |}.

(** The application with the verifier running in the world [W]. *)
Definition app (W : World) : App :=
  {| secure_filename := fun name => name;
     uuid4_hex := "0f8fad5bd9cb469fa16570867728950e";
     VERIFICATION_UPLOAD_FOLDER := "static/uploads/verifications";
     file_save := fun _ => Returned tt;
     get_mongodb_db := Some sample_db;
     utcnow := fun _ => "2024-05-01T09:30:00";
     VERIFIER := Some W;
     storage := sample_storage |}.

(** A request with a photograph of 200 KB and the business name typed
    in. *)
Definition request_with (file_name business_name : string) : Request :=
  {| files_business_permit_photo :=
       Some {| fs_filename := Some file_name; fs_size := 204800 |};
     form := {["permit_business_name" := business_name]};
     request_user_email := "pedro@example.com" |}.

End Cases.
(** * Properties *)

(** ** The feature vector *)

Lemma comprehension_total {A B : Type} (f : A -> outcome B) (g : A -> B)
    (xs : list A) :
  (forall x, In x xs -> f x = Returned (g x)) ->
  comprehension f xs = Returned (List.map g xs).
Proof.
  induction xs as [|x xs IH]; intros Hf; simpl.
  - reflexivity.
  - rewrite (Hf x (or_introl eq_refl)).
    rewrite IH by (intros y Hy; apply Hf; now right).
    reflexivity.
Qed.

Lemma py_float_numeric (feature_dict : gmap string pynum) (k : string) :
  (forall key v, feature_dict !! key = Some v -> numeric v) ->
  py_float (feature_get feature_dict k)
  = Returned (feature_value feature_dict k).
Proof.
  intros Hnum. unfold feature_get, feature_value.
  destruct (feature_dict !! k) as [[z|f]|] eqn:Hk; simpl.
  - specialize (Hnum k _ Hk). simpl in Hnum. now rewrite Hnum.
  - reflexivity.
  - reflexivity.
Qed.

(** C9.  For a feature dictionary whose present values are numbers,
    [features_to_vector] returns, without raising, a vector of exactly 27
    floats whose i-th entry is the value stored under the i-th name of
    [FEATURE_NAMES], and 0.0 when that key is absent. *)
Theorem features_to_vector_fixed_order (feature_dict : gmap string pynum) :
  (forall k v, feature_dict !! k = Some v -> numeric v) ->
  exists vec : list float,
    features_to_vector feature_dict = Returned vec
    /\ List.length vec = 27%nat
    /\ (forall (i : nat) (k : string),
          FEATURE_NAMES !! i = Some k ->
          vec !! i = Some (feature_value feature_dict k))
    /\ (forall k, feature_dict !! k = None ->
          feature_value feature_dict k = 0.0%float).
Proof.
  intros Hnum.
  exists (List.map (feature_value feature_dict) FEATURE_NAMES).
  repeat split.
  - unfold features_to_vector. apply comprehension_total.
    intros k _. now apply py_float_numeric.
  - intros i k Hi. change (List.map ?f ?l) with (f <$> l).
    rewrite list_lookup_fmap, Hi. reflexivity.
  - intros k Hk. unfold feature_value. now rewrite Hk.
Qed.

(** ** Name cross-check without comparable pair *)

(** C4.  When neither name pair has both sides present,
    [cross_check_names] gives the score 0.5 and [overall_match] true. *)
Theorem cross_check_names_benefit_of_doubt (L : PyLib)
    (user_business_name user_owner_name dti_business_name dti_owner_name
     : option string) :
  comparable_pair user_business_name dti_business_name = false ->
  comparable_pair user_owner_name dti_owner_name = false ->
  let name_check :=
    cross_check_names L user_business_name user_owner_name
      dti_business_name dti_owner_name in
  nc_score name_check = 0.5%float /\ nc_overall_match name_check = true.
Proof.
  unfold comparable_pair. intros Hb Ho. cbv zeta.
  unfold cross_check_names, check_business_name, check_owner_name.
  rewrite Hb, Ho.
  destruct (truthy user_business_name && negb (truthy dti_business_name));
    destruct (truthy user_owner_name && negb (truthy dti_owner_name));
    split; reflexivity.
Qed.

(** ** The image quality gate *)

(** C8.  [check_image_quality] applies its rules in order and the first
    failure decides: a file that does not decode fails with "Invalid image
    file"; then a height or width below 200 fails; then a blur score below
    30 fails; then a brightness below 30 or above 230 fails; an image that
    passes all of them is accepted.  The bounds 30 (blur), 30 and 230
    (brightness) themselves pass. *)
Theorem check_image_quality_rules (L : PyLib) (W : World)
    (image_path : string) :
  (cv2_imread W image_path = Returned None ->
   check_image_quality L W image_path = (false, "Invalid image file"))
  /\
  (forall img, cv2_imread W image_path = Returned (Some img) ->
     (shape_h img < 200 \/ shape_w img < 200 ->
      check_image_quality L W image_path
      = (false, "Image too small (" ++ str_of_int (shape_w img) ++ "×"
                ++ str_of_int (shape_h img)
                ++ "). Please upload at least 400×300."))
     /\
     (forall lap_var,
        200 <= shape_h img -> 200 <= shape_w img ->
        laplacian_var img = Returned lap_var ->
        ((lap_var <? 30)%float = true ->
         fst (check_image_quality L W image_path) = false
         /\ snd (check_image_quality L W image_path)
            = "Image is too blurry (clarity " ++ format_f0 L lap_var
              ++ "/30+). "
              ++ "Please take a clearer photo of the QR code on your permit.")
        /\
        (forall brightness,
           (lap_var <? 30)%float = false ->
           gray_mean img = Returned brightness ->
           ((brightness <? 30)%float = true
            \/ (230 <? brightness)%float = true ->
            fst (check_image_quality L W image_path) = false
            /\ snd (check_image_quality L W image_path)
               = "Image brightness is poor (" ++ format_f0 L brightness
                 ++ "). "
                 ++ "Ensure good lighting when photographing the permit.")
           /\
           ((brightness <? 30)%float = false ->
            (230 <? brightness)%float = false ->
            check_image_quality L W image_path = (true, "Image quality OK"))
           /\
           (lap_var = 30%float ->
            brightness = 30%float \/ brightness = 230%float ->
            check_image_quality L W image_path
            = (true, "Image quality OK")))))
  /\ (30 <? 30)%float = false
  /\ (230 <? 230)%float = false.
Proof.
  unfold check_image_quality.
  split; [|split; [|split; reflexivity]].
  - intros ->. reflexivity.
  - intros img ->. split.
    + intros Hsmall.
      assert ((shape_h img <? 200) || (shape_w img <? 200) = true) as ->.
      { apply orb_true_iff. destruct Hsmall; [left|right]; now apply Z.ltb_lt. }
      reflexivity.
    + intros lap_var Hh Hw Hlap.
      assert ((shape_h img <? 200) || (shape_w img <? 200) = false) as ->.
      { apply orb_false_iff. split; now apply Z.ltb_ge. }
      rewrite Hlap. split.
      * intros ->. split; reflexivity.
      * intros brightness Hsharp Hmean. rewrite Hsharp, Hmean.
        split; [|split].
        -- intros Hpoor.
           assert ((brightness <? 30)%float || (230 <? brightness)%float
                   = true) as ->.
           { apply orb_true_iff. exact Hpoor. }
           split; reflexivity.
        -- intros -> ->. reflexivity.
        -- intros _ [-> | ->]; reflexivity.
Qed.

(** ** Floating-point comparisons against the thresholds *)

(** A score below 0.4 is not at or above the match threshold 0.65. *)
Lemma below_04_not_match (x : float) :
  (x <? 0.4)%float = true -> (NAME_MATCH_THRESHOLD <=? x)%float = false.
Proof.
  unfold NAME_MATCH_THRESHOLD.
  rewrite ltb_spec, leb_spec. unfold SFltb, SFleb.
  destruct (Prim2SF x) as [s|s| |s m e].
  - destruct s; vm_compute; auto.
  - destruct s; vm_compute; congruence.
  - vm_compute. congruence.
  - destruct s.
    + vm_compute. auto.
    + change (Prim2SF 0.4) with (S754_finite false 7205759403792794 (-54)).
      change (Prim2SF 0.65) with (S754_finite false 5854679515581645 (-53)).
      cbn [SFcompare].
      destruct (Z.compare_spec e (-54)); destruct (Z.compare_spec (-53) e);
        try lia; congruence.
Qed.

(** ** The name cross-check inside the pipeline *)

Lemma checks_done_comparable (L : PyLib)
    (user_business_name user_owner_name dti_business_name dti_owner_name
     : option string) :
  checks_done
    (check_owner_name L user_owner_name dti_owner_name
       (check_business_name L user_business_name dti_business_name
          cross_check_init))
  = Z_of_bool (comparable_pair user_business_name dti_business_name)
    + Z_of_bool (comparable_pair user_owner_name dti_owner_name).
Proof.
  unfold check_owner_name, check_business_name, comparable_pair.
  destruct (truthy user_business_name), (truthy dti_business_name),
    (truthy user_owner_name), (truthy dti_owner_name); reflexivity.
Qed.

(** A score below 0.4 comes from a comparison: the names do not match
    overall and the registry gave at least one name. *)
Lemma low_score_is_contradiction (L : PyLib)
    (user_business_name user_owner_name dti_business_name dti_owner_name
     : option string) :
  let name_check :=
    cross_check_names L user_business_name user_owner_name
      dti_business_name dti_owner_name in
  (nc_score name_check <? 0.4)%float = true ->
  nc_overall_match name_check = false
  /\ truthy (py_or dti_business_name dti_owner_name) = true.
Proof.
  cbv zeta. unfold cross_check_names, overall_score.
  rewrite checks_done_comparable.
  destruct (0 <? _) eqn:Hdone; cbn [nc_score nc_overall_match].
  - intros Hlow. split.
    + now apply below_04_not_match.
    + unfold comparable_pair, py_or in *.
      destruct (truthy dti_business_name) eqn:Hb; [exact Hb|].
      destruct (truthy dti_owner_name) eqn:Ho; [reflexivity|].
      rewrite !andb_false_r in Hdone. discriminate.
  - vm_compute. discriminate.
Qed.

(** ** The log *)

(** The outcome of the scan does not depend on what was logged before, and
    the scan only appends to the log. *)
Lemma scan_qr_code_log (W : World) (image_path : string) (log : list Stage) :
  scan_qr_code W image_path log
  = (scan_outcome W image_path,
     (log ++ snd (run (scan_qr_code W image_path)))%list).
Proof.
  unfold scan_outcome, run, scan_qr_code.
  destruct (PYZBAR_AVAILABLE W); cbn [negb].
  - destruct (scan_variants W _) as [[[data method]|]|e];
      unfold ret, raise, bind, call, enter; cbn;
      rewrite ?app_nil_r; try reflexivity.
    destruct (_extract_text_with_ocr W image_path) as [ok text].
    destruct (ok && negb (is_empty text)); reflexivity.
  - unfold ret. cbn. now rewrite app_nil_r.
Qed.

(** ** The quality gate short-circuits the pipeline *)

(** C3.  When [check_image_quality] fails, [verify_permit_image] returns a
    result with [valid] false whose validation message is the reason given
    by the quality check, and the log holds the quality stage only: the
    classifier, the QR scan, OCR and the registry are not invoked. *)
Theorem quality_gate_short_circuits (L : PyLib) (W : World)
    (image_path : string) (user_business_name user_owner_name : option string) :
  fst (check_image_quality L W image_path) = false ->
  exists r log,
    run (verify_permit_image L W image_path
           user_business_name user_owner_name) = (Returned r, log)
    /\ valid r = false
    /\ pv_passed (permit_validation r) = false
    /\ pv_message (permit_validation r)
       = snd (check_image_quality L W image_path)
    /\ log = [QualityStage]
    /\ (forall stage, In stage log -> stage = QualityStage).
Proof.
  intros Hfail.
  unfold verify_permit_image, run, bind, call, enter, ret.
  destruct (check_image_quality L W image_path) as [ok reason].
  cbn in Hfail. subst ok. cbn.
  eexists _, _. split; [reflexivity|]. cbn.
  repeat split. intros stage [<-|[]]. reflexivity.
Qed.

(** ** The ML-only fallback *)

(** C2.  When the image passes the quality gate and the QR scan fails
    with the message [failure], the pipeline returns a result [r] such
    that: with the classifier available, predicting a permit with a
    confidence above 0.8, [r] is invalid, pending manual review, with
    confidence [classifier confidence * 0.7]; with the classifier
    available and predicting no permit, [r] is invalid with confidence
    0.1; with the classifier unavailable, [r] is invalid with confidence 0
    and carries the message [failure] unchanged. *)
Theorem ml_only_fallback_policy (L : PyLib) (W : World)
    (image_path : string) (user_business_name user_owner_name : option string)
    (failure method : string) :
  fst (check_image_quality L W image_path) = true ->
  scan_outcome W image_path = Returned (false, failure, method) ->
  let ml := predict_permit_ml L W image_path in
  exists r log,
    run (verify_permit_image L W image_path
           user_business_name user_owner_name) = (Returned r, log)
    /\ (ml_available ml = true -> ml_is_permit ml = true ->
        (0.8 <? ml_confidence ml)%float = true ->
        valid r = false
        /\ pv_pending_manual_review (permit_validation r) = Some true
        /\ confidence r = (ml_confidence ml * 0.7)%float)
    /\ (ml_available ml = true -> ml_is_permit ml = false ->
        valid r = false /\ confidence r = 0.1%float)
    /\ (ml_available ml = false ->
        valid r = false
        /\ confidence r = 0%float
        /\ pv_message (permit_validation r) = failure).
Proof.
  intros Hq Hscan ml.
  unfold verify_permit_image, run, bind, call, enter, ret.
  destruct (check_image_quality L W image_path) as [ok reason].
  cbn in Hq. subst ok. cbn [negb].
  rewrite scan_qr_code_log, Hscan. cbn [negb].
  eexists _, _. split; [reflexivity|].
  fold ml. unfold ml_only_fallback.
  split; [|split].
  - intros -> -> ->. cbn. auto.
  - intros -> ->. cbn. auto.
  - intros ->. cbn. auto.
Qed.

(** ** Registry confirmed, names contradict *)

(** C1.  When the image passes the quality gate, the QR payload is a
    recognized registry URL, [validate_with_dti] confirms the page, the
    score of the name cross-check is below 0.4 and the registry gave a
    business name or an owner name, the pipeline returns a result with
    [valid] false, confidence 0.90 - 0.20 = 0.70 and [name_mismatch]
    true. *)
Theorem registry_name_mismatch_rejects (L : PyLib) (W : World)
    (image_path : string) (user_business_name user_owner_name : option string)
    (payload method : string) (details : DtiDetails) :
  fst (check_image_quality L W image_path) = true ->
  scan_outcome W image_path = Returned (true, payload, method) ->
  is_dti_url L payload = true ->
  validate_with_dti L W payload = (true, details) ->
  (nc_score (cross_check_names L user_business_name user_owner_name
               (dd_business_name details) (dd_owner_name details))
   <? 0.4)%float = true ->
  dd_business_name details <> None \/ dd_owner_name details <> None ->
  exists r log,
    run (verify_permit_image L W image_path
           user_business_name user_owner_name) = (Returned r, log)
    /\ valid r = false
    /\ confidence r = 0.70%float
    /\ confidence r = (0.90 - 0.20)%float
    /\ pv_passed (permit_validation r) = false
    /\ pv_name_mismatch (permit_validation r) = Some true.
Proof.
  intros Hq Hscan Hurl Hdti Hlow _.
  destruct (low_score_is_contradiction L _ _ _ _ Hlow) as [Hno Hfound].
  unfold verify_permit_image, run, bind, call, enter, ret.
  destruct (check_image_quality L W image_path) as [ok reason].
  cbn in Hq. subst ok. cbn [negb].
  rewrite scan_qr_code_log, Hscan. cbn [negb].
  unfold verify_qr_text, bind, call, enter, ret.
  destruct (_extract_text_with_ocr W image_path) as [ocr_ok ocr_text].
  destruct (ocr_ok && negb (is_empty ocr_text));
    rewrite Hurl; unfold registry_branch, bind, call, enter, ret;
    rewrite Hdti, Hno, Hlow, Hfound; cbn;
    eexists _, _; (split; [reflexivity|]); cbn; repeat split.
Qed.

(** ** The result is valid exactly when the validation passed *)

Lemma registry_accept_consistent (results : VerificationResult)
    (ml_result : MlResult) (dti_details : DtiDetails)
    (name_check : NameCheck) (base_confidence : float) :
  consistent
    (registry_accept results ml_result dti_details name_check
       base_confidence).
Proof.
  unfold consistent, registry_accept.
  destruct (negb (is_empty (nc_details name_check)));
    cbn [business_info assign];
    destruct (business_info results); reflexivity.
Qed.

Lemma registry_branch_consistent (L : PyLib) (W : World)
    (results : VerificationResult) (ml_result : MlResult) (qr_data : string)
    (user_business_name user_owner_name : option string)
    (log log' : list Stage) (r : VerificationResult) :
  valid results = false ->
  registry_branch L W results ml_result qr_data
    user_business_name user_owner_name log = (Returned r, log') ->
  consistent r.
Proof.
  intros Hvalid.
  unfold registry_branch, bind, call, enter, ret.
  destruct (validate_with_dti L W qr_data) as [dti_valid dti_details].
  destruct dti_valid.
  - destruct (nc_overall_match _).
    + intros [= <- _]. apply registry_accept_consistent.
    + destruct (_ && _).
      * intros [= <- _]. unfold consistent. cbn. exact Hvalid.
      * intros [= <- _]. apply registry_accept_consistent.
  - destruct (negb (dd_reachable dti_details)).
    + destruct (_ && _ && _); intros [= <- _]; unfold consistent; cbn;
        auto.
    + intros [= <- _]. unfold consistent. cbn. exact Hvalid.
Qed.

Lemma text_qr_branch_consistent (L : PyLib) (W : World)
    (results : VerificationResult) (ml_result : MlResult)
    (image_path qr_data : string)
    (user_business_name user_owner_name : option string)
    (log log' : list Stage) (r : VerificationResult) :
  valid results = false ->
  text_qr_branch L W results ml_result image_path qr_data
    user_business_name user_owner_name log = (Returned r, log') ->
  consistent r.
Proof.
  intros Hvalid.
  unfold text_qr_branch, bind, call, enter, ret.
  destruct (_extract_text_with_ocr W image_path) as [ocr_ok ocr_text].
  destruct (ocr_ok && negb (is_empty ocr_text)).
  - destruct (ml_available ml_result && ml_is_permit ml_result).
    + destruct (0.65 <? _)%float.
      * destruct (negb (is_empty _)); intros [= <- _]; reflexivity.
      * intros [= <- _]. unfold consistent. cbn. exact Hvalid.
    + destruct (0.7 <? _)%float; intros [= <- _]; unfold consistent; cbn;
        auto.
  - intros [= <- _]. unfold consistent. cbn. exact Hvalid.
Qed.

Lemma ml_only_fallback_consistent (L : PyLib)
    (results : VerificationResult) (ml_result : MlResult) (qr_data : string) :
  valid results = false ->
  pv_passed (permit_validation results) = false ->
  consistent (ml_only_fallback L results ml_result qr_data).
Proof.
  intros Hvalid Hpassed. unfold consistent, ml_only_fallback.
  destruct (_ && _ && _); [cbn; exact Hvalid|].
  destruct (_ && _); cbn; congruence.
Qed.

(** C10.  Every result that [verify_permit_image] returns has [valid] true
    exactly when [permit_validation.passed] is true. *)
Theorem valid_iff_validation_passed (L : PyLib) (W : World)
    (image_path : string) (user_business_name user_owner_name : option string)
    (r : VerificationResult) (log : list Stage) :
  run (verify_permit_image L W image_path
         user_business_name user_owner_name) = (Returned r, log) ->
  valid r = true <-> pv_passed (permit_validation r) = true.
Proof.
  intros Hrun.
  enough (consistent r) as Hc by (unfold consistent in Hc; now rewrite Hc).
  revert Hrun.
  unfold verify_permit_image, run, bind, call, enter, ret.
  destruct (check_image_quality L W image_path) as [ok reason].
  destruct ok; cbn [negb].
  - rewrite scan_qr_code_log.
    destruct (scan_outcome W image_path) as [[[qr_ok qr_data] qr_method]|e];
      [|discriminate].
    destruct qr_ok; cbn [negb].
    + unfold verify_qr_text, bind, call, enter, ret.
      destruct (_extract_text_with_ocr W image_path) as [ocr_ok ocr_text].
      destruct (ocr_ok && negb (is_empty ocr_text));
        destruct (is_dti_url L qr_data); intros Hrun;
        first [ eapply registry_branch_consistent; [|exact Hrun]; reflexivity
              | eapply text_qr_branch_consistent; [|exact Hrun];
                reflexivity ].
    + intros [= <- _]. now apply ml_only_fallback_consistent.
  - intros [= <- _]. reflexivity.
Qed.

(** The pipeline returns a result whenever the quality gate fails, and
    otherwise whenever the QR scan does not raise. *)
Lemma verify_permit_image_returns (L : PyLib) (W : World)
    (image_path : string) (user_business_name user_owner_name : option string) :
  fst (check_image_quality L W image_path) = false
  \/ (exists scan, scan_outcome W image_path = Returned scan) ->
  exists r log,
    run (verify_permit_image L W image_path
           user_business_name user_owner_name) = (Returned r, log).
Proof.
  intros Hreach.
  unfold verify_permit_image, run, bind, call, enter, ret.
  destruct (check_image_quality L W image_path) as [ok reason].
  destruct ok; cbn [negb]; [|eauto].
  destruct Hreach as [Hq | (scan & Hscan)]; [discriminate Hq|].
  rewrite scan_qr_code_log, Hscan.
  destruct scan as [[qr_ok qr_data] qr_method].
  destruct qr_ok; cbn [negb]; [|eauto].
  unfold verify_qr_text, registry_branch, text_qr_branch,
    bind, call, enter, ret.
  destruct (_extract_text_with_ocr W image_path) as [ocr_ok ocr_text].
  destruct (ocr_ok && negb (is_empty ocr_text));
    destruct (is_dti_url L qr_data);
    try destruct (validate_with_dti L W qr_data) as [dti_valid dti_details];
    try destruct dti_valid;
    repeat match goal with
           | |- context [if ?b then _ else _] => destruct b
           end;
    eexists _, _; reflexivity.
Qed.

(** The QR scan fails outright when pyzbar is missing, or when no variant
    decodes and OCR gives no text; its message is then fixed. *)
Lemma scan_fails_outright (W : World) (image_path : string) :
  (PYZBAR_AVAILABLE W = false ->
   scan_outcome W image_path
   = Returned (false, "pyzbar library not installed", ""))
  /\ (PYZBAR_AVAILABLE W = true ->
      scan_variants W (preprocess_variants W image_path) = Returned None ->
      fst (_extract_text_with_ocr W image_path) = false ->
      scan_outcome W image_path = Returned (false, NO_QR_MESSAGE, "")).
Proof.
  unfold scan_outcome, run, scan_qr_code. split.
  - intros ->. reflexivity.
  - intros -> -> Hocr. cbn [negb].
    unfold bind, call, enter, ret.
    destruct (_extract_text_with_ocr W image_path) as [ok text].
    cbn in Hocr. subst ok. reflexivity.
Qed.

(** A payload decoded on some variant is what the scan returns. *)
Lemma scan_decodes (W : World) (image_path payload method : string) :
  PYZBAR_AVAILABLE W = true ->
  scan_variants W (preprocess_variants W image_path)
  = Returned (Some (payload, method)) ->
  scan_outcome W image_path = Returned (true, payload, method).
Proof.
  unfold scan_outcome, run, scan_qr_code.
  intros -> ->. reflexivity.
Qed.

(** ** Comparison of the parsed fields *)

(** What one block does to the flags and the counters. *)
Lemma record_check_effect (key : match_key) (is_match : bool)
    (detail mismatch : string) (st : CompareState) :
  let st' := record_check key is_match detail mismatch st in
  checked st' = checked st + 1
  /\ matches st' = matches st + Z_of_bool is_match
  /\ fc_business_name_match (comparison st')
     = match key with
       | business_name_match => is_match
       | _ => fc_business_name_match (comparison st)
       end
  /\ fc_business_owner_match (comparison st')
     = match key with
       | business_owner_match => is_match
       | _ => fc_business_owner_match (comparison st)
       end
  /\ fc_business_number_match (comparison st')
     = match key with
       | business_number_match => is_match
       | _ => fc_business_number_match (comparison st)
       end
  /\ fc_validity_date_match (comparison st')
     = match key with
       | validity_date_match => is_match
       | _ => fc_validity_date_match (comparison st)
       end.
Proof.
  destruct is_match, key; cbv zeta; unfold record_check;
    repeat split; cbn [matches checked Z_of_bool]; lia || reflexivity.
Qed.

Lemma has_summary_record_check (key : match_key) (is_match : bool)
    (detail mismatch : string) (st : CompareState)
    (name owner number date : bool) (n_checked n_matches : Z) :
  has_summary st name owner number date n_checked n_matches ->
  has_summary (record_check key is_match detail mismatch st)
    (match key with business_name_match => is_match | _ => name end)
    (match key with business_owner_match => is_match | _ => owner end)
    (match key with business_number_match => is_match | _ => number end)
    (match key with validity_date_match => is_match | _ => date end)
    (n_checked + 1) (n_matches + Z_of_bool is_match).
Proof.
  intros (H1 & H2 & H3 & H4 & H5 & H6).
  destruct (record_check_effect key is_match detail mismatch st)
    as (E1 & E2 & E3 & E4 & E5 & E6).
  unfold has_summary.
  rewrite E1, E2, E3, E4, E5, E6, H1, H2, H3, H4, H5, H6.
  repeat split.
Qed.

Lemma has_summary_skip (st : CompareState)
    (name owner number date : bool) (n_checked n_matches : Z) :
  has_summary st name owner number date n_checked n_matches ->
  has_summary st name owner number date
    (n_checked + Z_of_bool false) (n_matches + Z_of_bool false).
Proof. cbn [Z_of_bool]. now rewrite !Z.add_0_r. Qed.

Lemma summary_business_name (L : PyLib)
    (qr_fields permit_fields : ParsedFields) (threshold : float)
    (st : CompareState) (owner number date : bool) (n_checked n_matches : Z) :
  let present := comparable pf_business_name qr_fields permit_fields in
  let flag :=
    (threshold <=? fuzzy_similarity L (folded pf_business_name qr_fields)
                     (folded pf_business_name permit_fields))%float in
  has_summary st false owner number date n_checked n_matches ->
  has_summary (compare_business_name L qr_fields permit_fields threshold st)
    (present && flag) owner number date
    (n_checked + Z_of_bool present) (n_matches + Z_of_bool (present && flag)).
Proof.
  cbv zeta. intros H.
  unfold compare_business_name, comparable, folded.
  destruct (truthy (pf_business_name qr_fields)
            && truthy (pf_business_name permit_fields)); cbn [andb].
  - exact (has_summary_record_check business_name_match _ _ _ _ _ _ _ _ _ _ H).
  - now apply has_summary_skip.
Qed.

Lemma summary_business_owner (L : PyLib)
    (qr_fields permit_fields : ParsedFields) (threshold : float)
    (st : CompareState) (name number date : bool) (n_checked n_matches : Z) :
  let present := comparable pf_business_owner qr_fields permit_fields in
  let flag :=
    (threshold <=? fuzzy_similarity L (folded pf_business_owner qr_fields)
                     (folded pf_business_owner permit_fields))%float in
  has_summary st name false number date n_checked n_matches ->
  has_summary (compare_business_owner L qr_fields permit_fields threshold st)
    name (present && flag) number date
    (n_checked + Z_of_bool present) (n_matches + Z_of_bool (present && flag)).
Proof.
  cbv zeta. intros H.
  unfold compare_business_owner, comparable, folded.
  destruct (truthy (pf_business_owner qr_fields)
            && truthy (pf_business_owner permit_fields)); cbn [andb].
  - exact (has_summary_record_check business_owner_match _ _ _ _ _ _ _ _ _ _ H).
  - now apply has_summary_skip.
Qed.

Lemma summary_business_number
    (qr_fields permit_fields : ParsedFields)
    (st : CompareState) (name owner date : bool) (n_checked n_matches : Z) :
  let present := comparable pf_business_number qr_fields permit_fields in
  let flag :=
    String.eqb (strip (the_str (pf_business_number qr_fields)))
               (strip (the_str (pf_business_number permit_fields))) in
  has_summary st name owner false date n_checked n_matches ->
  has_summary (compare_business_number qr_fields permit_fields st)
    name owner (present && flag) date
    (n_checked + Z_of_bool present) (n_matches + Z_of_bool (present && flag)).
Proof.
  cbv zeta. intros H.
  unfold compare_business_number, comparable.
  destruct (truthy (pf_business_number qr_fields)
            && truthy (pf_business_number permit_fields)); cbn [andb].
  - exact (has_summary_record_check business_number_match _ _ _ _ _ _ _ _ _ _ H).
  - now apply has_summary_skip.
Qed.

Lemma summary_validity_date (L : PyLib)
    (qr_fields permit_fields : ParsedFields)
    (st : CompareState) (name owner number : bool) (n_checked n_matches : Z) :
  let present := comparable pf_validity_date qr_fields permit_fields in
  let flag :=
    (0.80 <=? fuzzy_similarity L (folded pf_validity_date qr_fields)
                (folded pf_validity_date permit_fields))%float in
  has_summary st name owner number false n_checked n_matches ->
  has_summary (compare_validity_date L qr_fields permit_fields st)
    name owner number (present && flag)
    (n_checked + Z_of_bool present) (n_matches + Z_of_bool (present && flag)).
Proof.
  cbv zeta. intros H.
  unfold compare_validity_date, comparable, folded.
  destruct (truthy (pf_validity_date qr_fields)
            && truthy (pf_validity_date permit_fields)); cbn [andb].
  - exact (has_summary_record_check validity_date_match _ _ _ _ _ _ _ _ _ _ H).
  - now apply has_summary_skip.
Qed.

Lemma comparable_fields_positive (qr_fields permit_fields : ParsedFields) :
  (0 <? comparable_fields qr_fields permit_fields)
  = negb (comparable_fields qr_fields permit_fields =? 0).
Proof.
  unfold comparable_fields.
  destruct (comparable pf_business_name qr_fields permit_fields),
    (comparable pf_business_owner qr_fields permit_fields),
    (comparable pf_business_number qr_fields permit_fields),
    (comparable pf_validity_date qr_fields permit_fields); reflexivity.
Qed.

(** C7 (amended).  With fuzzy matching available, each of the four fields
    business name, business owner, business number and validity date that
    is present on both sides is compared and counted in [checked]: name
    and owner by the fuzzy similarity of the lower-cased, stripped texts
    against [threshold] (0.70 in the pipeline), the date against 0.80, the
    number by equality of the stripped texts.  [matches] counts the flags
    raised, and the confidence is [matches / checked], or 0.0 when none of
    the four fields was comparable. *)
Theorem compare_permit_fields_confidence (L : PyLib)
    (qr_fields permit_fields : ParsedFields) (threshold : float) :
  let c := _compare_permit_fields L true qr_fields permit_fields threshold in
  let st := compare_blocks L qr_fields permit_fields threshold in
  fc_business_name_match c
  = comparable pf_business_name qr_fields permit_fields
    && (threshold <=? fuzzy_similarity L
                        (folded pf_business_name qr_fields)
                        (folded pf_business_name permit_fields))%float
  /\ fc_business_owner_match c
     = comparable pf_business_owner qr_fields permit_fields
       && (threshold <=? fuzzy_similarity L
                           (folded pf_business_owner qr_fields)
                           (folded pf_business_owner permit_fields))%float
  /\ fc_business_number_match c
     = comparable pf_business_number qr_fields permit_fields
       && String.eqb (strip (the_str (pf_business_number qr_fields)))
                     (strip (the_str (pf_business_number permit_fields)))
  /\ fc_validity_date_match c
     = comparable pf_validity_date qr_fields permit_fields
       && (0.80 <=? fuzzy_similarity L
                      (folded pf_validity_date qr_fields)
                      (folded pf_validity_date permit_fields))%float
  /\ checked st = comparable_fields qr_fields permit_fields
  /\ matches st = raised_flags c
  /\ fc_confidence c
     = (if comparable_fields qr_fields permit_fields =? 0 then 0.0%float
        else int_truediv (raised_flags c)
                         (comparable_fields qr_fields permit_fields)).
Proof.
  cbv zeta.
  assert (has_summary compare_init false false false false 0 0) as H0
    by (repeat split).
  apply (summary_business_name L qr_fields permit_fields threshold) in H0.
  apply (summary_business_owner L qr_fields permit_fields threshold) in H0.
  apply (summary_business_number qr_fields permit_fields) in H0.
  apply (summary_validity_date L qr_fields permit_fields) in H0.
  fold (compare_blocks L qr_fields permit_fields threshold) in H0.
  destruct H0 as (H1 & H2 & H3 & H4 & H5 & H6).
  cbn [Z.add] in H5, H6.
  assert (Hchecked :
    checked (compare_blocks L qr_fields permit_fields threshold)
    = comparable_fields qr_fields permit_fields) by exact H5.
  unfold _compare_permit_fields, overall_confidence. cbn [negb].
  rewrite Hchecked, comparable_fields_positive.
  destruct (comparable_fields qr_fields permit_fields =? 0);
    cbn [negb set_confidence fc_business_name_match
         fc_business_owner_match fc_business_number_match
         fc_validity_date_match fc_confidence];
    unfold raised_flags;
    cbn [set_confidence fc_business_name_match
         fc_business_owner_match fc_business_number_match
         fc_validity_date_match fc_confidence];
    rewrite H1, H2, H3, H4, H6; repeat split.
Qed.

(** ** Similarity of names *)

Lemma normalize_nonempty_truthy (a : string) :
  _normalize_name (Some a) <> "" -> truthy (Some a) = true.
Proof.
  unfold _normalize_name. destruct (truthy (Some a)); [reflexivity|].
  cbn. congruence.
Qed.

Lemma is_empty_false (s : string) : s <> "" -> is_empty s = false.
Proof. destruct s; [congruence|reflexivity]. Qed.

Lemma is_empty_true (s : string) : is_empty s = true -> s = "".
Proof. destruct s; [reflexivity|discriminate]. Qed.

(** C6 (amended).  A name whose normalized form is not empty has
    similarity 1.0 with itself, and a name whose normalized form is empty
    has similarity 0.0 with itself.  The similarity of [a] and [b] equals
    that of [b] and [a] whenever the rules settle it (a side is empty or
    normalizes to nothing, the normalized names are equal, or one contains
    the other), and otherwise exactly when [SequenceMatcher]'s ratio of the
    normalized names is the same in both orders. *)
Theorem name_similarity_reflexive_symmetric (L : PyLib) :
  (forall a : string,
     _normalize_name (Some a) <> "" ->
     _name_similarity L (Some a) (Some a) = 1.0%float)
  /\ (forall a : string,
        _normalize_name (Some a) = "" ->
        _name_similarity L (Some a) (Some a) = 0.0%float)
  /\ (forall a b : option string,
        settled_by_rules a b = true ->
        _name_similarity L a b = _name_similarity L b a)
  /\ (forall a b : option string,
        settled_by_rules a b = false ->
        (_name_similarity L a b = _name_similarity L b a
         <-> SequenceMatcher_ratio L (_normalize_name a) (_normalize_name b)
             = SequenceMatcher_ratio L (_normalize_name b)
                 (_normalize_name a))).
Proof.
  split; [|split; [|split]].
  - intros a Hne. unfold _name_similarity.
    rewrite (normalize_nonempty_truthy a Hne). cbn [negb orb].
    rewrite (is_empty_false _ Hne). cbn [orb].
    now rewrite String.eqb_refl.
  - intros a He. unfold _name_similarity. rewrite He.
    destruct (truthy (Some a)); reflexivity.
  - intros a b. unfold settled_by_rules, _name_similarity.
    rewrite (String.eqb_sym (_normalize_name b) (_normalize_name a)).
    destruct (truthy a), (truthy b); cbn [negb orb]; try reflexivity.
    destruct (is_empty (_normalize_name a)),
      (is_empty (_normalize_name b)); cbn [orb]; try reflexivity.
    destruct (String.eqb _ _); cbn [orb]; [reflexivity|].
    destruct (contains (_normalize_name a) (_normalize_name b)),
      (contains (_normalize_name b) (_normalize_name a));
      cbn [orb]; try reflexivity; discriminate.
  - intros a b. unfold settled_by_rules, _name_similarity.
    rewrite (String.eqb_sym (_normalize_name b) (_normalize_name a)).
    destruct (truthy a), (truthy b); cbn [negb orb]; try discriminate.
    destruct (is_empty (_normalize_name a)),
      (is_empty (_normalize_name b)); cbn [orb]; try discriminate.
    destruct (String.eqb _ _); cbn [orb]; [discriminate|].
    destruct (contains (_normalize_name a) (_normalize_name b)),
      (contains (_normalize_name b) (_normalize_name a));
      cbn [orb]; try discriminate.
    intros _. reflexivity.
Qed.

(** ** Normalization of names *)

(** *** Characters *)

Lemma az09_char (c : ascii) :
  is_az09 c = true ->
  isspace c = false /\ isword c = true /\ lower_char c = c
  /\ Ascii.eqb c " " = false.
Proof.
  destruct c as [[] [] [] [] [] [] [] []]; vm_compute;
    intros H; try discriminate H; repeat split.
Qed.

Lemma space_char :
  isspace " " = true /\ isword " " = false /\ lower_char " " = " "%char
  /\ is_az09 " " = false.
Proof. repeat split. Qed.

(** *** Tidy texts *)

Lemma tidy_cons (after_space : bool) (c : ascii) (s : string) :
  tidy after_space (String c s) = true ->
  (c = " "%char /\ after_space = false /\ tidy true s = true)
  \/ (is_az09 c = true /\ tidy false s = true).
Proof.
  cbn [tidy]. destruct (Ascii.eqb_spec c " ") as [-> | _].
  - intros H. apply andb_true_iff in H as [Hb Ht].
    left. destruct after_space; [discriminate|]. auto.
  - intros H. apply andb_true_iff in H as [Ha Ht]. right. auto.
Qed.

Lemma tidy_after_filter_collapse (s : string) (in_run : bool) :
  tidy in_run (collapse_from in_run (re_sub_not_alnum_space s)) = true.
Proof.
  revert in_run. induction s as [|c s IH]; intros in_run; [reflexivity|].
  cbn [re_sub_not_alnum_space].
  destruct (is_az09 c) eqn:Haz; cbn [orb].
  - destruct (az09_char c Haz) as (Hsp & _ & _ & Hne).
    cbn [collapse_from]. rewrite Hsp. cbn [tidy]. rewrite Hne, Haz.
    apply IH.
  - destruct (isspace c) eqn:Hsp; [|apply IH].
    cbn [collapse_from]. rewrite Hsp.
    destruct in_run; [apply IH|].
    cbn [tidy]. cbn. apply IH.
Qed.

Lemma tidy_lstrip (s : string) (b b' : bool) :
  tidy b s = true -> tidy b' (lstrip_if isspace s) = true.
Proof.
  revert b. induction s as [|c s IH]; intros b H; [reflexivity|].
  destruct (tidy_cons _ _ _ H) as [(-> & _ & Ht) | (Haz & Ht)].
  - cbn [lstrip_if]. cbn. exact (IH true Ht).
  - destruct (az09_char c Haz) as (Hsp & _ & _ & Hne).
    cbn [lstrip_if]. rewrite Hsp. cbn [tidy]. rewrite Hne, Haz. exact Ht.
Qed.

Lemma tidy_rstrip (s : string) (b : bool) :
  tidy b s = true -> tidy b (rstrip_if isspace s) = true.
Proof.
  revert b. induction s as [|c s IH]; intros b H; [reflexivity|].
  cbn [rstrip_if].
  destruct (is_empty (rstrip_if isspace s) && isspace c); [reflexivity|].
  destruct (tidy_cons _ _ _ H) as [(-> & -> & Ht) | (Haz & Ht)].
  - cbn [tidy]. cbn. exact (IH true Ht).
  - destruct (az09_char c Haz) as (_ & _ & _ & Hne).
    cbn [tidy]. rewrite Hne, Haz. exact (IH false Ht).
Qed.

Lemma tidy_collapse_id (s : string) (b : bool) :
  tidy b s = true -> collapse_from b s = s.
Proof.
  revert b. induction s as [|c s IH]; intros b H; [reflexivity|].
  destruct (tidy_cons _ _ _ H) as [(-> & -> & Ht) | (Haz & Ht)].
  - cbn [collapse_from]. cbn. now rewrite (IH true Ht).
  - destruct (az09_char c Haz) as (Hsp & _).
    cbn [collapse_from]. rewrite Hsp. now rewrite (IH false Ht).
Qed.

Lemma tidy_filter_id (s : string) (b : bool) :
  tidy b s = true -> re_sub_not_alnum_space s = s.
Proof.
  revert b. induction s as [|c s IH]; intros b H; [reflexivity|].
  destruct (tidy_cons _ _ _ H) as [(-> & -> & Ht) | (Haz & Ht)].
  - cbn [re_sub_not_alnum_space]. cbn. now rewrite (IH true Ht).
  - cbn [re_sub_not_alnum_space]. rewrite Haz. cbn [orb].
    now rewrite (IH false Ht).
Qed.

Lemma tidy_lower_id (s : string) (b : bool) :
  tidy b s = true -> lower s = s.
Proof.
  unfold lower.
  revert b. induction s as [|c s IH]; intros b H; [reflexivity|].
  destruct (tidy_cons _ _ _ H) as [(-> & -> & Ht) | (Haz & Ht)].
  - cbn [str_map]. now rewrite (IH true Ht).
  - destruct (az09_char c Haz) as (_ & _ & Hlow & _).
    cbn [str_map]. now rewrite Hlow, (IH false Ht).
Qed.

(** *** [strip] is idempotent *)

Lemma rstrip_idempotent (p : ascii -> bool) (s : string) :
  rstrip_if p (rstrip_if p s) = rstrip_if p s.
Proof.
  induction s as [|c s IH]; [reflexivity|].
  cbn [rstrip_if].
  destruct (is_empty (rstrip_if p s) && p c) eqn:Hdrop; [reflexivity|].
  cbn [rstrip_if]. now rewrite IH, Hdrop.
Qed.

Lemma lstrip_head (p : ascii -> bool) (s : string) :
  lstrip_if p s = ""
  \/ exists c t, lstrip_if p s = String c t /\ p c = false.
Proof.
  induction s as [|c s IH]; [now left|].
  cbn [lstrip_if]. destruct (p c) eqn:Hc; [exact IH|].
  right. now exists c, s.
Qed.

Lemma strip_idempotent (p : ascii -> bool) (s : string) :
  strip_if p (strip_if p s) = strip_if p s.
Proof.
  unfold strip_if.
  destruct (lstrip_head p s) as [-> | (c & t & -> & Hc)]; [reflexivity|].
  cbn [rstrip_if]. rewrite Hc, andb_false_r.
  cbn [lstrip_if]. rewrite Hc.
  cbn [rstrip_if]. rewrite rstrip_idempotent, Hc, andb_false_r.
  reflexivity.
Qed.

(** *** Words *)

Lemma tidy_plain (s : string) (b : bool) : tidy b s = true -> plain s = true.
Proof.
  revert b. induction s as [|c s IH]; intros b H; [reflexivity|].
  cbn [plain].
  destruct (tidy_cons _ _ _ H) as [(-> & _ & Ht) | (Haz & Ht)].
  - cbn. exact (IH true Ht).
  - rewrite Haz, orb_true_r. exact (IH false Ht).
Qed.

Lemma plain_cons (c : ascii) (s : string) :
  plain (String c s) = true ->
  (c = " "%char \/ is_az09 c = true) /\ plain s = true.
Proof.
  cbn [plain]. intros H. apply andb_true_iff in H as [Hc Hs].
  split; [|exact Hs].
  apply orb_true_iff in Hc as [Hc | Hc]; [left|now right].
  now apply Ascii.eqb_eq.
Qed.

Lemma split_char_cons (sep : ascii) (s : string) :
  exists w ws, split_char sep s = w :: ws.
Proof.
  destruct s as [|c s]; [now exists "", []|].
  cbn [split_char]. destruct (Ascii.eqb c sep); [eauto|].
  destruct (split_char sep s); eauto.
Qed.

Lemma word_here_cons (a c : ascii) (w s : string) :
  word_here (String a w) (String c s) = Ascii.eqb a c && word_here w s.
Proof. unfold word_here. cbn. now rewrite andb_assoc. Qed.

(** A suffix found with a word boundary after it is the first word. *)
Lemma word_here_first_word (w s : string) :
  all_az09 w = true -> plain s = true -> word_here w s = true ->
  exists ws, split_char " " s = w :: ws.
Proof.
  revert s. induction w as [|a w IH]; intros s Hw Hs Hhere.
  - destruct s as [|d s]; [now exists []|].
    unfold word_here in Hhere. cbn in Hhere.
    destruct (plain_cons _ _ Hs) as [[-> | Haz] _].
    + cbn [split_char]. cbn. eauto.
    + destruct (az09_char d Haz) as (_ & Hword & _).
      rewrite Hword in Hhere. discriminate.
  - cbn [all_az09] in Hw. apply andb_true_iff in Hw as [Ha Hw].
    destruct s as [|c s]; [discriminate|].
    rewrite word_here_cons in Hhere.
    apply andb_true_iff in Hhere as [Hac Hhere].
    apply Ascii.eqb_eq in Hac. subst c.
    destruct (az09_char a Ha) as (_ & _ & _ & Hne).
    destruct (plain_cons _ _ Hs) as [_ Hs'].
    destruct (IH s Hw Hs' Hhere) as (ws & Hsplit).
    cbn [split_char]. rewrite Hne, Hsplit. eauto.
Qed.

(** The first word of a plain text is found by [word_here]. *)
Lemma first_word_word_here (w s : string) (ws : list string) :
  all_az09 w = true -> plain s = true ->
  split_char " " s = w :: ws -> word_here w s = true.
Proof.
  revert s ws. induction w as [|a w IH]; intros s ws Hw Hs Hsplit.
  - destruct s as [|c s]; [reflexivity|].
    unfold word_here. cbn.
    destruct (plain_cons _ _ Hs) as [[-> | Haz] _]; [reflexivity|].
    destruct (az09_char c Haz) as (_ & _ & _ & Hne).
    cbn [split_char] in Hsplit. rewrite Hne in Hsplit.
    destruct (split_char " " s); discriminate.
  - cbn [all_az09] in Hw. apply andb_true_iff in Hw as [Ha Hw].
    destruct s as [|c s]; [discriminate|].
    destruct (plain_cons _ _ Hs) as [Hc Hs'].
    rewrite word_here_cons.
    cbn [split_char] in Hsplit.
    destruct (Ascii.eqb_spec c " ") as [-> | Hne]; [discriminate|].
    destruct (split_char " " s) as [|t ts] eqn:Hrest;
      [destruct (split_char_cons " " s) as (t & ts & Habs); congruence|].
    injection Hsplit as -> -> <-.
    rewrite Ascii.eqb_refl. cbn [andb].
    exact (IH s ts Hw Hs' Hrest).
Qed.

(** The words ahead of the scan after one character. *)
Lemma words_ahead_step (w : string) (c : ascii) (s : string) (prev : bool) :
  plain (String c s) = true -> w <> "" ->
  In w (words_ahead prev (String c s)) ->
  (prev = false /\ exists ws, split_char " " (String c s) = w :: ws)
  \/ In w (words_ahead (isword c) s).
Proof.
  intros Hs Hne Hin. unfold words_ahead in *.
  destruct (plain_cons _ _ Hs) as [[-> | Haz] _].
  - right. cbn [split_char] in Hin. cbn in Hin. cbn.
    destruct prev; cbn [tail] in Hin; [exact Hin|].
    destruct Hin as [<- | Hin]; [congruence|exact Hin].
  - destruct (az09_char c Haz) as (_ & Hword & _ & Hsp).
    rewrite Hword. cbn [split_char] in *. rewrite Hsp in *.
    destruct (split_char " " s) as [|t ts] eqn:Hrest;
      [destruct (split_char_cons " " s) as (t & ts & Habs); congruence|].
    cbn [tail] in *.
    destruct prev; [now right|].
    destruct Hin as [<- | Hin]; [left; eauto|now right].
Qed.

Lemma words_ahead_next (w : string) (c : ascii) (s : string) (prev : bool) :
  plain (String c s) = true ->
  In w (words_ahead (isword c) s) ->
  In w (words_ahead prev (String c s)).
Proof.
  intros Hs Hin. unfold words_ahead in *.
  destruct (plain_cons _ _ Hs) as [[-> | Haz] _].
  - cbn [split_char]. cbn in *.
    destruct prev; cbn [tail]; [exact Hin|now right].
  - destruct (az09_char c Haz) as (_ & Hword & _ & Hsp).
    rewrite Hword in Hin. cbn [split_char]. rewrite Hsp.
    destruct (split_char " " s) as [|t ts]; [destruct Hin|].
    cbn [tail] in *.
    destruct prev; cbn [tail]; [exact Hin|now right].
Qed.

(** Where the suffix is not among the words ahead, [re.sub] changes
    nothing. *)
Lemma sub_word_absent (w s : string) (prev : bool) :
  all_az09 w = true -> plain s = true ->
  ~ In w (words_ahead prev s) ->
  sub_word_from w O prev s = s.
Proof.
  intros Hw. revert prev. induction s as [|c s IH]; intros prev Hs Hno;
    [reflexivity|].
  cbn [sub_word_from].
  assert (negb prev && word_here w (String c s) = false) as ->.
  { destruct prev; [reflexivity|]. cbn [negb andb].
    destruct (word_here w (String c s)) eqn:Hhere; [|reflexivity].
    destruct (word_here_first_word w _ Hw Hs Hhere) as (ws & Hsplit).
    exfalso. apply Hno. unfold words_ahead. rewrite Hsplit. now left. }
  f_equal.
  destruct (plain_cons _ _ Hs) as [_ Hs'].
  apply (IH _ Hs'). intros Hin. apply Hno.
  now apply words_ahead_next.
Qed.

Lemma sub_word_length (w s : string) (skip : nat) (prev : bool) :
  (String.length (sub_word_from w skip prev s) <= String.length s)%nat.
Proof.
  revert skip prev. induction s as [|c s IH]; intros skip prev; [cbn; lia|].
  cbn [sub_word_from String.length].
  destruct skip as [|k].
  - destruct (negb prev && word_here w (String c s)).
    + specialize (IH (String.length w - 1)%nat (isword c)). lia.
    + cbn [String.length]. specialize (IH O (isword c)). lia.
  - specialize (IH k (isword c)). lia.
Qed.

Lemma sub_word_plain (w s : string) (skip : nat) (prev : bool) :
  plain s = true -> plain (sub_word_from w skip prev s) = true.
Proof.
  revert skip prev. induction s as [|c s IH]; intros skip prev Hs;
    [reflexivity|].
  cbn [sub_word_from].
  cbn [plain] in Hs. apply andb_true_iff in Hs as [Hc Hs].
  destruct skip as [|k]; [|now apply IH].
  destruct (negb prev && word_here w (String c s)); [now apply IH|].
  cbn [plain]. rewrite Hc. now apply IH.
Qed.

(** Where the suffix is among the words ahead, [re.sub] removes at least
    one character. *)
Lemma sub_word_present (w s : string) (prev : bool) :
  all_az09 w = true -> w <> "" -> plain s = true ->
  In w (words_ahead prev s) ->
  (String.length (sub_word_from w O prev s) < String.length s)%nat.
Proof.
  intros Hw Hne. revert prev. induction s as [|c s IH]; intros prev Hs Hin.
  - unfold words_ahead in Hin. destruct prev; cbn in Hin.
    + destruct Hin.
    + destruct Hin as [<- | []]. congruence.
  - cbn [sub_word_from String.length].
    destruct (negb prev && word_here w (String c s)) eqn:Hhere.
    + pose proof (sub_word_length w s (String.length w - 1) (isword c)).
      lia.
    + cbn [String.length]. apply -> Nat.succ_lt_mono.
      destruct (plain_cons _ _ Hs) as [_ Hs'].
      apply (IH _ Hs').
      destruct (words_ahead_step w c s prev Hs Hne Hin)
        as [(-> & ws & Hsplit) | Hnext]; [|exact Hnext].
      rewrite (first_word_word_here w _ ws Hw Hs Hsplit) in Hhere.
      discriminate.
Qed.

(** *** The loop over the suffixes *)

Lemma suffix_word (w : string) :
  In w SUFFIXES -> all_az09 w = true /\ w <> "".
Proof.
  unfold SUFFIXES. cbn [In]. intros Hw.
  repeat (destruct Hw as [<- | Hw]; [split; [reflexivity|discriminate]|]).
  destruct Hw.
Qed.

Lemma suffix_free_absent (name w : string) :
  suffix_free name = true -> In w SUFFIXES -> ~ In w (words name).
Proof.
  unfold suffix_free. intros Hfree Hw Hin.
  rewrite forallb_forall in Hfree. specialize (Hfree w Hin).
  apply negb_true_iff in Hfree.
  assert (str_in w SUFFIXES = true) as Hyes; [|congruence].
  unfold str_in. apply existsb_exists. exists w. split; [exact Hw|].
  apply String.eqb_refl.
Qed.

Lemma not_suffix_free_present (name : string) :
  suffix_free name = false ->
  exists w, In w SUFFIXES /\ In w (words name).
Proof.
  unfold suffix_free. intros Hnot.
  destruct (forallb_forall (fun w => negb (str_in w SUFFIXES)) (words name))
    as [_ Hall].
  destruct (existsb (fun w => str_in w SUFFIXES) (words name)) eqn:Hex.
  - apply existsb_exists in Hex as (w & Hin & Hw).
    unfold str_in in Hw. apply existsb_exists in Hw as (v & Hv & Heq).
    apply String.eqb_eq in Heq. subst v. now exists w.
  - rewrite Hall in Hnot; [discriminate|].
    intros w Hin. apply negb_true_iff.
    destruct (str_in w SUFFIXES) eqn:Hw; [|reflexivity].
    assert (existsb (fun w => str_in w SUFFIXES) (words name) = true)
      as Hyes by (apply existsb_exists; now exists w).
    congruence.
Qed.

(** The loop over a list of suffixes never lengthens a plain text, keeps
    it when none of the suffixes is a word of it, and shortens it when one
    of them is. *)
Lemma remove_loop (l : list string) (name : string) :
  (forall w, In w l -> In w SUFFIXES) -> plain name = true ->
  let out := fold_left (fun name suffix => re_sub_word suffix name) l name in
  (String.length out <= String.length name)%nat
  /\ ((forall w, In w l -> ~ In w (words name)) -> out = name)
  /\ ((exists w, In w l /\ In w (words name)) ->
      (String.length out < String.length name)%nat).
Proof.
  cbv zeta. revert name. induction l as [|v l IH]; intros name Hl Hplain.
  - cbn [fold_left]. split; [lia|]. split; [reflexivity|].
    intros (w & [] & _).
  - cbn [fold_left].
    assert (In v SUFFIXES) as Hv by (apply Hl; now left).
    destruct (suffix_word v Hv) as [Haz Hne].
    assert (forall w, In w l -> In w SUFFIXES) as Hl'
      by (intros w Hw; apply Hl; now right).
    destruct (in_dec string_dec v (words name)) as [Hin | Hout].
    + pose proof (sub_word_present v name false Haz Hne Hplain Hin) as Hlt.
      fold (re_sub_word v name) in Hlt.
      destruct (IH (re_sub_word v name) Hl'
                  (sub_word_plain v name O false Hplain)) as (Hle & _ & _).
      split; [lia|]. split; [|intros _; lia].
      intros Hnone. exfalso. apply (Hnone v); [now left|exact Hin].
    + rewrite (sub_word_absent v name false Haz Hplain Hout : 
                 re_sub_word v name = name).
      destruct (IH name Hl' Hplain) as (Hle & Hsame & Hless).
      split; [exact Hle|]. split.
      * intros Hnone. apply Hsame. intros w Hw. apply Hnone. now right.
      * intros (w & [<- | Hw] & Hin); [contradiction|].
        apply Hless. now exists w.
Qed.

Lemma remove_suffixes_id (name : string) :
  plain name = true -> suffix_free name = true ->
  remove_suffixes name = name.
Proof.
  intros Hplain Hfree.
  destruct (remove_loop SUFFIXES name (fun w H => H) Hplain)
    as (_ & Hsame & _).
  apply Hsame. intros w Hw. now apply suffix_free_absent.
Qed.

Lemma remove_suffixes_shorter (name : string) :
  plain name = true -> suffix_free name = false ->
  (String.length (remove_suffixes name) < String.length name)%nat.
Proof.
  intros Hplain Hnot.
  destruct (remove_loop SUFFIXES name (fun w H => H) Hplain)
    as (_ & _ & Hless).
  apply Hless. now apply not_suffix_free_present.
Qed.

(** *** The later steps never lengthen a text *)

Lemma filter_length (s : string) :
  (String.length (re_sub_not_alnum_space s) <= String.length s)%nat.
Proof.
  induction s as [|c s IH]; [cbn; lia|].
  cbn [re_sub_not_alnum_space].
  destruct (is_az09 c || isspace c); cbn [String.length]; lia.
Qed.

Lemma collapse_length (s : string) (in_run : bool) :
  (String.length (collapse_from in_run s) <= String.length s)%nat.
Proof.
  revert in_run. induction s as [|c s IH]; intros in_run; [cbn; lia|].
  cbn [collapse_from].
  destruct (isspace c); [destruct in_run|]; cbn [String.length];
    first [ specialize (IH true); lia | specialize (IH false); lia ].
Qed.

Lemma lstrip_length (p : ascii -> bool) (s : string) :
  (String.length (lstrip_if p s) <= String.length s)%nat.
Proof.
  induction s as [|c s IH]; [cbn; lia|].
  cbn [lstrip_if]. destruct (p c); cbn [String.length]; lia.
Qed.

Lemma rstrip_length (p : ascii -> bool) (s : string) :
  (String.length (rstrip_if p s) <= String.length s)%nat.
Proof.
  induction s as [|c s IH]; [cbn; lia|].
  cbn [rstrip_if].
  destruct (is_empty (rstrip_if p s) && p c); cbn [String.length]; lia.
Qed.

Lemma strip_length (s : string) :
  (String.length (strip s) <= String.length s)%nat.
Proof.
  unfold strip, strip_if.
  pose proof (rstrip_length isspace (lstrip_if isspace s)).
  pose proof (lstrip_length isspace s). lia.
Qed.

(** *** Two passes *)

(** The result of a normalization is tidy and stripped. *)
Lemma normalize_tidy (name : option string) :
  tidy false (_normalize_name name) = true
  /\ strip (_normalize_name name) = _normalize_name name.
Proof.
  unfold _normalize_name.
  destruct (negb (truthy name)); [split; reflexivity|].
  split.
  - unfold strip, strip_if, re_sub_spaces.
    apply tidy_rstrip.
    apply (tidy_lstrip _ false false).
    apply tidy_after_filter_collapse.
  - apply strip_idempotent.
Qed.

(** On a normalized name, the second pass amounts to removing the
    suffixes and tidying up again. *)
Lemma second_pass (n : string) :
  tidy false n = true -> strip n = n -> n <> "" ->
  _normalize_name (Some n)
  = strip (re_sub_spaces (re_sub_not_alnum_space (remove_suffixes n))).
Proof.
  intros Ht Hstrip Hne. unfold _normalize_name.
  destruct n as [|c n]; [congruence|]. cbn [truthy negb the_str].
  now rewrite (tidy_lower_id _ false Ht), Hstrip.
Qed.

(** C5 (amended).  Normalizing a normalized name changes nothing exactly
    when no word of the normalized name is one of the business suffixes. *)
Theorem normalize_name_idempotent_iff_suffix_free (x : string) :
  _normalize_name (Some (_normalize_name (Some x)))
  = _normalize_name (Some x)
  <-> suffix_free (_normalize_name (Some x)) = true.
Proof.
  destruct (normalize_tidy (Some x)) as [Ht Hstrip].
  set (n := _normalize_name (Some x)) in *.
  pose proof (tidy_plain n false Ht) as Hplain.
  destruct n as [|c n'] eqn:Hn; [split; reflexivity|].
  rewrite <- Hn in *.
  assert (n <> "") as Hne by (rewrite Hn; discriminate).
  rewrite (second_pass n Ht Hstrip Hne).
  split.
  - intros Hsame.
    destruct (suffix_free n) eqn:Hfree; [reflexivity|exfalso].
    pose proof (remove_suffixes_shorter n Hplain Hfree) as Hlt.
    pose proof (strip_length
                  (re_sub_spaces
                     (re_sub_not_alnum_space (remove_suffixes n)))) as H1.
    pose proof (collapse_length
                  (re_sub_not_alnum_space (remove_suffixes n)) false) as H2.
    pose proof (filter_length (remove_suffixes n)) as H3.
    unfold re_sub_spaces in *. rewrite Hsame in H1. lia.
  - intros Hfree.
    rewrite (remove_suffixes_id n Hplain Hfree).
    rewrite (tidy_filter_id n false Ht).
    unfold re_sub_spaces. rewrite (tidy_collapse_id n false Ht).
    exact Hstrip.
Qed.

(** * Further properties of the pipeline *)

(** ** Floats *)

Lemma ltb_leb (x y : float) :
  (x <? y)%float = true -> (x <=? y)%float = true.
Proof.
  rewrite ltb_spec, leb_spec. unfold SFltb, SFleb.
  destruct (SFcompare (Prim2SF x) (Prim2SF y)) as [[]|]; congruence.
Qed.

(** [min(cap, x)] never exceeds a cap that is a number. *)
Lemma py_min_cap (cap x : float) :
  (cap <=? cap)%float = true -> (py_min cap x <=? cap)%float = true.
Proof.
  intros Hcap. unfold py_min.
  destruct (x <? cap)%float eqn:Hx; [now apply ltb_leb|exact Hcap].
Qed.

(** ** What the branches leave untouched *)

Lemma same_stage_fields_refl (r : VerificationResult) :
  same_stage_fields r r.
Proof. repeat split. Qed.

Lemma registry_accept_frame (results : VerificationResult)
    (ml_result : MlResult) (dti_details : DtiDetails)
    (name_check : NameCheck) (base_confidence : float) :
  let r := registry_accept results ml_result dti_details name_check
             base_confidence in
  same_stage_fields r results
  /\ valid r = true
  /\ dti_validation r = dti_validation results
  /\ name_verification r = name_verification results
  /\ pv_name_mismatch (permit_validation r) = None
  /\ pv_pending_manual_review (permit_validation r) = None
  /\ confidence r
     = (if classifier_agrees ml_result
        then py_min 0.99 (base_confidence + ml_confidence ml_result * 0.04)
        else base_confidence).
Proof.
  cbv zeta. unfold registry_accept, classifier_agrees.
  destruct (negb (is_empty (nc_details name_check)));
    cbn [business_info assign];
    destruct (business_info results);
    repeat split.
Qed.

Lemma registry_branch_frame (L : PyLib) (W : World)
    (results : VerificationResult) (ml_result : MlResult) (qr_data : string)
    (user_business_name user_owner_name : option string)
    (log log' : list Stage) (r : VerificationResult) :
  registry_branch L W results ml_result qr_data
    user_business_name user_owner_name log = (Returned r, log') ->
  same_stage_fields r results
  /\ log' = (log ++ [RegistryStage qr_data])%list
  /\ dti_validation r = Some (snd (validate_with_dti L W qr_data))
  /\ name_verification r
     = Some (cross_check_names L user_business_name user_owner_name
               (dd_business_name (snd (validate_with_dti L W qr_data)))
               (dd_owner_name (snd (validate_with_dti L W qr_data)))).
Proof.
  unfold registry_branch, bind, call, enter, ret.
  destruct (validate_with_dti L W qr_data) as [dti_valid dti_details].
  cbn [snd].
  destruct dti_valid.
  - destruct (nc_overall_match _).
    + intros [= <- <-].
      destruct (registry_accept_frame
                  (results <| business_info_is
                                (extract_business_info_from_url L qr_data) |>
                     <| dti_validation_is dti_details |>
                     <| name_verification_is
                          (cross_check_names L user_business_name
                             user_owner_name (dd_business_name dti_details)
                             (dd_owner_name dti_details)) |>)
                  ml_result dti_details
                  (cross_check_names L user_business_name user_owner_name
                     (dd_business_name dti_details)
                     (dd_owner_name dti_details))
                  (0.90 + 0.05)%float) as (Hs & _ & Hd & Hn & _).
      repeat split; try apply Hs; assumption.
    + destruct (_ && _).
      * intros [= <- <-]. repeat split.
      * intros [= <- <-].
        destruct (registry_accept_frame
                    (results <| business_info_is
                                  (extract_business_info_from_url L qr_data) |>
                       <| dti_validation_is dti_details |>
                       <| name_verification_is
                            (cross_check_names L user_business_name
                               user_owner_name (dd_business_name dti_details)
                               (dd_owner_name dti_details)) |>)
                    ml_result dti_details
                    (cross_check_names L user_business_name user_owner_name
                       (dd_business_name dti_details)
                       (dd_owner_name dti_details))
                    0.90%float) as (Hs & _ & Hd & Hn & _).
        repeat split; try apply Hs; assumption.
  - destruct (negb (dd_reachable dti_details)).
    + destruct (_ && _ && _); intros [= <- <-]; repeat split.
    + intros [= <- <-]. repeat split.
Qed.

Lemma text_qr_branch_frame (L : PyLib) (W : World)
    (results : VerificationResult) (ml_result : MlResult)
    (image_path qr_data : string)
    (user_business_name user_owner_name : option string)
    (log log' : list Stage) (r : VerificationResult) :
  text_qr_branch L W results ml_result image_path qr_data
    user_business_name user_owner_name log = (Returned r, log') ->
  same_stage_fields r results
  /\ log' = (log ++ [OcrStage])%list
  /\ dti_validation r = dti_validation results
  /\ pv_name_mismatch (permit_validation r) = None
  /\ pv_pending_manual_review (permit_validation r) = None.
Proof.
  unfold text_qr_branch, bind, call, enter, ret.
  destruct (_extract_text_with_ocr W image_path) as [ocr_ok ocr_text].
  destruct (ocr_ok && negb (is_empty ocr_text)).
  - destruct (ml_available ml_result && ml_is_permit ml_result).
    + destruct (0.65 <? _)%float.
      * destruct (negb (is_empty _)); intros [= <- <-]; repeat split.
      * intros [= <- <-]. repeat split.
    + destruct (0.7 <? _)%float; intros [= <- <-]; repeat split.
  - intros [= <- <-]. repeat split.
Qed.

Lemma ml_only_fallback_frame (L : PyLib)
    (results : VerificationResult) (ml_result : MlResult) (qr_data : string) :
  let r := ml_only_fallback L results ml_result qr_data in
  same_stage_fields r results
  /\ valid r = valid results
  /\ dti_validation r = dti_validation results
  /\ name_verification r = name_verification results.
Proof.
  cbv zeta. unfold ml_only_fallback.
  destruct (ml_available ml_result && ml_is_permit ml_result
            && (0.8 <? ml_confidence ml_result)%float); [repeat split|].
  destruct (ml_available ml_result && negb (ml_is_permit ml_result));
    repeat split.
Qed.

(** The scan logs nothing, or one OCR stage. *)
Lemma scan_log_shape (W : World) (image_path : string) :
  snd (run (scan_qr_code W image_path)) = []
  \/ snd (run (scan_qr_code W image_path)) = [OcrStage].
Proof.
  unfold run, scan_qr_code.
  destruct (PYZBAR_AVAILABLE W); cbn [negb]; [|now left].
  destruct (scan_variants W _) as [[[data method]|]|e];
    unfold ret, raise, bind, call, enter; cbn; try (now left).
  destruct (_extract_text_with_ocr W image_path) as [ok text].
  destruct (ok && negb (is_empty text)); now right.
Qed.

(** The case analysis of a run that every property below starts from. *)
Ltac open_pipeline L W image_path :=
  unfold verify_permit_image, run, bind, call, enter, ret;
  destruct (check_image_quality L W image_path)
    as [quality_ok quality_msg] eqn:Hquality;
  destruct quality_ok; cbn [negb];
  [ rewrite scan_qr_code_log;
    destruct (scan_outcome W image_path)
      as [[[qr_ok qr_data] qr_method]|e] eqn:Hscan;
    [ destruct qr_ok; cbn [negb];
      [ unfold verify_qr_text, bind, call, enter, ret;
        destruct (_extract_text_with_ocr W image_path)
          as [ocr_ok ocr_text] eqn:Hocr;
        destruct (ocr_ok && negb (is_empty ocr_text)) eqn:Hreadable;
        destruct (is_dti_url L qr_data) eqn:Hdti
      | ]
    | ]
  | ].

(** ** No acceptance without a decoded payload *)

(** A result is valid only when the image passed the quality gate and the
    scan produced a payload, which the result records; neither the
    classifier alone nor a failed scan ever validates a permit. *)
Theorem accepted_only_with_payload (L : PyLib) (W : World)
    (image_path : string) (user_business_name user_owner_name : option string)
    (r : VerificationResult) (log : list Stage) :
  run (verify_permit_image L W image_path
         user_business_name user_owner_name) = (Returned r, log) ->
  valid r = true ->
  fst (check_image_quality L W image_path) = true
  /\ exists payload method,
       scan_outcome W image_path = Returned (true, payload, method)
       /\ qr_data r = Some payload
       /\ extracted_text r = payload.
Proof.
  open_pipeline L W image_path; intros Hrun Hvalid.
  1, 3: apply registry_branch_frame in Hrun as ((_ & _ & _ & Hd & He & _) & _).
  3, 4: apply text_qr_branch_frame in Hrun as ((_ & _ & _ & Hd & He & _) & _).
  1-4: split; [reflexivity|]; exists qr_data, qr_method;
       rewrite Hd, He; repeat split.
  - injection Hrun as <- _.
    destruct (ml_only_fallback_frame L
                ((results_init W image_path)
                   <| quality_check_is
                        {| qc_passed := true; qc_message := quality_msg |} |>
                   <| ml_prediction_is (predict_permit_ml L W image_path) |>
                   <| qr_scan_is
                        {| qs_passed := false; qs_message := qr_data;
                           qs_method := qr_method |} |>)
                (predict_permit_ml L W image_path) qr_data)
      as (_ & Hv & _).
    cbn [negb] in Hvalid. rewrite Hv in Hvalid. discriminate.
  - discriminate.
  - injection Hrun as <- _. discriminate.
Qed.

(** ** Which stages run *)

Lemma registry_branch_log (L : PyLib) (W : World)
    (results : VerificationResult) (ml_result : MlResult) (qr_data : string)
    (user_business_name user_owner_name : option string) (log : list Stage) :
  snd (registry_branch L W results ml_result qr_data
         user_business_name user_owner_name log)
  = (log ++ [RegistryStage qr_data])%list.
Proof.
  unfold registry_branch, bind, call, enter, ret.
  destruct (validate_with_dti L W qr_data) as [dti_valid dti_details].
  destruct dti_valid.
  - destruct (nc_overall_match _); [reflexivity|].
    destruct (_ && _); reflexivity.
  - destruct (negb (dd_reachable dti_details)); [|reflexivity].
    destruct (_ && _ && _); reflexivity.
Qed.

Lemma text_qr_branch_log (L : PyLib) (W : World)
    (results : VerificationResult) (ml_result : MlResult)
    (image_path qr_data : string)
    (user_business_name user_owner_name : option string) (log : list Stage) :
  snd (text_qr_branch L W results ml_result image_path qr_data
         user_business_name user_owner_name log)
  = (log ++ [OcrStage])%list.
Proof.
  unfold text_qr_branch, bind, call, enter, ret.
  destruct (_extract_text_with_ocr W image_path) as [ocr_ok ocr_text].
  destruct (ocr_ok && negb (is_empty ocr_text)); [|reflexivity].
  destruct (ml_available ml_result && ml_is_permit ml_result).
  - destruct (0.65 <? _)%float; [|reflexivity].
    destruct (negb (is_empty _)); reflexivity.
  - destruct (0.7 <? _)%float; reflexivity.
Qed.

(** Whatever the outcome of a run, the log starts with the quality stage,
    the registry is fetched at most once and only for the decoded payload
    when it is a registry URL, and OCR runs at most three times. *)
Theorem registry_fetched_only_for_registry_url (L : PyLib) (W : World)
    (image_path : string) (user_business_name user_owner_name : option string)
    (o : outcome VerificationResult) (log : list Stage) :
  run (verify_permit_image L W image_path
         user_business_name user_owner_name) = (o, log) ->
  head log = Some QualityStage
  /\ (List.length (List.filter is_registry_stage log) <= 1)%nat
  /\ (List.length (List.filter is_ocr_stage log) <= 3)%nat
  /\ (forall url, In (RegistryStage url) log ->
        is_dti_url L url = true
        /\ exists method,
             scan_outcome W image_path = Returned (true, url, method)).
Proof.
  open_pipeline L W image_path; intros Hrun;
    apply (f_equal snd) in Hrun; cbn [snd] in Hrun;
    rewrite ?registry_branch_log, ?text_qr_branch_log in Hrun;
    subst log;
    try (destruct (scan_log_shape W image_path) as [-> | ->]);
    cbn; (split; [reflexivity|]); (split; [lia|]); (split; [lia|]);
    intros url Hin;
    repeat (destruct Hin as [Hin | Hin]; [try discriminate Hin|]);
    try contradiction;
    injection Hin as <-; split; eauto.
Qed.

(** ** The registry branch *)

(** The state of [results] when the registry branch starts. *)
Ltac enter_registry_branch Hq Hscan Hurl :=
  unfold verify_permit_image, run, bind, call, enter, ret;
  match type of Hq with
  | fst (check_image_quality ?L ?W ?p) = true =>
      destruct (check_image_quality L W p) as [ok reason];
      cbn in Hq; subst ok; cbn [negb];
      rewrite scan_qr_code_log, Hscan; cbn [negb];
      unfold verify_qr_text, bind, call, enter, ret;
      destruct (_extract_text_with_ocr W p) as [ocr_ok ocr_text];
      destruct (ocr_ok && negb (is_empty ocr_text));
      rewrite Hurl; unfold registry_branch, bind, call, enter, ret
  end.

(** When the payload is a registry URL and the registry does not confirm
    it: an unreachable registry leads to acceptance at confidence 0.75 when
    the classifier predicts a permit with a confidence above 0.7, and
    otherwise to a rejection at 0.5 that is pending manual review; a
    registry that answered without confirming leads to a rejection at 0.4.
    Both rejections carry the registry's message. *)
Theorem registry_unconfirmed_policy (L : PyLib) (W : World)
    (image_path : string) (user_business_name user_owner_name : option string)
    (payload method : string) (details : DtiDetails) :
  fst (check_image_quality L W image_path) = true ->
  scan_outcome W image_path = Returned (true, payload, method) ->
  is_dti_url L payload = true ->
  validate_with_dti L W payload = (false, details) ->
  let ml := predict_permit_ml L W image_path in
  exists r log,
    run (verify_permit_image L W image_path
           user_business_name user_owner_name) = (Returned r, log)
    /\ (dd_reachable details = false ->
        classifier_agrees ml && (0.7 <? ml_confidence ml)%float = true ->
        valid r = true /\ confidence r = 0.75%float
        /\ pv_passed (permit_validation r) = true)
    /\ (dd_reachable details = false ->
        classifier_agrees ml && (0.7 <? ml_confidence ml)%float = false ->
        valid r = false /\ confidence r = 0.5%float
        /\ pv_pending_manual_review (permit_validation r) = Some true
        /\ pv_message (permit_validation r) = dd_message details)
    /\ (dd_reachable details = true ->
        valid r = false /\ confidence r = 0.4%float
        /\ pv_pending_manual_review (permit_validation r) = None
        /\ pv_message (permit_validation r) = dd_message details).
Proof.
  intros Hq Hscan Hurl Hdti ml. unfold classifier_agrees.
  enter_registry_branch Hq Hscan Hurl; rewrite Hdti; fold ml;
    destruct (dd_reachable details); cbn [negb];
    try destruct (ml_available ml && ml_is_permit ml
                  && (0.7 <? ml_confidence ml)%float);
    eexists _, _; (split; [reflexivity|]);
    repeat split; intros; try discriminate; reflexivity.
Qed.

(** When the registry confirms and the names do not contradict (they match
    overall, or the score is not below 0.4), the permit is accepted with a
    confidence of at most 0.99: exactly 0.90, or 0.90 + 0.05 when the names
    match, unless the classifier agrees and adds its share. *)
Theorem registry_confirmed_accepts (L : PyLib) (W : World)
    (image_path : string) (user_business_name user_owner_name : option string)
    (payload method : string) (details : DtiDetails) :
  fst (check_image_quality L W image_path) = true ->
  scan_outcome W image_path = Returned (true, payload, method) ->
  is_dti_url L payload = true ->
  validate_with_dti L W payload = (true, details) ->
  let ml := predict_permit_ml L W image_path in
  let name_check :=
    cross_check_names L user_business_name user_owner_name
      (dd_business_name details) (dd_owner_name details) in
  nc_overall_match name_check = true
  \/ (nc_score name_check <? 0.4)%float = false ->
  exists r log,
    run (verify_permit_image L W image_path
           user_business_name user_owner_name) = (Returned r, log)
    /\ valid r = true
    /\ pv_passed (permit_validation r) = true
    /\ (confidence r <=? 0.99)%float = true
    /\ (classifier_agrees ml = false ->
        confidence r = (if nc_overall_match name_check
                        then 0.90 + 0.05 else 0.90)%float)
    /\ dti_validation r = Some details.
Proof.
  intros Hq Hscan Hurl Hdti ml name_check Hok.
  assert (exists results,
            run (verify_permit_image L W image_path
                   user_business_name user_owner_name)
            = (Returned
                 (registry_accept results ml details name_check
                    (if nc_overall_match name_check
                     then 0.90 + 0.05 else 0.90)%float),
               snd (run (verify_permit_image L W image_path
                           user_business_name user_owner_name)))
            /\ dti_validation results = Some details) as (results & Hrun & Hd).
  { enter_registry_branch Hq Hscan Hurl; rewrite Hdti;
      fold ml; fold name_check;
      (destruct (nc_overall_match name_check);
       [|destruct Hok as [Hok | Hok]; [discriminate|rewrite Hok]]);
      cbn [andb]; eexists; split; reflexivity. }
  rewrite Hrun. eexists _, _. split; [reflexivity|].
  destruct (registry_accept_frame results ml details name_check
              (if nc_overall_match name_check then 0.90 + 0.05 else 0.90)%float)
    as (_ & Hv & Hdv & _ & _ & _ & Hc).
  pose proof (registry_accept_consistent results ml details name_check
                (if nc_overall_match name_check
                 then 0.90 + 0.05 else 0.90)%float) as Hp.
  unfold consistent in Hp.
  split; [exact Hv|]. split; [now rewrite <- Hp|].
  split; [|split; [|now rewrite Hdv]].
  - rewrite Hc. destruct (classifier_agrees ml).
    + now apply py_min_cap.
    + destruct (nc_overall_match name_check); reflexivity.
  - intros Hno. rewrite Hc, Hno. reflexivity.
Qed.

(** An applicant who gives neither a business name nor an owner name is
    never rejected for a name mismatch: a confirmed registration is
    accepted, with the bonus of matching names. *)
Theorem no_names_no_mismatch (L : PyLib) (W : World)
    (image_path : string) (user_business_name user_owner_name : option string)
    (payload method : string) (details : DtiDetails) :
  truthy user_business_name = false ->
  truthy user_owner_name = false ->
  fst (check_image_quality L W image_path) = true ->
  scan_outcome W image_path = Returned (true, payload, method) ->
  is_dti_url L payload = true ->
  validate_with_dti L W payload = (true, details) ->
  exists r log,
    run (verify_permit_image L W image_path
           user_business_name user_owner_name) = (Returned r, log)
    /\ valid r = true
    /\ pv_name_mismatch (permit_validation r) = None
    /\ (classifier_agrees (predict_permit_ml L W image_path) = false ->
        confidence r = (0.90 + 0.05)%float).
Proof.
  intros Hb Ho Hq Hscan Hurl Hdti.
  assert (nc_overall_match
            (cross_check_names L user_business_name user_owner_name
               (dd_business_name details) (dd_owner_name details)) = true)
    as Hmatch.
  { unfold cross_check_names, overall_score.
    rewrite checks_done_comparable. unfold comparable_pair.
    rewrite Hb, Ho. reflexivity. }
  enter_registry_branch Hq Hscan Hurl; rewrite Hdti, Hmatch;
    eexists _, _; (split; [reflexivity|]);
    match goal with
    | |- context [registry_accept ?rs ?ml ?d ?nc ?b] =>
        destruct (registry_accept_frame rs ml d nc b)
          as (_ & Hv & _ & _ & Hn & _ & Hc)
    end;
    (split; [exact Hv|]); (split; [exact Hn|]);
    intros Hno; rewrite Hc, Hno; reflexivity.
Qed.

(** ** Without pyzbar *)

(** Where pyzbar is not installed no permit is ever accepted: the run
    returns an invalid result, and neither OCR nor the registry is tried. *)
Theorem no_pyzbar_no_acceptance (L : PyLib) (W : World)
    (image_path : string) (user_business_name user_owner_name : option string) :
  PYZBAR_AVAILABLE W = false ->
  exists r log,
    run (verify_permit_image L W image_path
           user_business_name user_owner_name) = (Returned r, log)
    /\ valid r = false
    /\ pv_passed (permit_validation r) = false
    /\ qr_data r = None
    /\ List.filter is_ocr_stage log = []
    /\ List.filter is_registry_stage log = []
    /\ (fst (check_image_quality L W image_path) = true ->
        exists scan, qr_scan r = Some scan
          /\ qs_passed scan = false
          /\ qs_message scan = "pyzbar library not installed").
Proof.
  intros Hno.
  destruct (scan_fails_outright W image_path) as [Hscan _].
  specialize (Hscan Hno).
  assert (snd (run (scan_qr_code W image_path)) = []) as Hlog.
  { unfold run, scan_qr_code. rewrite Hno. reflexivity. }
  unfold verify_permit_image, run, bind, call, enter, ret.
  destruct (check_image_quality L W image_path) as [ok reason].
  destruct ok; cbn [negb].
  - rewrite scan_qr_code_log, Hscan, Hlog. cbn [negb].
    eexists _, _. split; [reflexivity|].
    match goal with
    | |- context [ml_only_fallback L ?rs ?ml ?msg] =>
        destruct (ml_only_fallback_frame L rs ml msg)
          as ((_ & _ & Hs & Hd & _) & Hv & _);
        pose proof (ml_only_fallback_consistent L rs ml msg
                      eq_refl eq_refl) as Hc
    end.
    unfold consistent in Hc.
    split; [exact Hv|]. split; [now rewrite <- Hc|].
    split; [now rewrite Hd|]. split; [reflexivity|]. split; [reflexivity|].
    intros _. rewrite Hs. eexists. repeat split.
  - eexists _, _. split; [reflexivity|]. repeat split.
    intros Habs. discriminate Habs.
Qed.

(** ** The result records what the stages returned *)

(** A returned result carries the path, the time, and the outcome of
    each stage that ran; the stages that did not run are left empty. *)
Theorem result_records_stages (L : PyLib) (W : World)
    (image_path : string) (user_business_name user_owner_name : option string)
    (r : VerificationResult) (log : list Stage) :
  run (verify_permit_image L W image_path
         user_business_name user_owner_name) = (Returned r, log) ->
  file_path r = image_path
  /\ timestamp r = now_isoformat W
  /\ quality_check r
     = Some {| qc_passed := fst (check_image_quality L W image_path);
               qc_message := snd (check_image_quality L W image_path) |}
  /\ (fst (check_image_quality L W image_path) = false ->
      ml_prediction r = None /\ qr_scan r = None /\ qr_data r = None
      /\ dti_validation r = None /\ name_verification r = None)
  /\ (fst (check_image_quality L W image_path) = true ->
      ml_prediction r = Some (predict_permit_ml L W image_path)
      /\ exists ok data method,
           scan_outcome W image_path = Returned (ok, data, method)
           /\ qr_scan r
              = Some {| qs_passed := ok;
                        qs_message := if ok
                                      then "QR decoded (" ++ method ++ ")"
                                      else data;
                        qs_method := method |}
           /\ qr_data r = (if ok then Some data else None)
           /\ dti_url_valid r = ok && is_dti_url L data
           /\ (dti_url_valid r = true <-> dti_validation r <> None)).
Proof.
  open_pipeline L W image_path; intros Hrun; cbn [fst snd].
  1, 3: pose proof Hrun as Hrun';
        apply registry_branch_frame in Hrun
          as ((Hqc & Hml & Hqs & Hqd & _ & Hdu & Hfp & Hts) & _ & Hdv & _).
  3, 4: pose proof Hrun as Hrun';
        apply text_qr_branch_frame in Hrun
          as ((Hqc & Hml & Hqs & Hqd & _ & Hdu & Hfp & Hts) & _ & Hdv & _).
  1-4: rewrite Hqc, Hml, Hqs, Hqd, Hdu, Hfp, Hts, Hdv;
       (split; [reflexivity|]); (split; [reflexivity|]);
       (split; [reflexivity|]); (split; [intros Hf; discriminate Hf|]);
       intros _; (split; [reflexivity|]);
       exists true, qr_data, qr_method; rewrite Hdti;
       (split; [reflexivity|]); (split; [reflexivity|]);
       (split; [reflexivity|]); (split; [reflexivity|]);
       cbn; split; congruence.
  - injection Hrun as <- _.
    match goal with
    | |- context [ml_only_fallback L ?rs ?ml ?msg] =>
        destruct (ml_only_fallback_frame L rs ml msg)
          as ((Hqc & Hml & Hqs & Hqd & _ & Hdu & Hfp & Hts) & _ & Hdv & _)
    end.
    rewrite Hqc, Hml, Hqs, Hqd, Hdu, Hfp, Hts, Hdv.
    split; [reflexivity|]. split; [reflexivity|].
    split; [reflexivity|]. split; [intros Hf; discriminate Hf|].
    intros _. split; [reflexivity|].
    exists false, qr_data, qr_method.
    split; [reflexivity|]. split; [reflexivity|].
    split; [reflexivity|]. split; [reflexivity|].
    cbn. split; congruence.
  - discriminate.
  - injection Hrun as <- _.
    split; [reflexivity|]. split; [reflexivity|].
    split; [reflexivity|]. split; [intros _; repeat split|].
    intros Hf. discriminate Hf.
Qed.

(** ** Further properties of the field comparison *)

Lemma fuzzy_confidence (L : PyLib) (qr_fields permit_fields : ParsedFields)
    (threshold : float) :
  exists name owner number date : bool,
    let present_name := comparable pf_business_name qr_fields permit_fields in
    let present_owner :=
      comparable pf_business_owner qr_fields permit_fields in
    let present_number :=
      comparable pf_business_number qr_fields permit_fields in
    let present_date := comparable pf_validity_date qr_fields permit_fields in
    let n_checked :=
      Z_of_bool present_name + Z_of_bool present_owner
      + Z_of_bool present_number + Z_of_bool present_date in
    let n_matches :=
      Z_of_bool (present_name && name) + Z_of_bool (present_owner && owner)
      + Z_of_bool (present_number && number)
      + Z_of_bool (present_date && date) in
    fc_confidence
      (_compare_permit_fields L true qr_fields permit_fields threshold)
    = (if 0 <? n_checked then int_truediv n_matches n_checked
       else 0.0%float).
Proof.
  assert (has_summary compare_init false false false false 0 0) as H0
    by (repeat split).
  apply (summary_business_name L qr_fields permit_fields threshold) in H0.
  apply (summary_business_owner L qr_fields permit_fields threshold) in H0.
  apply (summary_business_number qr_fields permit_fields) in H0.
  apply (summary_validity_date L qr_fields permit_fields) in H0.
  fold (compare_blocks L qr_fields permit_fields threshold) in H0.
  destruct H0 as (_ & _ & _ & _ & H5 & H6).
  cbn [Z.add] in H5, H6.
  eexists _, _, _, _. cbv zeta.
  unfold _compare_permit_fields, overall_confidence. cbn [negb].
  rewrite H5, H6.
  destruct (0 <? _); reflexivity.
Qed.

Lemma comparison_confidence_in_levels (L : PyLib) (fuzzy : bool)
    (qr_fields permit_fields : ParsedFields) (threshold : float) :
  In (fc_confidence
        (_compare_permit_fields L fuzzy qr_fields permit_fields threshold))
     confidence_levels.
Proof.
  destruct fuzzy.
  - destruct (fuzzy_confidence L qr_fields permit_fields threshold)
      as (name & owner & number & date & ->).
    destruct (comparable pf_business_name qr_fields permit_fields),
      (comparable pf_business_owner qr_fields permit_fields),
      (comparable pf_business_number qr_fields permit_fields),
      (comparable pf_validity_date qr_fields permit_fields),
      name, owner, number, date;
      vm_compute; tauto.
  - unfold _compare_permit_fields, _compare_fields_simple. cbn [negb].
    destruct (truthy (pf_business_name qr_fields)
              && truthy (pf_business_name permit_fields));
      destruct (truthy (pf_business_number qr_fields)
                && truthy (pf_business_number permit_fields));
      repeat match goal with
             | |- context [if ?b then _ else _] =>
                 lazymatch b with
                 | orb _ _ => destruct b
                 | String.eqb _ _ => destruct b
                 end
             end;
      vm_compute; tauto.
Qed.

(** The confidence of a field comparison is one of seven fractions
    between 0 and 1, with or without fuzzywuzzy. *)
Theorem compare_confidence_levels (L : PyLib) (fuzzy : bool)
    (qr_fields permit_fields : ParsedFields) (threshold : float) :
  let c :=
    fc_confidence
      (_compare_permit_fields L fuzzy qr_fields permit_fields threshold) in
  In c confidence_levels
  /\ (0 <=? c)%float = true /\ (c <=? 1)%float = true.
Proof.
  cbv zeta.
  pose proof (comparison_confidence_in_levels L fuzzy qr_fields permit_fields
                threshold) as Hin.
  split; [exact Hin|].
  unfold confidence_levels in Hin. cbn [In] in Hin.
  repeat (destruct Hin as [<- | Hin]; [split; reflexivity|]).
  destruct Hin.
Qed.

Lemma record_check_accounted (key : match_key) (is_match : bool)
    (detail mismatch : string) (st : CompareState) :
  mismatches_accounted st ->
  mismatches_accounted (record_check key is_match detail mismatch st).
Proof.
  unfold mismatches_accounted, record_check. intros H.
  destruct is_match; cbn [comparison matches checked add_details
                            append_mismatch set_match fc_mismatches].
  - lia.
  - rewrite length_app. cbn [List.length]. lia.
Qed.

Lemma compare_blocks_accounted (L : PyLib)
    (qr_fields permit_fields : ParsedFields) (threshold : float) :
  mismatches_accounted (compare_blocks L qr_fields permit_fields threshold).
Proof.
  unfold compare_blocks, compare_validity_date, compare_business_number,
    compare_business_owner, compare_business_name.
  repeat match goal with
         | |- mismatches_accounted (if ?b then _ else _) => destruct b
         | |- mismatches_accounted (record_check _ _ _ _ _) =>
             apply record_check_accounted
         end;
    reflexivity.
Qed.

Lemma compare_blocks_summary (L : PyLib)
    (qr_fields permit_fields : ParsedFields) (threshold : float) :
  exists name owner number date : bool,
    has_summary (compare_blocks L qr_fields permit_fields threshold)
      (comparable pf_business_name qr_fields permit_fields && name)
      (comparable pf_business_owner qr_fields permit_fields && owner)
      (comparable pf_business_number qr_fields permit_fields && number)
      (comparable pf_validity_date qr_fields permit_fields && date)
      (comparable_fields qr_fields permit_fields)
      (Z_of_bool (comparable pf_business_name qr_fields permit_fields && name)
       + Z_of_bool
           (comparable pf_business_owner qr_fields permit_fields && owner)
       + Z_of_bool
           (comparable pf_business_number qr_fields permit_fields && number)
       + Z_of_bool
           (comparable pf_validity_date qr_fields permit_fields && date)).
Proof.
  assert (has_summary compare_init false false false false 0 0) as H0
    by (repeat split).
  apply (summary_business_name L qr_fields permit_fields threshold) in H0.
  apply (summary_business_owner L qr_fields permit_fields threshold) in H0.
  apply (summary_business_number qr_fields permit_fields) in H0.
  apply (summary_validity_date L qr_fields permit_fields) in H0.
  fold (compare_blocks L qr_fields permit_fields threshold) in H0.
  eexists _, _, _, _. exact H0.
Qed.

(** With fuzzy matching, the list of mismatches has one entry for each
    comparable field that did not match; it is empty exactly when every
    comparable field matched, and then the confidence is 1.0, or 0.0 when
    no field was comparable. *)
Theorem mismatches_account_for_failures (L : PyLib)
    (qr_fields permit_fields : ParsedFields) (threshold : float) :
  let c := _compare_permit_fields L true qr_fields permit_fields threshold in
  Z.of_nat (List.length (fc_mismatches c))
  = comparable_fields qr_fields permit_fields - raised_flags c
  /\ (fc_mismatches c = [] ->
      (comparable_fields qr_fields permit_fields = 0
       /\ fc_confidence c = 0.0%float)
      \/ (0 < comparable_fields qr_fields permit_fields
          /\ fc_confidence c = 1.0%float)).
Proof.
  cbv zeta.
  pose proof (compare_blocks_accounted L qr_fields permit_fields threshold)
    as Hacc.
  destruct (compare_blocks_summary L qr_fields permit_fields threshold)
    as (name & owner & number & date & H1 & H2 & H3 & H4 & H5 & H6).
  unfold mismatches_accounted in Hacc.
  assert (fc_mismatches
            (_compare_permit_fields L true qr_fields permit_fields threshold)
          = fc_mismatches
              (comparison
                 (compare_blocks L qr_fields permit_fields threshold)))
    as Hsame.
  { unfold _compare_permit_fields, overall_confidence. cbn [negb].
    destruct (0 <? _); reflexivity. }
  assert (raised_flags
            (_compare_permit_fields L true qr_fields permit_fields threshold)
          = matches (compare_blocks L qr_fields permit_fields threshold))
    as Hflags.
  { unfold raised_flags, _compare_permit_fields, overall_confidence.
    cbn [negb].
    destruct (0 <? _);
      cbn [set_confidence fc_business_name_match fc_business_owner_match
           fc_business_number_match fc_validity_date_match];
      rewrite H1, H2, H3, H4, H6; reflexivity. }
  rewrite Hsame, Hflags. split; [lia|].
  intros Hnil. rewrite Hnil in Hacc. cbn [List.length Z.of_nat] in Hacc.
  unfold _compare_permit_fields, overall_confidence. cbn [negb].
  rewrite <- Hacc, H6. rewrite H5 in Hacc. rewrite H6 in Hacc.
  unfold comparable_fields in *.
  destruct (comparable pf_business_name qr_fields permit_fields),
    (comparable pf_business_owner qr_fields permit_fields),
    (comparable pf_business_number qr_fields permit_fields),
    (comparable pf_validity_date qr_fields permit_fields),
    name, owner, number, date;
    cbn in Hacc; try discriminate Hacc;
    first [ left; split; reflexivity
          | right; split; [reflexivity | vm_compute; reflexivity] ].
Qed.

(** Without fuzzywuzzy only the business name and the business number are
    compared, whatever the threshold: the owner, date and scope flags stay
    false, and no detail or mismatch is ever reported. *)
Theorem simple_comparison_is_silent (L : PyLib)
    (qr_fields permit_fields : ParsedFields) (threshold : float) :
  let c := _compare_permit_fields L false qr_fields permit_fields threshold in
  fc_business_owner_match c = false
  /\ fc_validity_date_match c = false
  /\ fc_scope_match c = false
  /\ fc_mismatches c = []
  /\ fc_details c = ""
  /\ fc_business_name_match c
     = comparable pf_business_name qr_fields permit_fields
       && (contains (lower (the_str (pf_business_name qr_fields)))
                    (lower (the_str (pf_business_name permit_fields)))
           || contains (lower (the_str (pf_business_name permit_fields)))
                       (lower (the_str (pf_business_name qr_fields))))
  /\ fc_business_number_match c
     = comparable pf_business_number qr_fields permit_fields
       && String.eqb (the_str (pf_business_number qr_fields))
                     (the_str (pf_business_number permit_fields)).
Proof.
  cbv zeta. unfold _compare_permit_fields, _compare_fields_simple, comparable.
  cbn [negb].
  destruct (truthy (pf_business_name qr_fields)
            && truthy (pf_business_name permit_fields));
    destruct (truthy (pf_business_number qr_fields)
              && truthy (pf_business_number permit_fields));
    repeat match goal with
           | |- context [if ?b then _ else _] =>
               lazymatch b with
               | orb _ _ => destruct b eqn:?
               | String.eqb _ _ => destruct b eqn:?
               end
           end;
    cbn; repeat split; congruence.
Qed.

(** ** The text branch *)

(** The state of [results] when the text branch starts. *)
Ltac enter_text_branch Hq Hscan Hurl :=
  unfold verify_permit_image, run, bind, call, enter, ret;
  match type of Hq with
  | fst (check_image_quality ?L ?W ?p) = true =>
      destruct (check_image_quality L W p) as [ok reason];
      cbn in Hq; subst ok; cbn [negb];
      rewrite scan_qr_code_log, Hscan; cbn [negb];
      unfold verify_qr_text, bind, call, enter, ret;
      rewrite Hurl; unfold text_qr_branch, bind, call, enter, ret
  end.

(** A payload that is not a registry URL, on an image whose text OCR
    cannot read, is rejected at confidence 0.4, without a comparison of
    fields or names. *)
Theorem text_payload_unreadable_image (L : PyLib) (W : World)
    (image_path : string) (user_business_name user_owner_name : option string)
    (payload method : string) :
  fst (check_image_quality L W image_path) = true ->
  scan_outcome W image_path = Returned (true, payload, method) ->
  is_dti_url L payload = false ->
  fst (_extract_text_with_ocr W image_path) = false ->
  exists r log,
    run (verify_permit_image L W image_path
           user_business_name user_owner_name) = (Returned r, log)
    /\ valid r = false
    /\ confidence r = 0.4%float
    /\ pv_passed (permit_validation r) = false
    /\ name_verification r = None
    /\ text_verification r
       = Some (NotCompared 0.0
                 "Could not extract text from permit image for verification"
                 []).
Proof.
  intros Hq Hscan Hurl Hocr.
  enter_text_branch Hq Hscan Hurl.
  destruct (_extract_text_with_ocr W image_path) as [ocr_ok ocr_text].
  cbn in Hocr. subst ocr_ok. cbn [andb].
  eexists _, _. repeat split.
Qed.

Lemma accepted_text_confidence (c : float) :
  In c confidence_levels ->
  (0.7 <? c)%float = true ->
  py_min 0.85 c = 0.75%float \/ py_min 0.85 c = 0.85%float.
Proof.
  unfold confidence_levels. cbn [In]. intros Hin Hc.
  repeat (destruct Hin as [<- | Hin];
          [try discriminate Hc; vm_compute; tauto|]).
  destruct Hin.
Qed.

(** A payload that is not a registry URL, on an image that OCR reads, is
    judged on the comparison of its fields with the text of the permit.
    When the classifier agrees the permit is accepted exactly when the
    weighted score (40% fields, 40% names, 20% classifier) exceeds 0.65, at
    a confidence capped at 0.95.  Otherwise, also when the classifier says
    it is not a permit, it is accepted exactly when the field confidence
    exceeds 0.7, and then at confidence 0.75 or 0.85.  A rejection lists
    the mismatches of the comparison. *)
Theorem text_payload_policy (L : PyLib) (W : World)
    (image_path : string) (user_business_name user_owner_name : option string)
    (payload method text : string) :
  fst (check_image_quality L W image_path) = true ->
  scan_outcome W image_path = Returned (true, payload, method) ->
  is_dti_url L payload = false ->
  _extract_text_with_ocr W image_path = (true, text) ->
  is_empty text = false ->
  let ml := predict_permit_ml L W image_path in
  let qr_fields := _parse_qr_text payload in
  let text_comparison :=
    _compare_permit_fields L (FUZZYWUZZY_AVAILABLE W) qr_fields
      (_extract_permit_text_details text) 0.70 in
  let name_check :=
    cross_check_names L
      (py_or user_business_name (pf_business_name qr_fields))
      (py_or user_owner_name (pf_business_owner qr_fields))
      (pf_business_name qr_fields) (pf_business_owner qr_fields) in
  let score :=
    (fc_confidence text_comparison * 0.4 + nc_score name_check * 0.4
     + ml_confidence ml * 0.2)%float in
  exists r log,
    run (verify_permit_image L W image_path
           user_business_name user_owner_name) = (Returned r, log)
    /\ text_verification r = Some (Compared text_comparison)
    /\ name_verification r = Some name_check
    /\ pv_passed (permit_validation r) = valid r
    /\ (classifier_agrees ml = true ->
        valid r = (0.65 <? score)%float
        /\ confidence r
           = (if 0.65 <? score then py_min 0.95 score else score)%float)
    /\ (classifier_agrees ml = false ->
        valid r = (0.7 <? fc_confidence text_comparison)%float
        /\ (valid r = true ->
            confidence r = 0.75%float \/ confidence r = 0.85%float)
        /\ (valid r = false -> confidence r = fc_confidence text_comparison))
    /\ (valid r = false ->
        pv_mismatches (permit_validation r)
        = Some (fc_mismatches text_comparison)).
Proof.
  intros Hq Hscan Hurl Hocr Htext ml qr_fields text_comparison name_check
    score.
  pose proof (comparison_confidence_in_levels L (FUZZYWUZZY_AVAILABLE W)
                qr_fields (_extract_permit_text_details text) 0.70) as Hlevel.
  fold text_comparison in Hlevel.
  enter_text_branch Hq Hscan Hurl.
  rewrite Hocr, Htext. cbn [andb negb].
  fold ml. fold qr_fields. fold text_comparison. fold name_check.
  unfold classifier_agrees.
  destruct (ml_available ml) eqn:Havail;
    [destruct (ml_is_permit ml) eqn:Hpermit|]; cbn [andb].
  - fold score. destruct (0.65 <? score)%float eqn:Hscore.
    + destruct (negb (is_empty (nc_details name_check)));
        eexists _, _; (split; [reflexivity|]);
        repeat split; intros; try discriminate; reflexivity.
    + eexists _, _. split; [reflexivity|].
      repeat split; intros; try discriminate; reflexivity.
  - destruct (0.7 <? fc_confidence text_comparison)%float eqn:Hconf;
      eexists _, _; (split; [reflexivity|]);
      (split; [reflexivity|]); (split; [reflexivity|]);
      (split; [reflexivity|]); (split; [intros Habs; discriminate Habs|]);
      (split; [|intros Hv; try discriminate Hv; reflexivity]);
      intros _; (split; [reflexivity|]);
      (split; [|intros Hv; try discriminate Hv; reflexivity]);
      intros Hv; try discriminate Hv;
      now apply accepted_text_confidence.
  - destruct (0.7 <? fc_confidence text_comparison)%float eqn:Hconf;
      eexists _, _; (split; [reflexivity|]);
      (split; [reflexivity|]); (split; [reflexivity|]);
      (split; [reflexivity|]); (split; [intros Habs; discriminate Habs|]);
      (split; [|intros Hv; try discriminate Hv; reflexivity]);
      intros _; (split; [reflexivity|]);
      (split; [|intros Hv; try discriminate Hv; reflexivity]);
      intros Hv; try discriminate Hv;
      now apply accepted_text_confidence.
Qed.

(** ** Scanning and OCR *)

Lemma first_data_stripped (decoded : list string) (data : string) :
  first_data decoded = Some data ->
  is_empty data = false /\ strip data = data
  /\ exists obj, In obj decoded /\ data = strip obj.
Proof.
  induction decoded as [|obj rest IH]; cbn [first_data]; [discriminate|].
  destruct (is_empty (strip obj)) eqn:Hobj; cbn [negb].
  - intros Hrest. destruct (IH Hrest) as (He & Hs & obj' & Hin & Hd).
    repeat split; try assumption. exists obj'. split; [now right|exact Hd].
  - intros [= <-]. split; [exact Hobj|]. split.
    + unfold strip. apply strip_idempotent.
    + exists obj. split; [now left|reflexivity].
Qed.

Lemma scan_variants_stripped (W : World) (variants : VariantStream)
    (data method : string) :
  scan_variants W variants = Returned (Some (data, method)) ->
  is_empty data = false /\ strip data = data.
Proof.
  induction variants as [| e | img_variant rest IH]; cbn [scan_variants];
    try discriminate.
  destruct (first_data (_decode_qr_from_array W img_variant)) as [d|] eqn:Hd.
  - intros [= <- <-]. apply first_data_stripped in Hd as (He & Hs & _).
    split; assumption.
  - exact IH.
Qed.

Lemma strip_empty : strip "" = "".
Proof. reflexivity. Qed.

Lemma ocr_result_cases (W : World) (image_path : string) :
  let ocr := _extract_text_with_ocr W image_path in
  (fst ocr = true ->
   TESSERACT_AVAILABLE W = true
   /\ is_empty (strip (snd ocr)) = false /\ is_empty (snd ocr) = false)
  /\ (fst ocr = false -> snd ocr = "")
  /\ (TESSERACT_AVAILABLE W = false -> ocr = (false, "")).
Proof.
  cbv zeta. unfold _extract_text_with_ocr.
  destruct (TESSERACT_AVAILABLE W); cbn [negb].
  - destruct (cv2_imread W image_path) as [[img|]|e]; cbn [fst snd];
      try (repeat split; intros; (discriminate || reflexivity)).
    destruct (image_to_string img) as [text|e]; cbn [fst snd];
      try (repeat split; intros; (discriminate || reflexivity)).
    destruct (is_empty (strip text)) eqn:Hblank; cbn [negb fst snd];
      try (repeat split; intros; (discriminate || reflexivity)).
    split; [|split; intros Habs; discriminate Habs].
    intros _. split; [reflexivity|]. split; [exact Hblank|].
    destruct text; [discriminate Hblank|reflexivity].
  - cbn [fst snd]. repeat split; intros; (discriminate || reflexivity).
Qed.

(** OCR reports success only with a text that is not blank, read from
    an image that decodes, and a failure always with the empty text;
    without Tesseract it fails. *)
Theorem ocr_success_means_text (W : World) (image_path : string) :
  let ocr := _extract_text_with_ocr W image_path in
  (fst ocr = true ->
   TESSERACT_AVAILABLE W = true
   /\ is_empty (strip (snd ocr)) = false /\ is_empty (snd ocr) = false
   /\ exists img,
        cv2_imread W image_path = Returned (Some img)
        /\ image_to_string img = Returned (snd ocr))
  /\ (fst ocr = false -> snd ocr = "")
  /\ (TESSERACT_AVAILABLE W = false -> ocr = (false, "")).
Proof.
  cbv zeta.
  destruct (ocr_result_cases W image_path) as (Hyes & Hno & Hwithout).
  split; [|split; assumption].
  intros Hok. destruct (Hyes Hok) as (Ht & Hs & He).
  split; [exact Ht|]. split; [exact Hs|]. split; [exact He|].
  revert Hok. unfold _extract_text_with_ocr. rewrite Ht. cbn [negb].
  destruct (cv2_imread W image_path) as [[img|]|e];
    try (intros Hf; discriminate Hf).
  destruct (image_to_string img) as [text|e] eqn:Hread;
    [|intros Hf; discriminate Hf].
  destruct (negb (is_empty (strip text))); [|intros Hf; discriminate Hf].
  intros _. exists img. split; [reflexivity|exact Hread].
Qed.

(** A successful scan never yields a blank payload.  The payload is either
    a decoded text, stripped of surrounding white space, or, when no
    variant of the image decodes, the whole text read by OCR, under the
    method [ocr-fallback]. *)
Theorem scan_payload_not_blank (W : World)
    (image_path payload method : string) :
  scan_outcome W image_path = Returned (true, payload, method) ->
  PYZBAR_AVAILABLE W = true
  /\ is_empty (strip payload) = false
  /\ ((scan_variants W (preprocess_variants W image_path)
       = Returned (Some (payload, method))
       /\ strip payload = payload)
      \/ (scan_variants W (preprocess_variants W image_path) = Returned None
          /\ _extract_text_with_ocr W image_path = (true, payload)
          /\ method = "ocr-fallback")).
Proof.
  unfold scan_outcome, run, scan_qr_code.
  destruct (PYZBAR_AVAILABLE W); cbn [negb]; [|discriminate].
  destruct (scan_variants W (preprocess_variants W image_path))
    as [[[data how]|]|e] eqn:Hvariants; cbn.
  - intros [= <- <-].
    apply scan_variants_stripped in Hvariants as (He & Hs).
    split; [reflexivity|]. split; [now rewrite Hs|].
    left. split; [reflexivity|exact Hs].
  - unfold bind, call, enter, ret.
    pose proof (ocr_result_cases W image_path) as (Hocr & _).
    destruct (_extract_text_with_ocr W image_path) as [ok text].
    destruct ok; cbn [andb].
    + destruct (is_empty text) eqn:Ht; cbn [negb fst]; [discriminate|].
      intros [= <- <-]. split; [reflexivity|].
      split; [now apply Hocr|].
      right. repeat split.
    + cbn. discriminate.
  - discriminate.
Qed.

(** When no variant of the image decodes and OCR reads a text that is not
    a registry URL, that text is taken as the payload and then compared
    with itself: OCR runs three times on the image, and both sides of the
    field comparison are parsed from the same text. *)
Theorem ocr_fallback_compares_permit_with_itself (L : PyLib) (W : World)
    (image_path : string) (user_business_name user_owner_name : option string)
    (text : string) :
  fst (check_image_quality L W image_path) = true ->
  PYZBAR_AVAILABLE W = true ->
  scan_variants W (preprocess_variants W image_path) = Returned None ->
  _extract_text_with_ocr W image_path = (true, text) ->
  is_dti_url L text = false ->
  exists r,
    run (verify_permit_image L W image_path
           user_business_name user_owner_name)
    = (Returned r,
       [QualityStage; ClassifierStage; QrScanStage;
        OcrStage; OcrStage; OcrStage])
    /\ qr_data r = Some text
    /\ (exists scan, qr_scan r = Some scan
          /\ qs_passed scan = true /\ qs_method scan = "ocr-fallback")
    /\ text_verification r
       = Some (Compared
                 (_compare_permit_fields L (FUZZYWUZZY_AVAILABLE W)
                    (_parse_qr_text text)
                    (_extract_permit_text_details text) 0.70)).
Proof.
  intros Hq Hpyzbar Hvariants Hocr Hurl.
  pose proof (ocr_result_cases W image_path) as (Htext & _).
  rewrite Hocr in Htext. cbn [fst snd] in Htext.
  destruct (Htext eq_refl) as (_ & _ & Hne).
  assert (run (scan_qr_code W image_path)
          = (Returned (true, text, "ocr-fallback"), [OcrStage])) as Hscan.
  { unfold run, scan_qr_code, bind, call, enter, ret.
    rewrite Hpyzbar, Hvariants, Hocr, Hne. reflexivity. }
  unfold verify_permit_image, run, bind, call, enter, ret.
  destruct (check_image_quality L W image_path) as [ok reason].
  cbn in Hq. subst ok. cbn [negb].
  rewrite scan_qr_code_log. unfold scan_outcome. rewrite Hscan.
  cbn [fst snd negb].
  unfold verify_qr_text, bind, call, enter, ret.
  rewrite Hurl, Hocr, Hne. cbn [andb negb].
  unfold text_qr_branch, bind, call, enter, ret.
  rewrite Hocr, Hne. cbn [andb negb].
  destruct (ml_available _ && ml_is_permit _).
  - destruct (0.65 <? _)%float.
    + destruct (negb (is_empty _));
        eexists; (split; [reflexivity|]);
        (split; [reflexivity|]); (split; [|reflexivity]);
        eexists; repeat split.
    + eexists. split; [reflexivity|].
      split; [reflexivity|]. split; [|reflexivity].
      eexists; repeat split.
  - destruct (0.7 <? _)%float;
      eexists; (split; [reflexivity|]);
      (split; [reflexivity|]); (split; [|reflexivity]);
      eexists; repeat split.
Qed.

(** ** The registry lookup *)

(** The registry confirms a URL exactly when the page comes back with
    status 200 and at least two of the eight markers.  The flag returned
    equals [dti_confirmed]; a confirmation implies that the registry was
    reachable, and it is reachable exactly when a response came back, whose
    status is then recorded.  Nothing is scraped from a page that does not
    confirm. *)
Theorem validate_with_dti_outcomes (L : PyLib) (W : World) (qr_url : string) :
  let ok := fst (validate_with_dti L W qr_url) in
  let details := snd (validate_with_dti L W qr_url) in
  ok = dd_dti_confirmed details
  /\ dd_url_checked details = qr_url
  /\ (ok = true <->
      exists page,
        requests_get W qr_url = Response 200 page
        /\ 2 <= count_markers (lower page))
  /\ (ok = true -> dd_reachable details = true)
  /\ (dd_reachable details = true <->
      exists status page,
        requests_get W qr_url = Response status page
        /\ dd_http_status details = Some status)
  /\ (ok = false ->
      dd_business_name details = None /\ dd_owner_name details = None
      /\ dd_registration_number details = None /\ dd_status details = None).
Proof.
  cbv zeta. unfold validate_with_dti.
  destruct (requests_get W qr_url) as [| | e | status page]; cbn [fst snd].
  1-3: repeat split; try discriminate; try reflexivity;
       first [ intros (? & Hget & ?); discriminate Hget
             | intros (? & ? & Hget & ?); discriminate Hget ].
  destruct (status =? 200) eqn:Hstatus; cbn [negb fst snd].
  - apply Z.eqb_eq in Hstatus. subst status.
    destruct (2 <=? count_markers (lower page)) eqn:Hmarkers;
      cbn [negb fst snd dd_dti_confirmed dd_url_checked dd_reachable
           dd_http_status dd_business_name dd_owner_name
           dd_registration_number dd_status].
    + apply Z.leb_le in Hmarkers.
      repeat split; try discriminate; eauto.
    + apply Z.leb_gt in Hmarkers.
      repeat split; try discriminate; eauto.
      intros (page' & [= <-] & Hle). lia.
  - apply Z.eqb_neq in Hstatus.
    repeat split; try discriminate; eauto.
    intros (page' & [= -> _] & _). exfalso. now apply Hstatus.
Qed.

Lemma startswith_app_l (p q s : string) :
  startswith (p ++ q) s = true -> startswith p s = true.
Proof.
  revert s. induction p as [|a p IH]; intros s; [now destruct s|].
  destruct s as [|b s]; cbn; [discriminate|].
  intros H. apply andb_true_iff in H as [-> H]. now apply IH.
Qed.

Lemma contains_app_l (p q s : string) :
  contains (p ++ q) s = true -> contains p s = true.
Proof.
  induction s as [|b s IH]; cbn [contains].
  - destruct p; [reflexivity|discriminate].
  - intros H. apply orb_true_iff in H as [H | H]; apply orb_true_iff.
    + left. now apply startswith_app_l in H.
    + right. now apply IH.
Qed.

Lemma startswith_contains (q s : string) :
  startswith q s = true -> contains q s = true.
Proof.
  destruct s as [|b s]; cbn [contains].
  - destruct q; [reflexivity|discriminate].
  - intros ->. reflexivity.
Qed.

Lemma startswith_app_r (p q s : string) :
  startswith (p ++ q) s = true -> contains q s = true.
Proof.
  revert s. induction p as [|a p IH]; intros s.
  - apply startswith_contains.
  - destruct s as [|b s]; cbn; [discriminate|].
    intros H. apply andb_true_iff in H as [_ H].
    rewrite (IH s H). apply orb_true_r.
Qed.

Lemma contains_app_r (p q s : string) :
  contains (p ++ q) s = true -> contains q s = true.
Proof.
  induction s as [|b s IH]; cbn [contains].
  - destruct p; [auto|discriminate].
  - intros H. apply orb_true_iff in H as [H | H].
    + apply startswith_app_r in H. exact H.
    + rewrite (IH H). apply orb_true_r.
Qed.

(** The markers overlap: a page with the one phrase "business name
    registration" already counts three of them, so that phrase alone, on a
    page returned with status 200, confirms a registration. *)
Theorem one_phrase_confirms_registration (L : PyLib) (W : World)
    (qr_url page : string) :
  requests_get W qr_url = Response 200 page ->
  contains "business name registration" (lower page) = true ->
  3 <= count_markers (lower page)
  /\ fst (validate_with_dti L W qr_url) = true
  /\ dd_dti_confirmed (snd (validate_with_dti L W qr_url)) = true.
Proof.
  intros Hget Hphrase.
  assert (3 <= count_markers (lower page)) as Hcount.
  { pose proof (contains_app_l "business name" " registration" _ Hphrase)
      as Hname.
    pose proof (contains_app_r "business name " "registration" _ Hphrase)
      as Hreg.
    cbn [String.append] in Hname, Hreg.
    unfold count_markers, dti_markers. cbn [List.filter].
    rewrite Hname, Hreg, Hphrase.
    destruct (contains "department of trade and industry" _),
      (contains "dti" _), (contains "bnrs" _), (contains "certificate" _),
      (contains "registered" _); cbn; lia. }
  split; [exact Hcount|].
  unfold validate_with_dti. rewrite Hget. cbn [Z.eqb Pos.eqb negb].
  destruct (2 <=? count_markers (lower page)) eqn:Hle.
  - split; reflexivity.
  - apply Z.leb_gt in Hle. lia.
Qed.

(** ** The two parsers *)

Lemma value_after_colon_stripped (line : string) :
  strip (value_after_colon line) = value_after_colon line.
Proof. unfold value_after_colon, strip. apply strip_idempotent. Qed.

Lemma parse_qr_line_parsed (qr_text : string) (fields : ParsedFields)
    (line : string) :
  qr_fields_parsed qr_text fields ->
  qr_fields_parsed qr_text (parse_qr_line fields line).
Proof.
  intros (H1 & H2 & H3 & H4 & H5 & H6).
  pose proof (value_after_colon_stripped (strip line)) as Hv.
  unfold parse_qr_line.
  repeat match goal with
         | |- qr_fields_parsed _ (if ?b then _ else _) => destruct b
         end;
    repeat split; assumption.
Qed.

Lemma extracted_longer_than_long (n : nat) (line extracted : string) :
  extracted_longer_than n line = Some extracted ->
  long_field n (Some extracted).
Proof.
  unfold extracted_longer_than.
  destruct (contains ":" line); [|discriminate].
  destruct (negb (is_empty (value_after_colon line))); [|discriminate].
  cbn [andb].
  destruct (n <? String.length (value_after_colon line))%nat eqn:Hlen;
    [|discriminate].
  intros [= <-]. split.
  - apply value_after_colon_stripped.
  - now apply Nat.ltb_lt.
Qed.

Lemma extract_permit_line_extracted (fields : ParsedFields) (line : string) :
  permit_fields_extracted fields ->
  permit_fields_extracted (extract_permit_line fields line).
Proof.
  intros (H1 & H2 & H3 & H4 & H5 & H6).
  unfold extract_permit_line. cbv zeta.
  destruct (extracted_longer_than 2 (strip line)) as [e2|] eqn:Hlong2;
    destruct (extracted_longer_than 4 (strip line)) as [e4|] eqn:Hlong4;
    try apply extracted_longer_than_long in Hlong2;
    try apply extracted_longer_than_long in Hlong4;
    repeat match goal with
           | |- permit_fields_extracted (if ?b then _ else _) => destruct b
           end;
    unfold permit_fields_extracted;
    cbn [pf_business_name pf_business_owner pf_validity_date
         pf_business_number pf_scope pf_raw_text];
    tauto.
Qed.

Lemma fold_left_invariant {A B : Type} (P : A -> Prop) (f : A -> B -> A)
    (items : list B) (start : A) :
  (forall a b, P a -> P (f a b)) -> P start -> P (fold_left f items start).
Proof.
  intros Hstep. revert start.
  induction items as [|b items IH]; intros start Hstart; [exact Hstart|].
  cbn [fold_left]. apply IH, Hstep, Hstart.
Qed.

(** Whatever the text, every field that [_parse_qr_text] finds is stripped
    of surrounding white space and [raw_text] is the text itself; every
    field that [_extract_permit_text_details] finds is stripped and longer
    than two characters, four for the validity date, so that it is never
    the empty text. *)
Theorem parsed_fields_are_stripped (text : string) :
  qr_fields_parsed text (_parse_qr_text text)
  /\ permit_fields_extracted (_extract_permit_text_details text)
  /\ (forall field,
        In field [pf_business_name; pf_business_owner; pf_validity_date;
                  pf_business_number; pf_scope] ->
        truthy (field (_extract_permit_text_details text)) = true
        <-> field (_extract_permit_text_details text) <> None).
Proof.
  assert (permit_fields_extracted (_extract_permit_text_details text))
    as Hpermit.
  { unfold _extract_permit_text_details.
    apply fold_left_invariant.
    - intros a b. apply extract_permit_line_extracted.
    - repeat split. }
  split; [|split; [exact Hpermit|]].
  - unfold _parse_qr_text.
    apply fold_left_invariant.
    + intros a b. apply parse_qr_line_parsed.
    + repeat split.
  - destruct Hpermit as (H1 & H2 & H3 & H4 & H5 & _).
    assert (forall n o, long_field n o -> truthy o = true <-> o <> None)
      as Hlong.
    { intros n [v|] Ho; cbn.
      - destruct Ho as [_ Hlen]. destruct v; cbn in Hlen; [lia|].
        split; [discriminate|reflexivity].
      - split; [discriminate|congruence]. }
    intros field Hin. cbn [In] in Hin.
    destruct Hin as [<- | [<- | [<- | [<- | [<- | []]]]]]; eapply Hlong;
      eassumption.
Qed.

Lemma startswith_prefix (p s : string) :
  startswith p s = true -> exists rest, s = p ++ rest.
Proof.
  revert s. induction p as [|a p IH]; intros s; [now exists s|].
  destruct s as [|b s]; cbn; [discriminate|].
  intros H. apply andb_true_iff in H as [Hab H].
  apply Ascii.eqb_eq in Hab. subst b.
  destruct (IH s H) as [rest ->]. now exists rest.
Qed.

(** A line "Business Name: ..." that mentions "No." anywhere, as in the
    name "Store No. 5", is skipped by the QR parser; the OCR parser takes
    its value as the business number instead, unless the line also names an
    owner or a validity. *)
Theorem name_line_with_number_mark (fields : ParsedFields) (line : string) :
  let line_upper := upper (strip line) in
  contains "NO." line_upper = true ->
  (startswith "BUSINESS NAME:" line_upper = true ->
   parse_qr_line fields line = fields)
  /\ (contains "BUSINESS NAME" line_upper = true ->
      pf_business_name (extract_permit_line fields line)
      = pf_business_name fields
      /\ (contains "OWNER" line_upper = false ->
          contains "PROPRIETOR" line_upper = false ->
          contains "VALID" line_upper = false ->
          contains "EXPIRES" line_upper = false ->
          forall extracted,
            extracted_longer_than 2 (strip line) = Some extracted ->
            pf_business_number (extract_permit_line fields line)
            = Some extracted)).
Proof.
  cbv zeta. intros Hno. split.
  - intros Hname. unfold parse_qr_line.
    destruct (is_empty (strip line)); [reflexivity|].
    rewrite Hname, Hno. cbn [negb andb].
    apply startswith_prefix in Hname as [rest ->].
    reflexivity.
  - intros Hname. unfold extract_permit_line. cbv zeta.
    destruct (strip line) as [|c rest] eqn:Hline; [discriminate Hname|].
    cbn [is_empty]. rewrite Hname, Hno. cbn [negb andb]. split.
    + repeat match goal with
             | |- context [if ?b then _ else _] => destruct b
             | |- context [match ?o with Some _ => _ | None => _ end] =>
                 destruct o
             end; reflexivity.
    + intros Ho Hp Hv He extracted Hex.
      rewrite Ho, Hp, Hv, He.
      assert (contains "VALIDITY" (upper (String c rest)) = false) as Hvy.
      { destruct (contains "VALIDITY" (upper (String c rest))) eqn:Hc;
          [|reflexivity].
        apply (contains_app_l "VALID" "ITY") in Hc. congruence. }
      rewrite Hvy. cbn [orb].
      rewrite (contains_app_l "BUSINESS" " NAME" _ Hname).
      rewrite (contains_app_l "NO" "." _ Hno).
      cbn [andb orb]. rewrite Hex. reflexivity.
Qed.

(** ** Reading back the documented QR format *)

Lemma append_cons (c : ascii) (a b : string) :
  String c a ++ b = String c (a ++ b).
Proof. reflexivity. Qed.

Lemma append_nil (b : string) : EmptyString ++ b = b.
Proof. reflexivity. Qed.

Lemma lstrip_same_length (p : ascii -> bool) (s : string) :
  String.length (lstrip_if p s) = String.length s -> lstrip_if p s = s.
Proof.
  destruct s as [|c s]; [reflexivity|]. cbn [lstrip_if].
  destruct (p c); [|reflexivity].
  pose proof (lstrip_length p s). cbn [String.length]. lia.
Qed.

Lemma stripped_both_sides (v : string) :
  strip v = v -> lstrip_if isspace v = v /\ rstrip_if isspace v = v.
Proof.
  unfold strip, strip_if. intros Hv.
  assert (lstrip_if isspace v = v) as Hl.
  { apply lstrip_same_length.
    pose proof (lstrip_length isspace v).
    pose proof (rstrip_length isspace (lstrip_if isspace v)).
    rewrite Hv in *. lia. }
  split; [exact Hl|]. now rewrite Hl in Hv.
Qed.

Lemma rstrip_after_label (p : ascii -> bool) (label v : string) :
  is_empty v = false -> rstrip_if p v = v ->
  rstrip_if p (label ++ v) = label ++ v.
Proof.
  intros Hne Hv. induction label as [|c label IH]; [exact Hv|].
  rewrite append_cons. cbn [rstrip_if]. rewrite IH.
  destruct label; rewrite ?append_cons, ?append_nil; cbn [is_empty];
    [rewrite Hne|]; reflexivity.
Qed.

Lemma split_char_line (a rest : string) :
  one_line a = true ->
  split_char newline (a ++ String newline rest)
  = a :: split_char newline rest.
Proof.
  induction a as [|c a IH]; intros Ha.
  - reflexivity.
  - cbn [one_line] in Ha. apply andb_true_iff in Ha as [Hc Ha].
    rewrite append_cons. cbn [split_char].
    destruct (Ascii.eqb c newline); [discriminate Hc|].
    now rewrite (IH Ha).
Qed.

Lemma split_char_last (a : string) :
  one_line a = true -> split_char newline a = [a].
Proof.
  induction a as [|c a IH]; intros Ha; [reflexivity|].
  cbn [one_line] in Ha. apply andb_true_iff in Ha as [Hc Ha].
  cbn [split_char].
  destruct (Ascii.eqb c newline); [discriminate Hc|].
  now rewrite (IH Ha).
Qed.

Lemma split_join_lines (lines : list string) :
  lines <> [] -> forallb one_line lines = true ->
  split_char newline (join_lines lines) = lines.
Proof.
  induction lines as [|line rest IH]; [congruence|]. intros _ Hall.
  cbn [forallb] in Hall. apply andb_true_iff in Hall as [Hline Hrest].
  destruct rest as [|next rest].
  - now apply split_char_last.
  - change (join_lines (line :: next :: rest))
      with (line ++ String newline (join_lines (next :: rest))).
    rewrite (split_char_line _ _ Hline), IH; [reflexivity|congruence|exact Hrest].
Qed.

Lemma one_line_app (a b : string) :
  one_line (a ++ b) = one_line a && one_line b.
Proof.
  induction a as [|c a IH]; [reflexivity|].
  rewrite append_cons. cbn [one_line]. now rewrite IH, andb_assoc.
Qed.

Lemma upper_app (a b : string) : upper (a ++ b) = upper a ++ upper b.
Proof.
  unfold upper. induction a as [|c a IH]; [reflexivity|].
  rewrite !append_cons. cbn [str_map]. now rewrite IH.
Qed.

(** What is read after the colon of a written line. *)
Lemma value_after_label (label v : string) :
  written_value v ->
  after_first ":" label = Some " " ->
  lstrip_if isspace label = label ->
  strip (label ++ v) = label ++ v
  /\ value_after_colon (label ++ v) = v.
Proof.
  intros (Hne & Hstrip & _) Hcolon Hhead.
  destruct (stripped_both_sides v Hstrip) as [Hl Hr].
  split.
  - unfold strip, strip_if.
    destruct label as [|c label]; [discriminate Hcolon|].
    assert (isspace c = false) as Hc.
    { cbn [lstrip_if] in Hhead.
      destruct (isspace c) eqn:Hs; [|reflexivity].
      pose proof (lstrip_length isspace label) as Hlen.
      rewrite Hhead in Hlen. cbn [String.length] in Hlen. lia. }
    rewrite append_cons. cbn [lstrip_if]. rewrite Hc.
    rewrite <- append_cons.
    now apply rstrip_after_label.
  - unfold value_after_colon.
    assert (after_first ":" (label ++ v) = Some (" " ++ v)) as ->.
    { clear Hhead. induction label as [|c label IH]; [discriminate Hcolon|].
      rewrite append_cons. cbn [after_first] in *.
      destruct (Ascii.eqb c ":").
      - injection Hcolon as ->. reflexivity.
      - now apply IH. }
    cbn [the_str]. unfold strip, strip_if.
    rewrite append_cons, append_nil. cbn [lstrip_if].
    replace (isspace " ") with true by reflexivity.
    now rewrite Hl.
Qed.

Lemma written_line (label v : string) :
  written_value v -> one_line label = true -> one_line (label ++ v) = true.
Proof.
  intros (_ & _ & Hv) Hl. now rewrite one_line_app, Hl, Hv.
Qed.

Lemma upper_label (label v : string) :
  upper label = label -> upper (label ++ v) = label ++ upper v.
Proof. intros Hl. now rewrite upper_app, Hl. Qed.

Ltac read_label Hv :=
  unfold parse_qr_line;
  match goal with
  | |- context [strip (?label ++ ?v)] =>
      destruct (value_after_label label v Hv eq_refl eq_refl) as [Hs Hval];
      rewrite Hs, Hval, (upper_label label v eq_refl);
      rewrite !append_cons, !append_nil
  end;
  cbn [is_empty startswith contains Ascii.eqb Bool.eqb andb orb negb].

Lemma read_name_line (fields : ParsedFields) (v : string) :
  written_value v -> contains "NO." (upper v) = false ->
  parse_qr_line fields ("BUSINESS NAME: " ++ v)
  = {| pf_business_name := Some v;
       pf_business_owner := pf_business_owner fields;
       pf_validity_date := pf_validity_date fields;
       pf_business_number := pf_business_number fields;
       pf_scope := pf_scope fields;
       pf_raw_text := pf_raw_text fields |}.
Proof. intros Hv Hno. read_label Hv. rewrite Hno. reflexivity. Qed.

Lemma read_scope_line (fields : ParsedFields) (v : string) :
  written_value v ->
  parse_qr_line fields ("SCOPE: " ++ v)
  = {| pf_business_name := pf_business_name fields;
       pf_business_owner := pf_business_owner fields;
       pf_validity_date := pf_validity_date fields;
       pf_business_number := pf_business_number fields;
       pf_scope := Some v;
       pf_raw_text := pf_raw_text fields |}.
Proof. intros Hv. read_label Hv. reflexivity. Qed.

Lemma read_owner_line (fields : ParsedFields) (v : string) :
  written_value v ->
  parse_qr_line fields ("BUSINESS OWNER: " ++ v)
  = {| pf_business_name := pf_business_name fields;
       pf_business_owner := Some v;
       pf_validity_date := pf_validity_date fields;
       pf_business_number := pf_business_number fields;
       pf_scope := pf_scope fields;
       pf_raw_text := pf_raw_text fields |}.
Proof. intros Hv. read_label Hv. reflexivity. Qed.

Lemma read_date_line (fields : ParsedFields) (v : string) :
  written_value v ->
  parse_qr_line fields ("VALIDITY DATE: " ++ v)
  = {| pf_business_name := pf_business_name fields;
       pf_business_owner := pf_business_owner fields;
       pf_validity_date := Some v;
       pf_business_number := pf_business_number fields;
       pf_scope := pf_scope fields;
       pf_raw_text := pf_raw_text fields |}.
Proof. intros Hv. read_label Hv. reflexivity. Qed.

Lemma read_number_line (fields : ParsedFields) (v : string) :
  written_value v ->
  parse_qr_line fields ("BUSINESS NAME NO.: " ++ v)
  = {| pf_business_name := pf_business_name fields;
       pf_business_owner := pf_business_owner fields;
       pf_validity_date := pf_validity_date fields;
       pf_business_number := Some v;
       pf_scope := pf_scope fields;
       pf_raw_text := pf_raw_text fields |}.
Proof. intros Hv. read_label Hv. reflexivity. Qed.

(** A text in the documented format is read back field by field: the
    parser recovers the five values, provided each is written on one line
    without surrounding white space, and the name does not mention
    "NO.". *)
Theorem parse_qr_text_reads_documented_format
    (name scope owner date number : string) :
  written_value name -> written_value scope -> written_value owner ->
  written_value date -> written_value number ->
  contains "NO." (upper name) = false ->
  _parse_qr_text (qr_text_of name scope owner date number)
  = {| pf_business_name := Some name;
       pf_business_owner := Some owner;
       pf_validity_date := Some date;
       pf_business_number := Some number;
       pf_scope := Some scope;
       pf_raw_text := Some (qr_text_of name scope owner date number) |}.
Proof.
  intros Hname Hscope Howner Hdate Hnumber Hno.
  unfold _parse_qr_text.
  assert (split_char newline (qr_text_of name scope owner date number)
          = ["BUSINESS NAME: " ++ name;
             "SCOPE: " ++ scope;
             "BUSINESS OWNER: " ++ owner;
             "VALIDITY DATE: " ++ date;
             "BUSINESS NAME NO.: " ++ number]) as ->.
  { unfold qr_text_of. apply split_join_lines; [discriminate|].
    cbn [forallb].
    rewrite !written_line by (assumption || reflexivity). reflexivity. }
  cbn [fold_left].
  rewrite (read_name_line _ name Hname Hno).
  rewrite (read_scope_line _ scope Hscope).
  rewrite (read_owner_line _ owner Howner).
  rewrite (read_date_line _ date Hdate).
  rewrite (read_number_line _ number Hnumber).
  reflexivity.
Qed.
(** ** Names *)




Lemma is_empty_app (a b : string) :
  is_empty (a ++ b) = is_empty a && is_empty b.
Proof. destruct a; reflexivity. Qed.

Lemma is_empty_app_r (a b : string) :
  is_empty b = false -> is_empty (a ++ b) = false.
Proof. intros Hb. now rewrite is_empty_app, Hb, andb_false_r. Qed.

Lemma is_empty_app_l (a b : string) :
  is_empty a = false -> is_empty (a ++ b) = false.
Proof. intros Ha. now rewrite is_empty_app, Ha. Qed.

Lemma check_business_name_details (L : PyLib)
    (user_business_name dti_business_name : option string)
    (st : CrossCheckState) :
  let st' := check_business_name L user_business_name dti_business_name st in
  (comparable_pair user_business_name dti_business_name = true ->
   is_empty (nc_details (result st')) = false)
  /\ (is_empty (nc_details (result st)) = false ->
      is_empty (nc_details (result st')) = false).
Proof.
  cbv zeta. unfold check_business_name, comparable_pair.
  destruct (truthy user_business_name), (truthy dti_business_name);
    cbn [andb negb result nc_details nc_add_details];
    (split; [intros Hc; try discriminate Hc|intros Hst; try exact Hst]);
    try (apply is_empty_app_l; exact Hst);
    apply is_empty_app_r; destruct (_ <=? _)%float; reflexivity.
Qed.

Lemma check_owner_name_details (L : PyLib)
    (user_owner_name dti_owner_name : option string)
    (st : CrossCheckState) :
  let st' := check_owner_name L user_owner_name dti_owner_name st in
  (comparable_pair user_owner_name dti_owner_name = true ->
   is_empty (nc_details (result st')) = false)
  /\ (is_empty (nc_details (result st)) = false ->
      is_empty (nc_details (result st')) = false).
Proof.
  cbv zeta. unfold check_owner_name, comparable_pair.
  destruct (truthy user_owner_name), (truthy dti_owner_name);
    cbn [andb negb result nc_details nc_add_details];
    (split; [intros Hc; try discriminate Hc|intros Hst; try exact Hst]);
    try (apply is_empty_app_l; exact Hst);
    apply is_empty_app_r; destruct (_ <=? _)%float; reflexivity.
Qed.

Lemma cross_check_details_not_empty (L : PyLib)
    (user_business_name user_owner_name dti_business_name dti_owner_name
     : option string) :
  is_empty
    (nc_details
       (cross_check_names L user_business_name user_owner_name
          dti_business_name dti_owner_name)) = false.
Proof.
  unfold cross_check_names, overall_score.
  rewrite checks_done_comparable.
  destruct (check_business_name_details L user_business_name
              dti_business_name cross_check_init) as [Hb _].
  destruct (check_owner_name_details L user_owner_name dti_owner_name
              (check_business_name L user_business_name dti_business_name
                 cross_check_init)) as [Ho Hkeep].
  destruct (comparable_pair user_business_name dti_business_name);
    destruct (comparable_pair user_owner_name dti_owner_name);
    cbn [Z_of_bool Z.add Z.ltb Z.compare Pos.add nc_details];
    try (apply Ho; reflexivity);
    try (apply Hkeep, Hb; reflexivity).
  apply is_empty_app_r. reflexivity.
Qed.

Lemma check_business_name_flags (L : PyLib)
    (user_business_name dti_business_name : option string)
    (st : CrossCheckState) :
  let st' := check_business_name L user_business_name dti_business_name st in
  nc_business_name_match (result st')
  = (if comparable_pair user_business_name dti_business_name
     then Some (NAME_MATCH_THRESHOLD
                <=? _name_similarity L user_business_name
                      dti_business_name)%float
     else nc_business_name_match (result st))
  /\ nc_owner_name_match (result st') = nc_owner_name_match (result st).
Proof.
  cbv zeta. unfold check_business_name, comparable_pair.
  destruct (truthy user_business_name), (truthy dti_business_name);
    split; reflexivity.
Qed.

Lemma check_owner_name_flags (L : PyLib)
    (user_owner_name dti_owner_name : option string)
    (st : CrossCheckState) :
  let st' := check_owner_name L user_owner_name dti_owner_name st in
  nc_owner_name_match (result st')
  = (if comparable_pair user_owner_name dti_owner_name
     then Some (NAME_MATCH_THRESHOLD
                <=? _name_similarity L user_owner_name dti_owner_name)%float
     else nc_owner_name_match (result st))
  /\ nc_business_name_match (result st')
     = nc_business_name_match (result st).
Proof.
  cbv zeta. unfold check_owner_name, comparable_pair.
  destruct (truthy user_owner_name), (truthy dti_owner_name);
    split; reflexivity.
Qed.

(** The cross-check always explains itself: its details are never empty,
    a flag is left undecided exactly when one of the two names of its pair
    is missing, and as soon as one pair is compared the overall verdict is
    the threshold applied to the score. *)
Theorem cross_check_names_explains (L : PyLib)
    (user_business_name user_owner_name dti_business_name dti_owner_name
     : option string) :
  let name_check :=
    cross_check_names L user_business_name user_owner_name
      dti_business_name dti_owner_name in
  is_empty (nc_details name_check) = false
  /\ (nc_business_name_match name_check = None <->
      comparable_pair user_business_name dti_business_name = false)
  /\ (nc_owner_name_match name_check = None <->
      comparable_pair user_owner_name dti_owner_name = false)
  /\ (comparable_pair user_business_name dti_business_name = true
      \/ comparable_pair user_owner_name dti_owner_name = true ->
      nc_overall_match name_check
      = (NAME_MATCH_THRESHOLD <=? nc_score name_check)%float).
Proof.
  cbv zeta. split; [apply cross_check_details_not_empty|].
  unfold cross_check_names.
  destruct (check_business_name_flags L user_business_name dti_business_name
              cross_check_init) as [Hb Hb'].
  destruct (check_owner_name_flags L user_owner_name dti_owner_name
              (check_business_name L user_business_name dti_business_name
                 cross_check_init)) as [Ho Hkeep].
  pose proof (checks_done_comparable L user_business_name user_owner_name
                dti_business_name dti_owner_name) as Hdone.
  set (st := check_owner_name L user_owner_name dti_owner_name
               (check_business_name L user_business_name dti_business_name
                  cross_check_init)) in *.
  assert (nc_business_name_match (overall_score L st)
          = nc_business_name_match (result st)
          /\ nc_owner_name_match (overall_score L st)
             = nc_owner_name_match (result st)) as [-> ->].
  { unfold overall_score. destruct (0 <? checks_done st); split; reflexivity. }
  rewrite Hkeep, Hb, Ho, Hb'.
  split; [|split].
  - destruct (comparable_pair user_business_name dti_business_name);
      split; (discriminate || reflexivity).
  - destruct (comparable_pair user_owner_name dti_owner_name);
      split; (discriminate || reflexivity).
  - intros Hsome. unfold overall_score. rewrite Hdone.
    destruct (comparable_pair user_business_name dti_business_name),
      (comparable_pair user_owner_name dti_owner_name);
      try reflexivity.
    destruct Hsome as [H | H]; discriminate H.
Qed.

Lemma registry_accept_reports (results : VerificationResult)
    (ml_result : MlResult) (dti_details : DtiDetails)
    (name_check : NameCheck) (base_confidence : float) :
  is_empty (nc_details name_check) = false ->
  let r := registry_accept results ml_result dti_details name_check
             base_confidence in
  pv_name_check_details (permit_validation r)
  = Some (nc_details name_check)
  /\ business_info r
     = option_map (copy_registry_fields dti_details) (business_info results).
Proof.
  intros Hne. cbv zeta. unfold registry_accept. rewrite Hne. cbn [negb].
  cbn [business_info assign].
  destruct (business_info results) eqn:Hinfo; (split; [reflexivity|]);
    cbn [business_info assign option_map]; [reflexivity|exact Hinfo].
Qed.

(** An acceptance on a confirmed registration always reports the names:
    the details of the cross-check are attached to the verdict, and the
    business information is the one read from the URL, completed with the
    names and the number scraped from the registry page. *)
Theorem confirmed_acceptance_reports_names (L : PyLib) (W : World)
    (image_path : string) (user_business_name user_owner_name : option string)
    (payload method : string) (details : DtiDetails) :
  fst (check_image_quality L W image_path) = true ->
  scan_outcome W image_path = Returned (true, payload, method) ->
  is_dti_url L payload = true ->
  validate_with_dti L W payload = (true, details) ->
  let name_check :=
    cross_check_names L user_business_name user_owner_name
      (dd_business_name details) (dd_owner_name details) in
  nc_overall_match name_check = true
  \/ (nc_score name_check <? 0.4)%float = false ->
  exists r log,
    run (verify_permit_image L W image_path
           user_business_name user_owner_name) = (Returned r, log)
    /\ valid r = true
    /\ name_verification r = Some name_check
    /\ pv_name_check_details (permit_validation r)
       = Some (nc_details name_check)
    /\ business_info r
       = Some (copy_registry_fields details
                 (extract_business_info_from_url L payload)).
Proof.
  intros Hq Hscan Hurl Hdti name_check Hok.
  pose proof (cross_check_details_not_empty L user_business_name
                user_owner_name (dd_business_name details)
                (dd_owner_name details)) as Hne.
  fold name_check in Hne.
  enter_registry_branch Hq Hscan Hurl; rewrite Hdti;
    fold name_check;
    (destruct (nc_overall_match name_check);
     [|destruct Hok as [Hok | Hok]; [discriminate|rewrite Hok]]);
    cbn [andb]; eexists _, _; (split; [reflexivity|]);
    match goal with
    | |- context [registry_accept ?rs ?ml ?d ?nc ?b] =>
        destruct (registry_accept_frame rs ml d nc b)
          as (_ & Hv & _ & Hn & _);
        destruct (registry_accept_reports rs ml d nc b Hne) as (Hd & Hb)
    end;
    (split; [exact Hv|]); (split; [rewrite Hn; reflexivity|]);
    (split; [exact Hd|]); rewrite Hb; reflexivity.
Qed.

(** ** The classifier *)

(** The classifier's answer is either the unavailable one (no model, no
    extractor, no features, or any exception on the way), or an available
    one whose label says what [is_permit] says and whose confidence is
    rounded to four digits; a model without probabilities gets 0.85 for a
    permit and 0.15 otherwise.  It never claims a permit while
    unavailable. *)
Theorem predict_permit_ml_answers (L : PyLib) (W : World)
    (image_path : string) :
  let ml := predict_permit_ml L W image_path in
  (ml_available ml = false -> ml = ml_unavailable)
  /\ (ml_is_permit ml = true -> ml_available ml = true)
  /\ (ml_available ml = true ->
      ml_label ml = (if ml_is_permit ml then "authentic" else "non_permit")
      /\ exists confidence, ml_confidence ml = py_round L confidence 4
         /\ forall model, ml_model W = Some model ->
              predict_proba model = None ->
              confidence = (if ml_is_permit ml then 0.85 else 0.15)%float)
  /\ (ml_model W = None \/ ml_extractor W = None \/
      (exists extract, ml_extractor W = Some extract
                       /\ extract image_path = None) ->
      ml = ml_unavailable).
Proof.
  cbv zeta. unfold predict_permit_ml.
  destruct (ml_model W) as [model|]; [|repeat split; intros; discriminate].
  destruct (ml_extractor W) as [extract|];
    [|repeat split; intros; discriminate].
  destruct (extract image_path) as [features|] eqn:Hextract;
    [|repeat split; intros; discriminate].
  destruct (features_to_vector features) as [vec|e];
    [|split; [reflexivity|]; split; [discriminate|];
      split; [discriminate|]; intros [H | [H | (ex & [= <-] & H)]];
      congruence].
  destruct (predict model vec) as [prediction|e];
    [|split; [reflexivity|]; split; [discriminate|];
      split; [discriminate|]; intros [H | [H | (ex & [= <-] & H)]];
      congruence].
  destruct (predict_proba model) as [proba_of|] eqn:Hproba.
  - destruct (proba_of vec) as [proba|e];
      [|split; [reflexivity|]; split; [discriminate|];
        split; [discriminate|]; intros [H | [H | (ex & [= <-] & H)]];
        congruence].
    destruct (py_max proba) as [confidence|e];
      [|split; [reflexivity|]; split; [discriminate|];
        split; [discriminate|]; intros [H | [H | (ex & [= <-] & H)]];
        congruence].
    cbn [ml_available ml_is_permit ml_label ml_confidence].
    split; [discriminate|]. split; [reflexivity|]. split.
    + intros _. split; [reflexivity|]. exists confidence.
      split; [reflexivity|]. intros model' [= <-] Hnone. congruence.
    + intros [H | [H | (ex & [= <-] & H)]]; congruence.
  - cbn [ml_available ml_is_permit ml_label ml_confidence].
    split; [discriminate|]. split; [reflexivity|]. split.
    + intros _. split; [reflexivity|]. eexists.
      split; [reflexivity|]. intros _ _ _. reflexivity.
    + intros [H | [H | (ex & [= <-] & H)]]; congruence.
Qed.

(** * Further properties of the callers *)

(** ** Upload names *)

Lemma after_last_none (s : string) :
  contains "." s = false -> after_last "." s = None.
Proof.
  induction s as [|c s IH]; [reflexivity|].
  cbn [contains startswith after_last].
  intros H. apply orb_false_iff in H as [Hc Hs].
  rewrite (IH Hs). rewrite andb_true_r in Hc.
  rewrite Ascii.eqb_sym, Hc. reflexivity.
Qed.

Lemma after_last_extension (stem ext : string) :
  contains "." ext = false ->
  after_last "." (stem ++ "." ++ ext) = Some ext.
Proof.
  intros Hext. induction stem as [|c stem IH].
  - rewrite append_nil, append_cons, append_nil. cbn [after_last].
    now rewrite (after_last_none ext Hext).
  - rewrite append_cons. cbn [after_last]. now rewrite IH.
Qed.

Lemma contains_dot (stem ext : string) :
  contains "." (stem ++ "." ++ ext) = true.
Proof.
  induction stem as [|c stem IH].
  - reflexivity.
  - rewrite append_cons. cbn [contains]. rewrite IH. apply orb_true_r.
Qed.

(** Only what follows the last dot of a file name counts, whatever its
    letter case: a name is allowed exactly when that extension, in lower
    case, is one of the five; a name without dot never is. *)
Theorem allowed_file_last_extension (stem ext : string) :
  contains "." ext = false ->
  allowed_file (stem ++ "." ++ ext) = str_in (lower ext) ALLOWED_EXTENSIONS
  /\ allowed_file ext = false.
Proof.
  intros Hext. unfold allowed_file. split.
  - now rewrite contains_dot, after_last_extension.
  - now rewrite Hext.
Qed.

(** ** The training set *)

Lemma extract_dataset_from_rows
    (extract_all_features : string -> option (gmap string pynum))
    (image_paths : list string) (label : Z)
    (X : list (list float)) (y : list Z) (used_paths : list string) :
  (forall image_path features k v,
     In image_path image_paths ->
     extract_all_features image_path = Some features ->
     features !! k = Some v -> numeric v) ->
  let kept :=
    List.filter (fun p => bool_decide (extract_all_features p <> None))
      image_paths in
  extract_dataset_from extract_all_features image_paths label X y used_paths
  = Returned
      ((X ++ List.map
                (fun p =>
                   List.map
                     (feature_value
                        (default ∅ (extract_all_features p)))
                     FEATURE_NAMES) kept)%list,
       (y ++ repeat label (List.length kept))%list,
       (used_paths ++ kept)%list).
Proof.
  revert X y used_paths.
  induction image_paths as [|p rest IH]; intros X y used_paths Hnum.
  - cbn. now rewrite !app_nil_r.
  - cbn [extract_dataset_from List.filter].
    assert (forall image_path features k v,
              In image_path rest ->
              extract_all_features image_path = Some features ->
              features !! k = Some v -> numeric v) as Hrest.
    { intros q f k v Hin. apply Hnum. now right. }
    destruct (extract_all_features p) as [features|] eqn:Hp.
    + assert (features_to_vector features
              = Returned (List.map (feature_value features) FEATURE_NAMES))
        as ->.
      { unfold features_to_vector. apply comprehension_total.
        intros k _. apply py_float_numeric.
        intros k' v Hk. apply (Hnum p features k' v); [now left|exact Hp|
                                                         exact Hk]. }
      rewrite (IH _ _ _ Hrest).
      rewrite bool_decide_true by congruence.
      cbn [List.map List.length repeat]. rewrite Hp. cbn [default].
      rewrite <- !app_assoc. reflexivity.
    + rewrite (IH _ _ _ Hrest).
      rewrite bool_decide_false by (intros H; now apply H).
      reflexivity.
Qed.

(** When every extracted value is a number, [extract_dataset] returns one
    row of 27 features, one label and one path for each image whose
    features could be extracted, in the order of the input; the images
    without features are skipped. *)
Theorem extract_dataset_rows
    (extract_all_features : string -> option (gmap string pynum))
    (image_paths : list string) (label : Z) :
  (forall image_path features k v,
     In image_path image_paths ->
     extract_all_features image_path = Some features ->
     features !! k = Some v -> numeric v) ->
  exists X y used_paths,
    extract_dataset extract_all_features image_paths label
    = Returned (X, y, used_paths)
    /\ used_paths
       = List.filter (fun p => bool_decide (extract_all_features p <> None))
           image_paths
    /\ y = repeat label (List.length used_paths)
    /\ List.length X = List.length used_paths
    /\ Forall (fun row => List.length row = 27%nat) X
    /\ (forall i p features,
          used_paths !! i = Some p ->
          extract_all_features p = Some features ->
          X !! i = Some (List.map (feature_value features) FEATURE_NAMES)).
Proof.
  intros Hnum. unfold extract_dataset.
  rewrite (extract_dataset_from_rows _ _ _ [] [] [] Hnum).
  cbn [List.app].
  eexists _, _, _. split; [reflexivity|].
  split; [reflexivity|]. split; [reflexivity|].
  split; [now rewrite length_map|]. split.
  - apply Stdlib.Lists.List.Forall_forall. intros row Hrow.
    apply in_map_iff in Hrow as (p & <- & _).
    now rewrite length_map.
  - intros i p features Hi Hp.
    change (List.map ?f ?l) with (f <$> l) at 1.
    rewrite list_lookup_fmap, Hi. cbn. now rewrite Hp.
Qed.

(** ** The audit trail *)

(** What a returned result tells about the stages. *)
Lemma result_stage_facts (L : PyLib) (W : World)
    (image_path : string) (user_business_name user_owner_name : option string)
    (r : VerificationResult) (log : list Stage) :
  run (verify_permit_image L W image_path
         user_business_name user_owner_name) = (Returned r, log) ->
  (fst (check_image_quality L W image_path) = false ->
   qr_scan r = None /\ valid r = false)
  /\ (fst (check_image_quality L W image_path) = true ->
      qr_scan r <> None /\ ml_prediction r <> None)
  /\ (dti_url_valid r = false -> dti_validation r = None)
  /\ (dti_url_valid r = true -> dti_validation r <> None).
Proof.
  open_pipeline L W image_path; intros Hrun; cbn [fst].
  1, 3: apply registry_branch_frame in Hrun
          as ((_ & Hml & Hqs & _ & _ & Hdu & _) & _ & Hdv & _).
  3, 4: apply text_qr_branch_frame in Hrun
          as ((_ & Hml & Hqs & _ & _ & Hdu & _) & _ & Hdv & _).
  1-4: rewrite Hml, Hqs, Hdu, Hdv; cbn [qr_scan ml_prediction dti_url_valid
                                         dti_validation assign results_init];
       rewrite ?Hdti;
       (split; [intros Hf; discriminate Hf|]);
       (split; [intros _; split; discriminate|]);
       split; intros Hf; (discriminate || reflexivity).
  - injection Hrun as <- _.
    match goal with
    | |- context [ml_only_fallback L ?rs ?ml ?msg] =>
        destruct (ml_only_fallback_frame L rs ml msg)
          as ((_ & Hml & Hqs & _ & _ & Hdu & _) & _ & Hdv & _)
    end.
    rewrite Hml, Hqs, Hdu, Hdv.
    split; [intros Hf; discriminate Hf|].
    split; [intros _; split; discriminate|].
    split; intros Hf; (discriminate || reflexivity).
  - discriminate.
  - injection Hrun as <- _.
    split; [intros _; split; reflexivity|].
    split; [intros Hf; discriminate Hf|].
    split; intros Hf; (discriminate || reflexivity).
Qed.

(** Once the JSON file is written, [save_verification_record] returns its
    path.  The result of an image that failed the quality gate is never
    saved to the document store, since it has no scan to read; any other
    result is saved, as verified or rejected after its validity, when the
    store is there and the user has an e-mail address. *)
Theorem audit_trail_skips_quality_rejections (L : PyLib) (W : World)
    (S : Storage) (image_path : string)
    (user_business_name user_owner_name : option string)
    (r : VerificationResult) (log : list Stage)
    (user_id output_folder : string) (db : bool) (user_obj : option User)
    (permit_business_name permit_owner_name image_filename saved_path
     : option string) :
  run (verify_permit_image L W image_path
         user_business_name user_owner_name) = (Returned r, log) ->
  let record_path :=
    path_join S output_folder
      (user_id ++ "_" ++ now_strftime S ++ ".json") in
  write_json S output_folder record_path r = Returned tt ->
  exists saved,
    save_verification_record S user_id r output_folder db user_obj
      permit_business_name permit_owner_name image_filename saved_path
    = Returned (record_path, saved)
    /\ (fst (check_image_quality L W image_path) = false -> saved = None)
    /\ (fst (check_image_quality L W image_path) = true ->
        db = true ->
        import_PermitVerification S = Returned tt ->
        (exists user, user_obj = Some user /\ truthy (u_email user) = true) ->
        (forall record, record_save S record = Returned tt) ->
        exists record scan,
          saved = Some record
          /\ ar_status record
             = (if valid r then "verified" else "rejected")
          /\ ar_valid record = valid r
          /\ qr_scan r = Some scan
          /\ ar_qr_valid record = qs_passed scan).
Proof.
  intros Hrun record_path Hwrite.
  destruct (result_stage_facts L W image_path user_business_name
              user_owner_name r log Hrun) as (Hbad & Hgood & _).
  unfold save_verification_record. fold record_path. rewrite Hwrite.
  destruct (fst (check_image_quality L W image_path)).
  - destruct (Hgood eq_refl) as [Hscan _].
    destruct (qr_scan r) as [scan|] eqn:Hqs; [|congruence].
    destruct db.
    + destruct (import_PermitVerification S) as [[]|e] eqn:Himport.
      * destruct (truthy match user_obj with
                         | Some user => u_email user
                         | None => None
                         end) eqn:Hemail.
        -- unfold audit_record. rewrite Hqs.
           match goal with
           | |- context [record_save S ?rec] =>
               destruct (record_save S rec) as [[]|e] eqn:Hsave
           end.
           ++ eexists. split; [reflexivity|]. split; [discriminate|].
              intros _ _ _ _ _. eexists _, scan. repeat split.
           ++ eexists. split; [reflexivity|]. split; [discriminate|].
              intros _ _ _ _ Hall. rewrite Hall in Hsave. discriminate Hsave.
        -- eexists. split; [reflexivity|]. split; [discriminate|].
           intros _ _ _ (user & -> & Hu) _. congruence.
      * eexists. split; [reflexivity|]. split; [discriminate|].
        intros _ _ Habs. discriminate Habs.
    + eexists. split; [reflexivity|]. split; [discriminate|].
      intros _ Habs. discriminate Habs.
  - destruct (Hbad eq_refl) as [Hscan _].
    unfold audit_record. rewrite Hscan.
    destruct db; [|eexists; split; [reflexivity|];
                   split; [reflexivity|intros Habs; discriminate Habs]].
    destruct (import_PermitVerification S) as [[]|e];
      [|eexists; split; [reflexivity|];
        split; [reflexivity|intros Habs; discriminate Habs]].
    destruct (truthy _);
      eexists; (split; [reflexivity|]);
      (split; [reflexivity|intros Habs; discriminate Habs]).
Qed.

(** ** The verification route *)

Lemma accept_answers (L : PyLib) (db : Db) (user : User)
    (ml_result : VerificationResult) (answer : Answer)
    (effects : list Effect) :
  accept L db user ml_result = (Returned answer, effects) ->
  dti_validation ml_result <> None
  /\ effects = [UserSaved user]
  /\ snd answer = 200
  /\ exists message percentage,
       fst answer
       = verified_body message (confidence ml_result) percentage
           (u_id user) (u_role user) (u_email user).
Proof.
  unfold accept.
  destruct (dti_validation ml_result) as [details|]; [|discriminate].
  destruct (ml_prediction ml_result) as [ml_pred|]; [|discriminate].
  destruct (user_save db user) as [[]|e]; [|discriminate].
  destruct (confidence_percentage_of ml_result) as [percentage|e];
    [|discriminate].
  intros [= <- <-]. split; [discriminate|]. split; [reflexivity|].
  split; [reflexivity|]. eexists _, _. reflexivity.
Qed.

Lemma accept_without_registry (L : PyLib) (db : Db) (user : User)
    (ml_result : VerificationResult) :
  dti_validation ml_result = None ->
  accept L db user ml_result = (Raised NONE_HAS_NO_GET, []).
Proof. unfold accept. now intros ->. Qed.

Lemma reject_answers (db : Db) (user : User)
    (ml_result : VerificationResult) (answer : Answer)
    (effects : list Effect) :
  reject db user ml_result = (Returned answer, effects) ->
  snd answer = 400.
Proof.
  unfold reject.
  destruct (user_save db _) as [[]|e]; [|discriminate].
  destruct (confidence_percentage_of ml_result) as [percentage|e];
    [|discriminate].
  now intros [= <- <-].
Qed.

(** An upload that fails one of the three checks (a file with a name, an
    allowed extension, at most 5 MB) is answered with status 400 and nothing
    else happens: no file is stored, no user looked up, no permit
    verified. *)
Theorem refused_upload_touches_nothing (L : PyLib) (A : App)
    (request : Request) :
  (forall permit_file,
     files_business_permit_photo request = Some permit_file ->
     truthy (fs_filename permit_file) = false
     \/ allowed_file (the_str (fs_filename permit_file)) = false
     \/ MAX_FILE_SIZE < fs_size permit_file) ->
  exists message,
    farmer_verify L A request = (Returned (error_body message, 400), []).
Proof.
  intros Hbad. unfold farmer_verify.
  destruct (files_business_permit_photo request) as [permit_file|];
    [|eexists; reflexivity].
  destruct (Hbad permit_file eq_refl) as [Hname | [Hext | Hsize]].
  - rewrite Hname. eexists; reflexivity.
  - destruct (truthy (fs_filename permit_file)); cbn [negb];
      [|eexists; reflexivity].
    rewrite Hext. eexists; reflexivity.
  - destruct (truthy (fs_filename permit_file)); cbn [negb];
      [|eexists; reflexivity].
    destruct (allowed_file _); cbn [negb]; [|eexists; reflexivity].
    apply Z.ltb_lt in Hsize. rewrite Hsize. eexists; reflexivity.
Qed.

(** The state of the user when the verifier is consulted. *)
Lemma verification_attempt_reaches_verifier (L : PyLib) (A : App)
    (request : Request) (permit_unique permit_path : string)
    (db : Db) (user : User) (W : World) :
  get_mongodb_db A = Some db ->
  get_by_email db (request_user_email request) = Returned (Some user) ->
  VERIFIER A = Some W ->
  exists user',
    verification_attempt L A request permit_unique permit_path
    = verify_and_decide L A W db user'
        (form_get request "permit_business_name")
        (owner_name_given request user) permit_unique permit_path
    /\ py_or (Some (form_get request "permit_business_name"))
             (u_farm_name user')
       = business_name_given request user.
Proof.
  intros Hdb Huser Hverifier.
  unfold verification_attempt. rewrite Hdb, Huser, Hverifier. cbv zeta.
  unfold business_name_given. fold (is_farmer user).
  destruct (is_farmer user); cbn [negb];
    match goal with
    | |- exists user', verify_and_decide _ _ _ _ ?u _ ?o _ _ = _ /\ _ =>
        exists u; split;
        [replace o with (owner_name_given request user) by reflexivity;
         reflexivity|reflexivity]
    end.
Qed.

Lemma save_returns_when_written (S : Storage) (user_id : string)
    (verification_result : VerificationResult) (output_folder : string)
    (db : bool) (user_obj : option User)
    (permit_business_name permit_owner_name image_filename image_path
     : option string) :
  let record_path :=
    path_join S output_folder
      (user_id ++ "_" ++ now_strftime S ++ ".json") in
  match write_json S output_folder record_path verification_result with
  | Returned _ =>
      exists saved,
        save_verification_record S user_id verification_result output_folder
          db user_obj permit_business_name permit_owner_name image_filename
          image_path = Returned (record_path, saved)
  | Raised e =>
      save_verification_record S user_id verification_result output_folder
        db user_obj permit_business_name permit_owner_name image_filename
        image_path = Raised e
  end.
Proof.
  cbv zeta. unfold save_verification_record.
  destruct (write_json S output_folder _ verification_result) as [[]|e];
    [|reflexivity].
  destruct db; [|eexists; reflexivity].
  destruct (import_PermitVerification S) as [[]|e]; [|eexists; reflexivity].
  destruct (truthy _); [|eexists; reflexivity].
  destruct (audit_record _ _ _ _ _ _ _ _) as [record|e];
    [|eexists; reflexivity].
  destruct (record_save S record) as [[]|e]; eexists; reflexivity.
Qed.

(** What the branch of the verifier does with a result that is valid
    without registry details. *)
Lemma verify_and_decide_without_registry (L : PyLib) (A : App) (W : World)
    (db : Db) (user : User)
    (permit_business_name permit_owner_name permit_unique permit_path
     : string) (r : VerificationResult) (log : list Stage) :
  let user_business_name :=
    py_or (Some permit_business_name) (u_farm_name user) in
  run (verify_permit_image L W permit_path user_business_name
         (Some permit_owner_name)) = (Returned r, log) ->
  valid r = true ->
  dti_validation r = None ->
  exists e effects,
    verify_and_decide L A W db user permit_business_name permit_owner_name
      permit_unique permit_path = (Raised e, effects)
    /\ existsb is_user_saved effects = false
    /\ In (PermitVerified permit_path user_business_name
             (Some permit_owner_name)) effects
    /\ ((forall folder record_path,
           write_json (storage A) folder record_path r = Returned tt) ->
        e = NONE_HAS_NO_GET).
Proof.
  intros user_business_name Hrun Hvalid Hnone.
  unfold verify_and_decide. fold user_business_name. rewrite Hrun.
  cbn [fst].
  match goal with
  | |- context [save_verification_record ?S ?uid ?res ?folder ?d ?u ?b ?o
                  ?f ?p] =>
      pose proof (save_returns_when_written S uid res folder d u b o f p)
        as Hsave;
      cbv zeta in Hsave;
      destruct (write_json S folder
                  (path_join S folder (uid ++ "_" ++ now_strftime S
                                       ++ ".json")) res)
        as [[]|e] eqn:Hwrite
  end.
  - destruct Hsave as [saved ->]. rewrite Hvalid.
    rewrite accept_without_registry by exact Hnone.
    eexists _, _. split; [reflexivity|]. split; [reflexivity|].
    split; [now left|]. intros _. reflexivity.
  - rewrite Hsave.
    eexists _, _. split; [reflexivity|]. split; [reflexivity|].
    split; [now left|]. intros Hall.
    rewrite Hall in Hwrite. discriminate Hwrite.
Qed.

(** A permit that the pipeline accepts without consulting the registry,
    on a payload that is not a registry URL, is not accepted by the
    route: reading the registry details of the result raises, the route
    answers with status 500 and the user is never saved, neither as a
    farmer nor otherwise. *)
Theorem text_acceptance_is_answered_500 (L : PyLib) (A : App)
    (request : Request) (permit_file : FileStorage) (db : Db) (user : User)
    (W : World) (r : VerificationResult) (log : list Stage) :
  upload_accepted request permit_file ->
  file_save A (permit_path_of A permit_file) = Returned tt ->
  get_mongodb_db A = Some db ->
  get_by_email db (request_user_email request) = Returned (Some user) ->
  VERIFIER A = Some W ->
  run (verify_permit_image L W (permit_path_of A permit_file)
         (business_name_given request user)
         (Some (owner_name_given request user))) = (Returned r, log) ->
  valid r = true ->
  dti_url_valid r = false ->
  exists message effects,
    farmer_verify L A request
    = (Returned (error_body ("Verification failed: " ++ message), 500),
       effects)
    /\ existsb is_user_saved effects = false
    /\ In (PermitVerified (permit_path_of A permit_file)
             (business_name_given request user)
             (Some (owner_name_given request user))) effects
    /\ ((forall folder record_path,
           write_json (storage A) folder record_path r = Returned tt) ->
        message = NONE_HAS_NO_GET).
Proof.
  intros (Hfile & Hname & Hext & Hsize) Hsave Hdb Huser Hverifier Hrun
    Hvalid Hurl.
  destruct (result_stage_facts L W _ _ _ r log Hrun) as (_ & _ & Hnone & _).
  specialize (Hnone Hurl).
  destruct (verification_attempt_reaches_verifier L A request
              (permit_unique_of A permit_file) (permit_path_of A permit_file)
              db user W Hdb Huser Hverifier) as (user' & Hattempt & Hnames).
  rewrite <- Hnames in Hrun.
  destruct (verify_and_decide_without_registry L A W db user'
              (form_get request "permit_business_name")
              (owner_name_given request user)
              (permit_unique_of A permit_file) (permit_path_of A permit_file)
              r log Hrun Hvalid Hnone)
    as (e & effects & Hdecide & Hnot & Hin & Hmessage).
  rewrite Hnames in Hin.
  unfold farmer_verify. rewrite Hfile, Hname, Hext. cbn [negb].
  assert ((MAX_FILE_SIZE <? fs_size permit_file) = false) as ->
    by (apply Z.ltb_ge; exact Hsize).
  fold (permit_unique_of A permit_file).
  fold (permit_path_of A permit_file).
  rewrite Hsave, Hattempt, Hdecide.
  exists e, (FileSaved (permit_path_of A permit_file) :: effects).
  split; [reflexivity|]. split; [exact Hnot|].
  split; [now right|exact Hmessage].
Qed.

Lemma verify_and_decide_verified (L : PyLib) (A : App) (W : World)
    (db : Db) (user : User)
    (permit_business_name permit_owner_name permit_unique permit_path
     : string) (body : Body) (effects : list Effect) :
  verify_and_decide L A W db user permit_business_name permit_owner_name
    permit_unique permit_path = (Returned (body, 200), effects) ->
  let user_business_name :=
    py_or (Some permit_business_name) (u_farm_name user) in
  exists r log record_path saved user' message percentage,
    run (verify_permit_image L W permit_path user_business_name
           (Some permit_owner_name)) = (Returned r, log)
    /\ valid r = true
    /\ dti_validation r <> None
    /\ effects
       = [PermitVerified permit_path user_business_name
            (Some permit_owner_name);
          RecordWritten record_path saved;
          UserSaved user']
    /\ u_role user' = Some "farmer"
    /\ u_business_verification_status user' = Some "verified"
    /\ u_business_verification_ml user' = Some r
    /\ u_email user' = u_email user
    /\ u_id user' = u_id user
    /\ body
       = verified_body message (confidence r) percentage
           (u_id user) (Some "farmer") (u_email user).
Proof.
  unfold verify_and_decide. cbv zeta.
  destruct (run (verify_permit_image L W permit_path _ _))
    as [[r|e] log] eqn:Hrun; cbn [fst]; [|discriminate].
  destruct (save_verification_record _ _ _ _ _ _ _ _ _ _)
    as [[record_path saved]|e]; [|discriminate].
  destruct (valid r) eqn:Hvalid.
  - destruct (business_info r), (ml_prediction r) eqn:Hml,
      (name_verification r) eqn:Hnv;
      match goal with
      | |- context [accept L db ?u ?res] =>
          destruct (accept L db u res) as [[answer|e] effs] eqn:Haccept;
          [apply accept_answers in Haccept
             as (Hreg & -> & Hstatus & message & percentage & Hbody)
          |discriminate]
      end;
      intros [= -> <-]; cbn [fst snd] in Hbody;
      exists r, log, record_path, saved; eexists; exists message, percentage;
      (split; [reflexivity|]); (split; [exact Hvalid|]);
      (split; [exact Hreg|]);
      (split; [reflexivity|]); (split; [reflexivity|]);
      (split; [reflexivity|]); (split; [reflexivity|]);
      (split; [reflexivity|]); (split; [reflexivity|]); exact Hbody.
  - match goal with
    | |- context [reject db ?u r] =>
        destruct (reject db u r) as [[answer|e] effs] eqn:Hreject;
        [apply reject_answers in Hreject|]
    end.
    + intros [= -> _]. discriminate Hreject.
    + discriminate.
Qed.

(** The route answers with status 200 only after the pipeline accepted the
    permit on a registry URL: the user saved last is then a farmer whose
    verification status is verified and who carries the result.  No answer
    other than this one makes a farmer. *)
Theorem verified_answer_needs_registry (L : PyLib) (A : App)
    (request : Request) (body : Body) (effects : list Effect) :
  farmer_verify L A request = (Returned (body, 200), effects) ->
  exists W permit_path user_business_name user_owner_name r log user
         message percentage,
    VERIFIER A = Some W
    /\ In (PermitVerified permit_path user_business_name user_owner_name)
          effects
    /\ run (verify_permit_image L W permit_path user_business_name
              user_owner_name) = (Returned r, log)
    /\ valid r = true
    /\ dti_url_valid r = true
    /\ last effects = Some (UserSaved user)
    /\ u_role user = Some "farmer"
    /\ u_business_verification_status user = Some "verified"
    /\ u_business_verification_ml user = Some r
    /\ body
       = verified_body message (confidence r) percentage
           (u_id user) (Some "farmer") (u_email user).
Proof.
  unfold farmer_verify.
  destruct (files_business_permit_photo request) as [permit_file|];
    [|discriminate].
  destruct (truthy (fs_filename permit_file)); cbn [negb]; [|discriminate].
  destruct (allowed_file _); cbn [negb]; [|discriminate].
  destruct (MAX_FILE_SIZE <? fs_size permit_file); [discriminate|].
  destruct (file_save A _) as [[]|e]; [|discriminate].
  destruct (verification_attempt L A request _ _)
    as [[answer|e] effs] eqn:Hattempt; [|discriminate].
  intros [= -> <-].
  unfold verification_attempt in Hattempt.
  destruct (get_mongodb_db A) as [db|]; [|discriminate].
  destruct (get_by_email db _) as [[user|]|e]; [|discriminate|discriminate].
  cbv zeta in Hattempt.
  destruct (VERIFIER A) as [W|].
  - apply verify_and_decide_verified in Hattempt
      as (r & log & record_path & saved & user' & message & percentage
          & Hrun & Hvalid & Hreg & -> & Hrole & Hstatus & Hml & Hemail
          & Hid & ->).
    destruct (result_stage_facts L W _ _ _ r log Hrun) as (_ & _ & Hno & _).
    eexists W, _, _, _, r, log, user', message, percentage.
    split; [reflexivity|]. split; [right; now left|].
    split; [exact Hrun|]. split; [exact Hvalid|]. split.
    { destruct (dti_url_valid r); [reflexivity|]. now destruct Hreg; auto. }
    split; [reflexivity|]. split; [exact Hrole|]. split; [exact Hstatus|].
    split; [exact Hml|]. now rewrite Hid, Hemail.
  - destruct (user_save db _) as [[]|e]; discriminate.
Qed.
(** * Closed examples

    Each statement below instantiates one of the theorems on the sample
    library and a sample world, or evaluates the model where a sentence of
    the specification does not hold. *)

(** An undecodable file stops the pipeline at the quality gate. *)
Lemma quality_gate_short_circuits_witness :
  exists r log,
    run (verify_permit_image Sample.lib
           (Sample.world None (Sample.qr_with Sample.registry_url)
              Sample.registry_page None)
           "permit.jpg" (Some "Juan Farm") None) = (Returned r, log)
    /\ valid r = false
    /\ pv_passed (permit_validation r) = false
    /\ pv_message (permit_validation r) = "Invalid image file"
    /\ log = [QualityStage]
    /\ (forall stage, In stage log -> stage = QualityStage).
Proof.
  apply (quality_gate_short_circuits Sample.lib
           (Sample.world None (Sample.qr_with Sample.registry_url)
              Sample.registry_page None)
           "permit.jpg" (Some "Juan Farm") None).
  reflexivity.
Defined.

(** Scenario D: no QR code, the classifier predicts a permit at 0.9. *)
Lemma ml_only_fallback_policy_witness :
  exists r log,
    run (verify_permit_image Sample.lib
           (Sample.world (Some Sample.good_image) Sample.no_qr
              Sample.registry_page
              (Some (Sample.classifier 1 [0.1; 0.9]%float)))
           "permit.jpg" (Some "Juan Farm") None) = (Returned r, log)
    /\ valid r = false
    /\ pv_pending_manual_review (permit_validation r) = Some true
    /\ confidence r = 0.63%float.
Proof.
  destruct (ml_only_fallback_policy Sample.lib
              (Sample.world (Some Sample.good_image) Sample.no_qr
                 Sample.registry_page
                 (Some (Sample.classifier 1 [0.1; 0.9]%float)))
              "permit.jpg" (Some "Juan Farm") None NO_QR_MESSAGE ""
              eq_refl eq_refl)
    as (r & log & Hrun & Hpending & _ & _).
  exists r, log. split; [exact Hrun|].
  destruct (Hpending eq_refl eq_refl eq_refl) as (Hv & Hp & Hc).
  repeat split; [exact Hv|exact Hp|].
  rewrite Hc. reflexivity.
Defined.

(** Scenario B: the registry confirms "Pedro Store", the applicant claims
    "Juan Farm". *)
Lemma registry_name_mismatch_rejects_witness :
  exists r log,
    run (verify_permit_image Sample.lib
           (Sample.world (Some Sample.good_image)
              (Sample.qr_with Sample.registry_url)
              Sample.registry_page None)
           "permit.jpg" (Some "Juan Farm") None) = (Returned r, log)
    /\ valid r = false
    /\ confidence r = 0.70%float
    /\ confidence r = (0.90 - 0.20)%float
    /\ pv_passed (permit_validation r) = false
    /\ pv_name_mismatch (permit_validation r) = Some true.
Proof.
  apply (registry_name_mismatch_rejects Sample.lib
           (Sample.world (Some Sample.good_image)
              (Sample.qr_with Sample.registry_url)
              Sample.registry_page None)
           "permit.jpg" (Some "Juan Farm") None
           Sample.registry_url "original"
           (snd (validate_with_dti Sample.lib
                   (Sample.world (Some Sample.good_image)
                      (Sample.qr_with Sample.registry_url)
                      Sample.registry_page None)
                   Sample.registry_url))).
  - reflexivity.
  - reflexivity.
  - vm_compute. reflexivity.
  - vm_compute. reflexivity.
  - vm_compute. reflexivity.
  - left. vm_compute. discriminate.
Defined.

(** The applicant gives a business name only, the registry an owner name
    only: nothing can be compared. *)
Lemma cross_check_names_benefit_of_doubt_witness :
  nc_score (cross_check_names Sample.lib
              (Some "Juan Farm") None None (Some "Juan Dela Cruz"))
  = 0.5%float
  /\ nc_overall_match (cross_check_names Sample.lib
                         (Some "Juan Farm") None None (Some "Juan Dela Cruz"))
     = true.
Proof.
  apply (cross_check_names_benefit_of_doubt Sample.lib
           (Some "Juan Farm") None None (Some "Juan Dela Cruz"));
    reflexivity.
Defined.

(** "Juan's Farm, Inc." normalizes to "juans inc", which stays as it is. *)
Lemma normalize_name_idempotent_witness :
  _normalize_name (Some "Juan's Farm, Inc.") = "juans inc"
  /\ _normalize_name (Some (_normalize_name (Some "Juan's Farm, Inc.")))
     = _normalize_name (Some "Juan's Farm, Inc.").
Proof.
  split; [reflexivity|].
  apply (normalize_name_idempotent_iff_suffix_free "Juan's Farm, Inc.").
  reflexivity.
Defined.

(** C5 as stated fails: "far-m" normalizes to "farm", and "farm"
    normalizes to the empty text. *)
Lemma normalize_name_not_idempotent :
  _normalize_name (Some "far-m") = "farm"
  /\ _normalize_name (Some (_normalize_name (Some "far-m"))) = ""
  /\ _normalize_name (Some (_normalize_name (Some "far-m")))
     <> _normalize_name (Some "far-m").
Proof. repeat split. vm_compute. discriminate. Qed.

(** "Juan Cruz Farm" against itself and against "Juan". *)
Lemma name_similarity_reflexive_symmetric_witness :
  _name_similarity Sample.lib (Some "Juan Cruz Farm") (Some "Juan Cruz Farm")
  = 1.0%float
  /\ _name_similarity Sample.lib (Some "Juan Cruz Farm") (Some "Juan")
     = _name_similarity Sample.lib (Some "Juan") (Some "Juan Cruz Farm").
Proof.
  destruct (name_similarity_reflexive_symmetric Sample.lib)
    as (Hrefl & _ & Hsym & _).
  split.
  - apply (Hrefl "Juan Cruz Farm"). vm_compute. discriminate.
  - apply (Hsym (Some "Juan Cruz Farm") (Some "Juan")). reflexivity.
Defined.

(** C6 as stated fails: the name "Farm" is not empty, yet its similarity
    with itself is 0.0; and the similarity of "tide" and "diet" is 0.25 in
    one order and 0.5 in the other. *)
Lemma name_similarity_not_reflexive_nor_symmetric :
  "Farm" <> ""
  /\ _name_similarity Sample.lib (Some "Farm") (Some "Farm") = 0.0%float
  /\ _name_similarity Sample.lib (Some "Farm") (Some "Farm") <> 1.0%float
  /\ _name_similarity Sample.lib (Some "tide") (Some "diet") = 0.25%float
  /\ _name_similarity Sample.lib (Some "diet") (Some "tide") = 0.5%float
  /\ _name_similarity Sample.lib (Some "tide") (Some "diet")
     <> _name_similarity Sample.lib (Some "diet") (Some "tide").
Proof.
  split; [discriminate|].
  split; [vm_compute; reflexivity|].
  split.
  { intros H. apply (f_equal (fun x => (x <? 0.5)%float)) in H.
    vm_compute in H. discriminate. }
  split; [vm_compute; reflexivity|].
  split; [vm_compute; reflexivity|].
  intros H. apply (f_equal (fun x => (x <? 0.3)%float)) in H.
  vm_compute in H. discriminate.
Qed.

(** C7 as stated fails: a scope present and identical on both sides is a
    comparable field, yet nothing is checked, the scope flag stays false
    and the confidence is 0.0. *)
Lemma scope_is_not_compared :
  comparable pf_scope (scope_only "NATIONAL") (scope_only "NATIONAL") = true
  /\ comparable_fields_all (scope_only "NATIONAL") (scope_only "NATIONAL")
     = 1
  /\ checked (compare_blocks Sample.lib
                (scope_only "NATIONAL") (scope_only "NATIONAL") 0.70) = 0
  /\ checked (compare_blocks Sample.lib
                (scope_only "NATIONAL") (scope_only "NATIONAL") 0.70)
     <> comparable_fields_all (scope_only "NATIONAL") (scope_only "NATIONAL")
  /\ fc_scope_match (_compare_permit_fields Sample.lib true
                       (scope_only "NATIONAL") (scope_only "NATIONAL") 0.70)
     = false
  /\ fc_confidence (_compare_permit_fields Sample.lib true
                      (scope_only "NATIONAL") (scope_only "NATIONAL") 0.70)
     = 0.0%float.
Proof. repeat split. vm_compute. discriminate. Qed.

(** A sharp, well-lit 800x600 image passes the quality gate. *)
Lemma check_image_quality_rules_witness :
  check_image_quality Sample.lib
    (Sample.world (Some Sample.good_image) Sample.no_qr
       Sample.registry_page None) "permit.jpg"
  = (true, "Image quality OK").
Proof.
  destruct (check_image_quality_rules Sample.lib
              (Sample.world (Some Sample.good_image) Sample.no_qr
                 Sample.registry_page None) "permit.jpg")
    as (_ & Hrules & _).
  destruct (Hrules Sample.good_image eq_refl) as (_ & Hsized).
  destruct (Hsized 150.5%float ltac:(vm_compute; discriminate)
              ltac:(vm_compute; discriminate) eq_refl) as (_ & Hsharp).
  destruct (Hsharp 128.25%float eq_refl eq_refl) as (_ & Hpass & _).
  apply Hpass; reflexivity.
Defined.

(** A dictionary with an int and a float gives 27 entries. *)
Lemma features_to_vector_fixed_order_witness :
  exists vec : list float,
    features_to_vector
      (<["width" := PyInt 800]> (<["lbp_std" := PyFloat 1.5]> ∅))
    = Returned vec
    /\ List.length vec = 27%nat
    /\ vec !! 4%nat = Some 800%float
    /\ vec !! 24%nat = Some 1.5%float
    /\ vec !! 0%nat = Some 0.0%float.
Proof.
  destruct (features_to_vector_fixed_order
              (<["width" := PyInt 800]> (<["lbp_std" := PyFloat 1.5]> ∅)))
    as (vec & Hvec & Hlen & Hentry & _).
  - intros k v Hk.
    apply lookup_insert_Some in Hk as [[_ <-] | [_ Hk]]; [reflexivity|].
    apply lookup_insert_Some in Hk as [[_ <-] | [_ Hk]]; [exact I|].
    rewrite lookup_empty in Hk. discriminate.
  - exists vec. split; [exact Hvec|]. split; [exact Hlen|].
    split; [|split].
    + rewrite (Hentry 4%nat "width" eq_refl). reflexivity.
    + rewrite (Hentry 24%nat "lbp_std" eq_refl). reflexivity.
    + rewrite (Hentry 0%nat "blur_score" eq_refl). reflexivity.
Defined.

(** Scenario A: the registry confirms "Pedro Store" and the applicant
    claims "Pedro's Store"; the result is valid and the validation
    passed. *)
Lemma valid_iff_validation_passed_witness :
  exists r log,
    run (verify_permit_image Sample.lib
           (Sample.world (Some Sample.good_image)
              (Sample.qr_with Sample.registry_url)
              Sample.registry_page
              (Some (Sample.classifier 1 [0.1; 0.9]%float)))
           "permit.jpg" (Some "Pedro's Store") None) = (Returned r, log)
    /\ valid r = true
    /\ (valid r = true <-> pv_passed (permit_validation r) = true).
Proof.
  eexists _, _. split; [vm_compute; reflexivity|].
  split; [reflexivity|].
  eapply (valid_iff_validation_passed Sample.lib
           (Sample.world (Some Sample.good_image)
              (Sample.qr_with Sample.registry_url)
              Sample.registry_page
              (Some (Sample.classifier 1 [0.1; 0.9]%float)))
           "permit.jpg" (Some "Pedro's Store") None).
  vm_compute. reflexivity.
Defined.

(** ** Closed examples of the further properties *)

(** Scenario A is valid, and its result carries the URL of the QR code. *)
Lemma accepted_only_with_payload_witness :
  fst (check_image_quality Sample.lib Cases.confirming "permit.jpg") = true
  /\ exists payload method,
       scan_outcome Cases.confirming "permit.jpg"
       = Returned (true, payload, method)
       /\ payload = Sample.registry_url.
Proof.
  edestruct (accepted_only_with_payload Sample.lib Cases.confirming
               "permit.jpg" (Some "Pedro's Store") None)
    as (Hq & payload & method & Hscan & Hdata & _).
  - vm_compute. reflexivity.
  - reflexivity.
  - split; [exact Hq|]. exists payload, method. split; [exact Hscan|].
    vm_compute in Hdata. now injection Hdata as <-.
Defined.

(** Scenario A logs five stages, the last one being the registry. *)
Lemma registry_fetched_only_for_registry_url_witness :
  is_dti_url Sample.lib Sample.registry_url = true
  /\ exists method,
       scan_outcome Cases.confirming "permit.jpg"
       = Returned (true, Sample.registry_url, method).
Proof.
  edestruct (registry_fetched_only_for_registry_url Sample.lib
               Cases.confirming "permit.jpg" (Some "Pedro's Store") None)
    as (_ & _ & _ & Hurl).
  - vm_compute. reflexivity.
  - apply (Hurl Sample.registry_url). vm_compute. tauto.
Defined.

(** The registry times out and the classifier predicts a permit at 0.9:
    accepted at 0.75. *)
Lemma registry_unconfirmed_policy_witness :
  exists r log,
    run (verify_permit_image Sample.lib Cases.unreachable "permit.jpg"
           (Some "Pedro's Store") None) = (Returned r, log)
    /\ valid r = true
    /\ confidence r = 0.75%float.
Proof.
  destruct (registry_unconfirmed_policy Sample.lib Cases.unreachable
              "permit.jpg" (Some "Pedro's Store") None
              Sample.registry_url "original"
              (snd (validate_with_dti Sample.lib Cases.unreachable
                      Sample.registry_url))
              eq_refl eq_refl)
    as (r & log & Hrun & Haccept & _).
  - vm_compute. reflexivity.
  - vm_compute. reflexivity.
  - exists r, log. split; [exact Hrun|].
    destruct Haccept as (Hv & Hc & _);
      [reflexivity|vm_compute; reflexivity|].
    split; assumption.
Defined.

(** Scenario A: accepted, at a confidence of at most 0.99. *)
Lemma registry_confirmed_accepts_witness :
  exists r log,
    run (verify_permit_image Sample.lib Cases.confirming "permit.jpg"
           (Some "Pedro's Store") None) = (Returned r, log)
    /\ valid r = true
    /\ (confidence r <=? 0.99)%float = true.
Proof.
  destruct (registry_confirmed_accepts Sample.lib Cases.confirming
              "permit.jpg" (Some "Pedro's Store") None
              Sample.registry_url "original"
              (snd (validate_with_dti Sample.lib Cases.confirming
                      Sample.registry_url))
              eq_refl eq_refl)
    as (r & log & Hrun & Hv & _ & Hc & _).
  - vm_compute. reflexivity.
  - vm_compute. reflexivity.
  - left. vm_compute. reflexivity.
  - exists r, log. repeat split; assumption.
Defined.

(** Scenario A without any name given. *)
Lemma no_names_no_mismatch_witness :
  exists r log,
    run (verify_permit_image Sample.lib Cases.confirming "permit.jpg"
           None None) = (Returned r, log)
    /\ valid r = true
    /\ pv_name_mismatch (permit_validation r) = None.
Proof.
  destruct (no_names_no_mismatch Sample.lib Cases.confirming
              "permit.jpg" None None Sample.registry_url "original"
              (snd (validate_with_dti Sample.lib Cases.confirming
                      Sample.registry_url))
              eq_refl eq_refl eq_refl eq_refl)
    as (r & log & Hrun & Hv & Hn & _).
  - vm_compute. reflexivity.
  - vm_compute. reflexivity.
  - exists r, log. repeat split; assumption.
Defined.

(** Without pyzbar even scenario A is rejected. *)
Lemma no_pyzbar_no_acceptance_witness :
  exists r log,
    run (verify_permit_image Sample.lib Cases.without_pyzbar "permit.jpg"
           (Some "Pedro's Store") None) = (Returned r, log)
    /\ valid r = false
    /\ qr_data r = None.
Proof.
  destruct (no_pyzbar_no_acceptance Sample.lib Cases.without_pyzbar
              "permit.jpg" (Some "Pedro's Store") None eq_refl)
    as (r & log & Hrun & Hv & _ & Hd & _).
  exists r, log. repeat split; assumption.
Defined.

(** The result of scenario A carries the path and the time. *)
Lemma result_records_stages_witness :
  exists r log,
    run (verify_permit_image Sample.lib Cases.confirming "permit.jpg"
           (Some "Pedro's Store") None) = (Returned r, log)
    /\ file_path r = "permit.jpg"
    /\ timestamp r = "2024-05-01T09:30:00".
Proof.
  eexists _, _. split; [vm_compute; reflexivity|].
  edestruct (result_records_stages Sample.lib Cases.confirming
               "permit.jpg" (Some "Pedro's Store") None)
    as (Hf & Ht & _).
  - vm_compute. reflexivity.
  - split; [exact Hf|exact Ht].
Defined.

(** The QR code carries the text of the permit, but OCR reads nothing on
    the photograph. *)
Lemma text_payload_unreadable_image_witness :
  exists r log,
    run (verify_permit_image Sample.lib Cases.text_code_unreadable
           "permit.jpg" None None) = (Returned r, log)
    /\ valid r = false
    /\ confidence r = 0.4%float.
Proof.
  destruct (text_payload_unreadable_image Sample.lib
              Cases.text_code_unreadable "permit.jpg" None None
              Cases.permit_text "original" eq_refl eq_refl)
    as (r & log & Hrun & Hv & Hc & _).
  - vm_compute. reflexivity.
  - reflexivity.
  - exists r, log. repeat split; assumption.
Defined.

(** The QR code carries the text of the permit and OCR reads the same
    text: without classifier the permit is accepted at 0.85. *)
Lemma text_payload_policy_witness :
  exists r log,
    run (verify_permit_image Sample.lib Cases.text_code "permit.jpg"
           None None) = (Returned r, log)
    /\ valid r = true
    /\ (confidence r = 0.75%float \/ confidence r = 0.85%float).
Proof.
  destruct (text_payload_policy Sample.lib Cases.text_code "permit.jpg"
              None None Cases.permit_text "original" Cases.permit_text
              eq_refl eq_refl)
    as (r & log & Hrun & _ & _ & _ & _ & Hrule & _).
  - vm_compute. reflexivity.
  - reflexivity.
  - reflexivity.
  - destruct (Hrule eq_refl) as (Hv & Hc & _).
    assert (valid r = true) as Hvalid
      by (rewrite Hv; vm_compute; reflexivity).
    exists r, log. split; [exact Hrun|]. split; [exact Hvalid|].
    exact (Hc Hvalid).
Defined.

(** The URL decoded in scenario A is not blank. *)
Lemma scan_payload_not_blank_witness :
  is_empty (strip Sample.registry_url) = false
  /\ strip Sample.registry_url = Sample.registry_url.
Proof.
  destruct (scan_payload_not_blank Cases.confirming "permit.jpg"
              Sample.registry_url "original" eq_refl)
    as (_ & Hne & [(_ & Hs) | (Habs & _)]).
  - split; assumption.
  - vm_compute in Habs. discriminate Habs.
Defined.

(** A photograph without QR code, on which OCR reads the permit: the text
    is compared with itself. *)
Lemma ocr_fallback_compares_permit_with_itself_witness :
  exists r,
    run (verify_permit_image Sample.lib Cases.no_code "permit.jpg"
           None None)
    = (Returned r,
       [QualityStage; ClassifierStage; QrScanStage;
        OcrStage; OcrStage; OcrStage])
    /\ qr_data r = Some Cases.permit_text.
Proof.
  destruct (ocr_fallback_compares_permit_with_itself Sample.lib
              Cases.no_code "permit.jpg" None None Cases.permit_text
              eq_refl eq_refl eq_refl eq_refl)
    as (r & Hrun & Hd & _).
  - vm_compute. reflexivity.
  - exists r. split; assumption.
Defined.

(** A page that only says "Business Name Registration". *)
Lemma one_phrase_confirms_registration_witness :
  fst (validate_with_dti Sample.lib
         (Sample.world None Sample.no_qr
            (Response 200 "Business Name Registration") None)
         Sample.registry_url) = true.
Proof.
  apply (one_phrase_confirms_registration Sample.lib
           (Sample.world None Sample.no_qr
              (Response 200 "Business Name Registration") None)
           Sample.registry_url "Business Name Registration");
    reflexivity.
Defined.

(** "Business Name: Store No. 5" is skipped by the QR parser and read as a
    business number by the OCR parser. *)
Lemma name_line_with_number_mark_witness :
  pf_business_name (_parse_qr_text "Business Name: Store No. 5") = None
  /\ pf_business_number
       (_extract_permit_text_details "Business Name: Store No. 5")
     = Some "Store No. 5".
Proof.
  destruct (name_line_with_number_mark
              {| pf_business_name := None; pf_business_owner := None;
                 pf_validity_date := None; pf_business_number := None;
                 pf_scope := None; pf_raw_text := None |}
              "Business Name: Store No. 5" eq_refl)
    as (_ & Hocr).
  split; [reflexivity|].
  destruct (Hocr eq_refl) as (_ & Hnumber).
  exact (Hnumber eq_refl eq_refl eq_refl eq_refl "Store No. 5" eq_refl).
Defined.

(** The permit of the documentation. *)
Lemma parse_qr_text_reads_documented_format_witness :
  pf_business_name (_parse_qr_text Cases.permit_text)
  = Some "CHRISTIAN WATER REFILLING STATION"
  /\ pf_business_number (_parse_qr_text Cases.permit_text)
     = Some "3434737".
Proof.
  unfold Cases.permit_text.
  rewrite (parse_qr_text_reads_documented_format
             "CHRISTIAN WATER REFILLING STATION" "CITY/MUNICIPALITY"
             "JEFFREY VILLAR BERNABE" "12 January 2022 to 12 January 2027"
             "3434737");
    repeat split; reflexivity.
Defined.

(** Scenario A reports the details of the cross-check. *)
Lemma confirmed_acceptance_reports_names_witness :
  exists r log,
    run (verify_permit_image Sample.lib Cases.confirming "permit.jpg"
           (Some "Pedro's Store") None) = (Returned r, log)
    /\ valid r = true
    /\ pv_name_check_details (permit_validation r) <> None.
Proof.
  destruct (confirmed_acceptance_reports_names Sample.lib Cases.confirming
              "permit.jpg" (Some "Pedro's Store") None
              Sample.registry_url "original"
              (snd (validate_with_dti Sample.lib Cases.confirming
                      Sample.registry_url))
              eq_refl eq_refl)
    as (r & log & Hrun & Hv & _ & Hd & _).
  - vm_compute. reflexivity.
  - vm_compute. reflexivity.
  - left. vm_compute. reflexivity.
  - exists r, log. split; [exact Hrun|]. split; [exact Hv|].
    rewrite Hd. discriminate.
Defined.

(** "scan.final.JPG" is allowed, "permit.pdf" is not. *)
Lemma allowed_file_last_extension_witness :
  allowed_file "scan.final.JPG" = true /\ allowed_file "permit.pdf" = false.
Proof.
  split.
  - apply (allowed_file_last_extension "scan.final" "JPG" eq_refl).
  - apply (allowed_file_last_extension "permit" "pdf" eq_refl).
Defined.

(** Of two images the second cannot be read: one row, one label. *)
Lemma extract_dataset_rows_witness :
  exists X,
    extract_dataset
      (fun p => if String.eqb p "a.jpg"
                then Some (<["width" := PyInt 800]> ∅) else None)
      ["a.jpg"; "b.jpg"] 1
    = Returned (X, [1], ["a.jpg"])
    /\ List.length X = 1%nat.
Proof.
  destruct (extract_dataset_rows
              (fun p => if String.eqb p "a.jpg"
                        then Some (<["width" := PyInt 800]> ∅) else None)
              ["a.jpg"; "b.jpg"] 1)
    as (X & y & used_paths & Hrun & Hused & Hy & Hlen & _).
  - intros p features k v _ Hp Hk.
    destruct (String.eqb p "a.jpg"); [|discriminate Hp].
    injection Hp as <-.
    apply lookup_insert_Some in Hk as [[_ <-] | [_ Hk]]; [reflexivity|].
    rewrite lookup_empty in Hk. discriminate.
  - exists X. rewrite Hrun, Hy, Hlen, Hused. split; reflexivity.
Defined.

(** A file that does not decode is rejected at the quality gate and leaves
    no record in the document store. *)
Lemma audit_trail_skips_quality_rejections_witness :
  exists r log,
    run (verify_permit_image Sample.lib
           (Sample.world None Sample.no_qr Sample.registry_page None)
           "permit.jpg" None None) = (Returned r, log)
    /\ save_verification_record Cases.sample_storage "7f3c" r
         "verification_records" true (Some Cases.applicant)
         None None None None
       = Returned ("verification_records/7f3c_20240501_093000.json", None).
Proof.
  eexists _, _. split; [vm_compute; reflexivity|].
  edestruct (audit_trail_skips_quality_rejections Sample.lib
               (Sample.world None Sample.no_qr Sample.registry_page None)
               Cases.sample_storage "permit.jpg" None None)
    as (saved & Hsave & Hnone & _).
  - vm_compute. reflexivity.
  - reflexivity.
  - rewrite Hsave, (Hnone eq_refl). reflexivity.
Defined.

(** A PDF is refused. *)
Lemma refused_upload_touches_nothing_witness :
  exists message,
    farmer_verify Sample.lib (Cases.app Cases.confirming)
      (Cases.request_with "permit.pdf" "Pedro's Store")
    = (Returned (error_body message, 400), []).
Proof.
  apply (refused_upload_touches_nothing Sample.lib
           (Cases.app Cases.confirming)
           (Cases.request_with "permit.pdf" "Pedro's Store")).
  intros permit_file [= <-]. right. left. reflexivity.
Defined.

(** The QR code carries the text of the permit, the pipeline accepts it at
    0.85, and the route answers 500 without saving the user. *)
Lemma text_acceptance_is_answered_500_witness :
  exists effects,
    farmer_verify Sample.lib (Cases.app Cases.text_code)
      (Cases.request_with "permit.jpg" "Christian Water Refilling Station")
    = (Returned
         (error_body ("Verification failed: " ++ NONE_HAS_NO_GET), 500),
       effects)
    /\ existsb is_user_saved effects = false.
Proof.
  edestruct (text_acceptance_is_answered_500 Sample.lib
               (Cases.app Cases.text_code)
               (Cases.request_with "permit.jpg"
                  "Christian Water Refilling Station")
               {| fs_filename := Some "permit.jpg"; fs_size := 204800 |}
               Cases.sample_db Cases.applicant Cases.text_code)
    as (message & effects & Hroute & Hnot & _ & Hmessage).
  - repeat split; vm_compute; (reflexivity || discriminate).
  - reflexivity.
  - reflexivity.
  - reflexivity.
  - reflexivity.
  - vm_compute. reflexivity.
  - reflexivity.
  - reflexivity.
  - exists effects. rewrite Hroute, Hmessage by reflexivity.
    split; [reflexivity|exact Hnot].
Defined.

(** Scenario A through the route: the applicant becomes a farmer. *)
Lemma verified_answer_needs_registry_witness :
  exists body effects user,
    farmer_verify Sample.lib (Cases.app Cases.confirming)
      (Cases.request_with "permit.jpg" "Pedro's Store")
    = (Returned (body, 200), effects)
    /\ last effects = Some (UserSaved user)
    /\ u_role user = Some "farmer".
Proof.
  eexists _, _. 
  edestruct (verified_answer_needs_registry Sample.lib
               (Cases.app Cases.confirming)
               (Cases.request_with "permit.jpg" "Pedro's Store"))
    as (W & permit_path & bn & on & r & log & user & message & percentage
        & _ & _ & _ & _ & _ & Hlast & Hrole & _).
  - vm_compute. reflexivity.
  - exists user. split; [vm_compute; reflexivity|].
    split; [exact Hlast|exact Hrole].
Defined.
